(** * The availability grid of the date picker (useCalendarDays, Days, DatePicker)

    A shallow embedding of the calendar date-grid computation of the booking
    date picker: the day sequence of the browsing month, the continuation into
    the next month, the grouping into display weeks, the selection test and the
    automatic month navigation; then the rows, the separator and the month
    label the components render from it, the handlers of the booking page, the
    token check of the cron routes, the reminder about incomplete setups and
    the recurrence of a Zoom meeting. *)

From Stdlib Require Import ZArith Lia ZifyNat.
From stdpp Require Import base list sorting strings gmap pretty.

(** ** Calendar dates (the part of dayjs the date picker uses) *)

Module Dayjs.

(** A dayjs value: a civil date and the time of day in milliseconds.
    [month] is zero-based as in dayjs and JavaScript. *)
Record t : Type := mk { year : Z; month : Z; date : Z; time : Z }.

#[global] Instance t_eq_dec : EqDecision t.
Proof. solve_decision. Defined.

Definition isLeapYear (y : Z) : bool :=
  ((y mod 4 =? 0) && (negb (y mod 100 =? 0) || (y mod 400 =? 0)))%Z.

(** [new Date(year, month + 1, 0).getDate()] for a zero-based month. *)
Definition monthLength (y m : Z) : Z :=
  (if m =? 1 then (if isLeapYear y then 29 else 28)
   else if (m =? 3) || (m =? 5) || (m =? 8) || (m =? 10) then 30
   else 31)%Z.

(** Days since 1970-01-01 of a civil date (proleptic Gregorian calendar). *)
Definition epochDay (y m d : Z) : Z :=
  (let m1 := m + 1 in
   let y' := if m1 <=? 2 then y - 1 else y in
   let era := y' / 400 in
   let yoe := y' - era * 400 in
   let mp := if m1 >? 2 then m1 - 3 else m1 + 9 in
   let doy := (153 * mp + 2) / 5 + d - 1 in
   let doe := yoe * 365 + yoe / 4 - yoe / 100 + doy in
   era * 146097 + doe - 719468)%Z.

(** [.day()]: the weekday, 0 for Sunday; 1970-01-01 was a Thursday. *)
Definition day (x : t) : Z := ((epochDay (year x) (month x) (date x) + 4) mod 7)%Z.

(** [.date(n)] and [.set("date", n)]. *)
Definition set_date (x : t) (n : Z) : t :=
  {| year := year x; month := month x; date := n; time := time x |}.

(** [.add(n, "month")]: the month moves, the year follows, and the day of
    the month is clamped to the length of the new month. *)
Definition add_month (n : Z) (x : t) : t :=
  (let total := year x * 12 + month x + n in
   let y := total / 12 in
   let m := total mod 12 in
   {| year := y; month := m; date := Z.min (date x) (monthLength y m); time := time x |})%Z.

Definition digit (n : Z) : Ascii.ascii := Ascii.ascii_of_nat (48 + Z.to_nat n).

Definition pad2 (n : Z) : string :=
  String (digit (n / 10)) (String (digit (n mod 10)) EmptyString).

Definition pad4 (n : Z) : string :=
  String (digit (n / 1000)) (String (digit (n / 100 mod 10)) (pad2 (n mod 100))).

(** [.format("YYYY-MM-DD")] for the years of four digits, 1000 to 9999. *)
Definition format_YYYY_MM_DD (x : t) : string :=
  pad4 (year x) +:+ "-" +:+ pad2 (month x + 1) +:+ "-" +:+ pad2 (date x).

(** Timestamps order dayjs values and JavaScript dates. *)
Definition valueOf (x : t) : Z :=
  (epochDay (year x) (month x) (date x) * 86400000 + time x)%Z.

End Dayjs.

Abbreviation Dayjs := Dayjs.t.

(** ** @calcom/lib/date-fns *)

(** Modelled from the spec: daysInMonth of @calcom/lib/date-fns (not among the
    sources), the number of days of the month of a date. *)
Definition daysInMonth (date : Dayjs) : Z :=
  Dayjs.monthLength (Dayjs.year date) (Dayjs.month date).

(** Modelled from the spec: yyyymmdd of @calcom/lib/date-fns (not among the
    sources), the normalized YYYY-MM-DD date-string of a date. *)
Definition yyyymmdd (date : Dayjs) : string := Dayjs.format_YYYY_MM_DD date.

(** [Array.prototype.includes] on a list of strings. *)
Definition includes (l : list string) (s : string) : bool := bool_decide (s ∈ l).

(** ** Arrays as JavaScript has them *)

(** [a.slice(start, end)] for indices within [0, a.length] or beyond the end. *)
Definition slice {A : Type} (a : list A) (start end_ : nat) : list A :=
  take (end_ - start) (drop start a).

(** [a.findIndex(p)], with [None] for -1. *)
Fixpoint findIndex {A : Type} (p : A -> bool) (a : list A) : option nat :=
  match a with
  | [] => None
  | x :: a' => if p x then Some 0 else S <$> findIndex p a'
  end.

(** [Array(n).fill(null)]: a negative length is a RangeError, here [None]. *)
Definition Array_fill_null (n : Z) : option (list (option Dayjs)) :=
  if (n <? 0)%Z then None else Some (replicate (Z.to_nat n) None).

(** ** useCalendarDays *)

Record DayObject : Type := { day : option Dayjs; disabled : bool }.

#[global] Instance DayObject_eq_dec : EqDecision DayObject.
Proof. solve_decision. Defined.

Record UseCalendarDaysProps : Type := {
  browsingDate : Dayjs;
  weekStart : Z;
  minDate : option Dayjs;
  includedDates : option (list string);
  excludedDates : option (list string);
  showOneMonth : option bool
}.

(** A week of the grid is an array of its own: [allDays.slice] allocates one
    per week, and [ref] is its identity (what [===] compares). *)
Record WeekArray : Type := { ref : nat; items : list DayObject }.

#[global] Instance WeekArray_eq_dec : EqDecision WeekArray.
Proof. solve_decision. Defined.

Definition weekdayOfFirst (browsingDate : Dayjs) : Z :=
  Dayjs.day (Dayjs.set_date browsingDate 1).

(** [(weekdayOfFirst - weekStart + 7) % 7]; the remainder of JavaScript takes
    the sign of the dividend. *)
Definition paddingLength (browsingDate : Dayjs) (weekStart : Z) : Z :=
  Z.rem (weekdayOfFirst browsingDate - weekStart + 7) 7.

(** [for (let day = 1; day <= dayCount; day++) days.push(month.set("date", day))],
    with [n] the number of iterations left. *)
Fixpoint pushDays (n : nat) (day : Z) (month : Dayjs) (days : list (option Dayjs))
  : list (option Dayjs) :=
  match n with
  | 0 => days
  | S n' => pushDays n' (day + 1)%Z month (days ++ [Some (Dayjs.set_date month day)])
  end.

Definition days (browsingDate : Dayjs) (weekStart : Z) : option (list (option Dayjs)) :=
  padding ← Array_fill_null (paddingLength browsingDate weekStart);
  Some (pushDays (Z.to_nat (daysInMonth browsingDate)) 1 browsingDate padding).

(** The padding of the next month is computed from the weekday of the first
    day of the browsing month, as in the source. *)
Definition nextMonthDays (browsingDate : Dayjs) (weekStart : Z) : option (list (option Dayjs)) :=
  padding ← Array_fill_null (paddingLength browsingDate weekStart);
  Some (pushDays (Z.to_nat (daysInMonth (Dayjs.add_month 1 browsingDate))) 1
          (Dayjs.add_month 1 browsingDate) padding).

(** [includedDatesInMonth] is always an array, hence truthy: the guard
    [includedDatesInMonth && ...] never short-circuits. *)
Definition daysToRenderForTheMonth (days : list (option Dayjs))
    (includedDatesInMonth excludedDates : list string) : list DayObject :=
  map (fun day =>
         match day with
         | None => {| day := None; disabled := true |}
         | Some d =>
             {| day := Some d;
                disabled := negb (includes includedDatesInMonth (yyyymmdd d))
                            || includes excludedDates (yyyymmdd d) |}
         end) days.

Definition daysToRenderForNextMonth (nextMonthDays : list (option Dayjs))
    (includedDates : option (list string)) : list DayObject :=
  map (fun day =>
         match day with
         | None => {| day := None; disabled := true |}
         | Some d =>
             {| day := Some d;
                disabled := negb (includes (default [] includedDates) (yyyymmdd d)) |}
         end) nextMonthDays.

Definition availableDaysForTheMonth (daysToRenderForTheMonth : list DayObject) : list DayObject :=
  filter (fun day => disabled day = false) daysToRenderForTheMonth.

Definition shouldRenderNextMonth (showOneMonth : option bool)
    (includedDatesInMonth : list string) (availableDaysForTheMonth : list DayObject)
    (includedDatesNextMonth : list string) : bool :=
  if default false showOneMonth then false
  else (0 <? length includedDatesInMonth)
       && (length availableDaysForTheMonth <? 7)
       && (0 <? length includedDatesNextMonth).

Definition allDays (shouldRenderNextMonth : bool)
    (daysToRenderForTheMonth daysToRenderForNextMonth : list DayObject) : list DayObject :=
  if shouldRenderNextMonth
  then daysToRenderForTheMonth ++ filter (fun d => is_Some (day d)) daysToRenderForNextMonth
  else daysToRenderForTheMonth.

(** [for (let i = 0; i < allDays.length; i += 7) groupedWeeks.push(allDays.slice(i, i + 7))].
    [None] when the fuel runs out before the loop condition fails. *)
Fixpoint groupLoop (fuel : nat) (allDays : list DayObject) (i : nat)
    (groupedWeeks : list WeekArray) : option (list WeekArray) :=
  if i <? length allDays then
    match fuel with
    | 0 => None
    | S fuel' =>
        groupLoop fuel' allDays (i + 7)
          (groupedWeeks ++ [{| ref := length groupedWeeks; items := slice allDays i (i + 7) |}])
    end
  else Some groupedWeeks.

Definition groupedWeeks (allDays : list DayObject) : list WeekArray :=
  default [] (groupLoop (length allDays) allDays 0 []).

(** [week.some((day) => day && !day.disabled)]: the entries are objects, so
    [day] itself is always truthy. *)
Definition hasAvailableDays (week : WeekArray) : bool :=
  existsb (fun day => negb (disabled day)) (items week).

Definition availableDaysInWeek (week : WeekArray) : nat :=
  length (filter (fun day => disabled day = false) (items week)).

(** The loop [for (i = firstAvailableIndex; i <= adjustedLastAvailableIndex; i++)]
    run over the weeks [groupedWeeks[i]] of that index range, with its [break]. *)
Fixpoint boundedLoop (range : list WeekArray) (boundedWeeks : list WeekArray)
    (availableDaysCount : nat) : list WeekArray * nat :=
  match range with
  | [] => (boundedWeeks, availableDaysCount)
  | week :: range' =>
      let availableDaysCount' := availableDaysCount + availableDaysInWeek week in
      let boundedWeeks' := boundedWeeks ++ [week] in
      if 7 <=? availableDaysCount' then (boundedWeeks', availableDaysCount')
      else boundedLoop range' boundedWeeks' availableDaysCount'
  end.

Definition firstAvailableIndex (groupedWeeks : list WeekArray) : option nat :=
  findIndex hasAvailableDays groupedWeeks.

Definition adjustedLastAvailableIndex (groupedWeeks : list WeekArray) : option nat :=
  (fun lastAvailableIndex => length groupedWeeks - 1 - lastAvailableIndex)
    <$> findIndex hasAvailableDays (reverse groupedWeeks).

Definition bounded (groupedWeeks : list WeekArray) : list WeekArray * nat :=
  match firstAvailableIndex groupedWeeks, adjustedLastAvailableIndex groupedWeeks with
  | Some first, Some last => boundedLoop (slice groupedWeeks first (S last)) [] 0
  | _, _ => ([], 0)
  end.

(** [groupedWeeks.findIndex((week) => week === boundedWeeks[0])]: identity of
    arrays; nothing is identical to [undefined]. *)
Definition currentWeekIndex (groupedWeeks boundedWeeks : list WeekArray) : option nat :=
  match boundedWeeks !! 0 with
  | None => None
  | Some first => findIndex (fun week => ref week =? ref first) groupedWeeks
  end.

Definition weeks (allDays : list DayObject) (includedDatesInMonth : list string)
    (shouldRenderNextMonth : bool) : list WeekArray :=
  let groupedWeeks := groupedWeeks allDays in
  if (length includedDatesInMonth =? 0) || negb shouldRenderNextMonth then groupedWeeks
  else
    let '(boundedWeeks, availableDaysCount) := bounded groupedWeeks in
    if (length boundedWeeks <? 5) && (availableDaysCount <? 14) then
      match currentWeekIndex groupedWeeks boundedWeeks with
      | Some currentWeekIndex => slice groupedWeeks currentWeekIndex (currentWeekIndex + 5)
      | None => boundedWeeks
      end
    else boundedWeeks.

Module CalendarDays.
Record t : Type := mk {
  daysToRenderForTheMonth : list DayObject;
  daysToRenderForNextMonth : list DayObject;
  shouldRenderNextMonth : bool;
  includedDatesInMonth : list string;
  includedDatesNextMonth : list string;
  weeks : list WeekArray
}.
End CalendarDays.

Section UseCalendarDays.

(** [getAvailableDatesInMonth({ browsingDate, minDate, includedDates })] of
    @calcom/features/calendars/lib is not among the sources; the hook is
    embedded over any such function of its three arguments, which stands for
    the helper as it answers during this call of the hook (an absent
    [minDate] defaults to the current date, see [Render] for renders at
    different times). *)
Variable getAvailableDatesInMonth : Dayjs -> option Dayjs -> list string -> list string.

Definition useCalendarDays (props : UseCalendarDaysProps) : option CalendarDays.t :=
  let includedDates' := default [] (includedDates props) in
  let excludedDates' := default [] (excludedDates props) in
  let includedDatesInMonth :=
    getAvailableDatesInMonth (browsingDate props) (minDate props) includedDates' in
  let includedDatesNextMonth :=
    getAvailableDatesInMonth (Dayjs.add_month 1 (browsingDate props)) (minDate props)
      includedDates' in
  days ← days (browsingDate props) (weekStart props);
  nextMonthDays ← nextMonthDays (browsingDate props) (weekStart props);
  let daysToRenderForTheMonth :=
    daysToRenderForTheMonth days includedDatesInMonth excludedDates' in
  let daysToRenderForNextMonth :=
    daysToRenderForNextMonth nextMonthDays (Some includedDates') in
  let shouldRenderNextMonth :=
    shouldRenderNextMonth (showOneMonth props) includedDatesInMonth
      (availableDaysForTheMonth daysToRenderForTheMonth) includedDatesNextMonth in
  let allDays := allDays shouldRenderNextMonth daysToRenderForTheMonth daysToRenderForNextMonth in
  Some (CalendarDays.mk daysToRenderForTheMonth daysToRenderForNextMonth
          shouldRenderNextMonth includedDatesInMonth includedDatesNextMonth
          (weeks allDays includedDatesInMonth shouldRenderNextMonth)).

End UseCalendarDays.

(** Modelled from the spec: getAvailableDatesInMonth (not among the sources),
    the availability of a month: the date-strings of the days of the browsing
    month, from the later of [browsingDate] and [minDate] on, that occur in
    [includedDates]. An absent [minDate] defaults to the current date, which
    the helper reads from the clock: [now] is that reading. *)
Definition getAvailableDatesInMonth (now : Dayjs) (browsingDate : Dayjs)
    (minDate : option Dayjs) (includedDates : list string) : list string :=
  let minDate := default now minDate in
  let start :=
    if (Dayjs.valueOf browsingDate <? Dayjs.valueOf minDate)%Z then minDate else browsingDate in
  if (Dayjs.year start =? Dayjs.year browsingDate)%Z
     && (Dayjs.month start =? Dayjs.month browsingDate)%Z
  then
    filter (fun s => s ∈ includedDates)
      (map (fun n => yyyymmdd (Dayjs.set_date browsingDate (Dayjs.date start + Z.of_nat n)))
         (seq 0 (Z.to_nat (daysInMonth browsingDate - Dayjs.date start + 1))))
  else [].

(** ** Days: which cell is shown as selected *)

(** The outcome of evaluating JavaScript: a value, or a thrown error. *)
Inductive completion (A : Type) : Type :=
| Returns (value : A)
| Throws (error : string).
Arguments Returns {A} value.
Arguments Throws {A} error.

Definition bind {A B : Type} (c : completion A) (k : A -> completion B) : completion B :=
  match c with
  | Returns a => k a
  | Throws e => Throws e
  end.

(** [a && b] on booleans: [b] is evaluated only when [a] is true. *)
Definition and_then (a b : completion bool) : completion bool :=
  bind a (fun x => if x then b else Returns false).

(** [o[key]]: reading a property of [null] or [undefined] throws. *)
Definition get_member {V : Type} (o : option (gmap string V)) (key : string)
  : completion (option V) :=
  match o with
  | Some m => Returns (m !! key)
  | None => Throws "TypeError"
  end.

(** [Object.keys(o)]: throws on [null] and [undefined]. *)
Definition Object_keys {V : Type} (o : option (gmap string V)) : completion (list string) :=
  match o with
  | Some m => Returns (map_to_list m).*1
  | None => Throws "TypeError"
  end.

Definition truthy {A : Type} (o : option A) : bool :=
  match o with Some _ => true | None => false end.

(** A string is truthy unless it is empty. *)
Definition truthy_string (o : option string) : bool :=
  match o with Some s => negb (String.eqb s "") | None => false end.

(** The [selected] prop: [Dayjs | Dayjs[] | null], or absent. *)
Inductive Selected : Type :=
| SelectedNone
| SelectedDayjs (selected : Dayjs)
| SelectedArray (selected : list Dayjs).

Section Days.

(** [dayjs(date)] on a string is the parser of dayjs; [None] is an invalid
    date, which formats as "Invalid Date". *)
Variable dayjs : string -> option Dayjs.

Definition yyyymmdd_dayjs (date : string) : string :=
  match dayjs date with
  | Some d => yyyymmdd d
  | None => "Invalid Date"
  end.

Definition isActive (selected : Selected) (eventSlug : option string)
    (selectedDatesAndTimes : option (gmap string (gmap string (list string))))
    (day : Dayjs) : completion bool :=
  match selected with
  | SelectedArray selected =>
      Returns (existsb (fun e => String.eqb (yyyymmdd e) (yyyymmdd day)) selected)
  | _ =>
      if match selected with
         | SelectedDayjs selected => String.eqb (yyyymmdd selected) (yyyymmdd day)
         | _ => false
         end
      then Returns true
      else
        let slug := default "" eventSlug in
        let entry := get_member selectedDatesAndTimes slug in
        bind (and_then (Returns (truthy_string eventSlug))
                (and_then (Returns (truthy selectedDatesAndTimes))
                   (and_then (bind entry (fun e => Returns (truthy e)))
                      (bind (bind entry Object_keys)
                         (fun keys => Returns (0 <? length keys))))))
          (fun multiple =>
             if multiple
             then bind (bind entry Object_keys)
                    (fun keys =>
                       Returns (existsb (fun date =>
                                  String.eqb (yyyymmdd_dayjs date) (yyyymmdd day)) keys))
             else Returns false)
  end.

(** The date-strings a selection stands for: those of the array; or that of
    the single date, with the keys of the entry of the event in the store. *)
Definition selectionStrings (selected : Selected) (eventSlug : option string)
    (selectedDatesAndTimes : option (gmap string (gmap string (list string))))
  : list string :=
  match selected with
  | SelectedArray l => map yyyymmdd l
  | _ =>
      match selected with
      | SelectedDayjs d => [yyyymmdd d]
      | _ => []
      end
      ++ (if truthy_string eventSlug then
            match selectedDatesAndTimes with
            | Some m =>
                match m !! default "" eventSlug with
                | Some entry => map yyyymmdd_dayjs (map_to_list entry).*1
                | None => []
                end
            | None => []
            end
          else [])
  end.

End Days.

(** ** DatePicker: month navigation *)

Module DatePicker.

(** The [autoNavigating] state of the component and the browsing month its
    parent holds; [useState(true)] is the state at mount. *)
Record State : Type := { autoNavigating : bool; browsingDate : Dayjs }.

Definition mount (browsingDate : Dayjs) : State :=
  {| autoNavigating := true; browsingDate := browsingDate |}.

Section Navigation.

(** [onMonthChange], when given: the month the parent browses next. *)
Variable onMonthChange : option (Dayjs -> Dayjs).

Definition changeMonth (newMonth : Z) (st : State) : State :=
  {| autoNavigating := false;
     browsingDate :=
       match onMonthChange with
       | Some f => f (Dayjs.add_month newMonth (browsingDate st))
       | None => browsingDate st
       end |}.

(** The condition under which the effect navigates. *)
Definition autoAdvances (st : State) (includedDatesInMonth includedDatesNextMonth : list string)
  : bool :=
  autoNavigating st && (length includedDatesInMonth =? 0) && (0 <? length includedDatesNextMonth).

Definition autoNavigateEffect (st : State)
    (includedDatesInMonth includedDatesNextMonth : list string) : State :=
  if autoAdvances st includedDatesInMonth includedDatesNextMonth
  then changeMonth 1 st
  else {| autoNavigating := false; browsingDate := browsingDate st |}.

(** What happens to a mounted date picker: the effect runs after a render
    that saw the given availability, or a button calls [changeMonth]. *)
Inductive Event : Type :=
| EffectRun (includedDatesInMonth includedDatesNextMonth : list string)
| Manual (newMonth : Z).

Definition step (st : State) (e : Event) : State :=
  match e with
  | EffectRun inMonth inNext => autoNavigateEffect st inMonth inNext
  | Manual newMonth => changeMonth newMonth st
  end.

Definition fires (st : State) (e : Event) : bool :=
  match e with
  | EffectRun inMonth inNext => autoAdvances st inMonth inNext
  | Manual _ => false
  end.

(** The events of a session that navigated automatically, in order. *)
Fixpoint autoAdvanceLog (st : State) (es : list Event) : list bool :=
  match es with
  | [] => []
  | e :: es' => fires st e :: autoAdvanceLog (step st e) es'
  end.

End Navigation.

End DatePicker.

(** ** Days: the row of the month transition *)

(** [week.findIndex(({ day }) => day?.date() === 1 && day?.month() === next.month())]. *)
Definition transitionIndex (browsingDate : Dayjs) (week : WeekArray) : option nat :=
  findIndex (fun o =>
               match day o with
               | Some d =>
                   ((Dayjs.date d =? 1)
                    && (Dayjs.month d =? Dayjs.month (Dayjs.add_month 1 browsingDate)))%Z
               | None => false
               end) (items week).



(** ** The week window in the words of the specification *)

(** From the first week with an available day, weeks are added forward until
    at least 7 available days are visible or 5 weeks are reached, whichever
    comes first. *)
Fixpoint specExpand (range window : list WeekArray) (visible : nat) : list WeekArray :=
  match range with
  | [] => window
  | week :: range' =>
      if (7 <=? visible) || (5 <=? length window) then window
      else specExpand range' (window ++ [week]) (visible + availableDaysInWeek week)
  end.

Definition specWeeks (groupedWeeks : list WeekArray) : list WeekArray :=
  match firstAvailableIndex groupedWeeks with
  | Some first => specExpand (drop first groupedWeeks) [] 0
  | None => []
  end.

(** The disabled flag of a day of the browsing month in the words of the
    specification. *)
Definition specDisabled (includedDates excludedDates : list string) (d : Dayjs) : bool :=
  (negb (length includedDates =? 0) && negb (includes includedDates (yyyymmdd d)))
  || includes excludedDates (yyyymmdd d).

(** ** Renders: what useMemo keeps between calls *)

Module Render.

(** A memo cell holds the identities of the dependency values of the render
    that filled it, and the value computed then. *)
Record MemoCell : Type := { deps : list nat; value : list DayObject }.

(** The state of the component between renders: the next fresh array identity
    and the cell of [daysToRenderForTheMonth]. *)
Record Hooks : Type := { nextRef : nat; memoForTheMonth : option MemoCell }.

(** [useMemo(factory, deps)]: the cell is reused when every dependency is
    identical to the one of the previous render. *)
Definition useMemo (factory : list DayObject) (deps' : list nat) (cell : option MemoCell)
  : list DayObject * option MemoCell :=
  match cell with
  | Some c =>
      if decide (deps c = deps') then (value c, Some c)
      else (factory, Some {| deps := deps'; value := factory |})
  | None => (factory, Some {| deps := deps'; value := factory |})
  end.

Section WithAvailability.

(** The helper with the clock it reads: its first argument is the current
    date at the time of the call ([minDate = new Date()] when [minDate] is
    absent; the props document it: "defaults to current date"). *)
Variable getAvailableDatesInMonth :
  Dayjs -> Dayjs -> option Dayjs -> list string -> list string.

(** Lines 39-82 of the hook as one render, at the current date [now]: [days]
    and [nextMonthDays] are new arrays of this render; [includedRef] and
    [excludedRef] are the identities of the arrays [includedDatesInMonth] and
    [excludedDates]. *)
Definition renderDaysToRenderForTheMonth (now : Dayjs) (props : UseCalendarDaysProps)
    (includedRef excludedRef : nat) (st : Hooks) : option (list DayObject * Hooks) :=
  let includedDatesInMonth :=
    getAvailableDatesInMonth now (browsingDate props) (minDate props)
      (default [] (includedDates props)) in
  days ← days (browsingDate props) (weekStart props);
  let daysRef := nextRef st in
  nextMonthDays ← nextMonthDays (browsingDate props) (weekStart props);
  let '(v, cell) :=
    useMemo (daysToRenderForTheMonth days includedDatesInMonth
               (default [] (excludedDates props)))
      [daysRef; includedRef; excludedRef] (memoForTheMonth st) in
  Some (v, {| nextRef := nextRef st + 2; memoForTheMonth := cell |}).

End WithAvailability.

(** The cell was filled by an earlier render: its [days] array is older than
    every array still to be allocated. *)
Definition older (st : Hooks) : Prop :=
  match memoForTheMonth st with
  | Some c => exists r rest, deps c = r :: rest /\ r < nextRef st
  | None => True
  end.

End Render.

(** ** Vocabulary of the statements *)

(** The leading padding as the specification words it:
    (weekdayOfFirst - weekStart + 7) mod 7. *)
Definition paddingBeforeFirst (browsingDate : Dayjs) (weekStart : Z) : nat :=
  Z.to_nat ((weekdayOfFirst browsingDate - weekStart + 7) mod 7).

(** The calendar dates of the month of [month], first to last. *)
Definition monthDates (month : Dayjs) : list Dayjs :=
  map (fun k => Dayjs.set_date month (Z.of_nat k)) (seq 1 (Z.to_nat (daysInMonth month))).

(** The grouping in closed form: its [k]-th week, and the number of weeks. *)
Definition weekAt (allDays : list DayObject) (k : nat) : WeekArray :=
  {| ref := k; items := take 7 (drop (7 * k) allDays) |}.

Definition weekCount (allDays : list DayObject) : nat := (length allDays + 6) / 7.

(** The cell of a padding entry, and the cell the hook builds for a date of
    the browsing month and of the next month. *)
Definition nullCell : DayObject := {| day := None; disabled := true |}.

Definition monthCell (includedDatesInMonth excludedDates : list string) (d : Dayjs)
  : DayObject :=
  {| day := Some d;
     disabled := negb (includes includedDatesInMonth (yyyymmdd d))
                 || includes excludedDates (yyyymmdd d) |}.

Definition nextMonthCell (includedDates : list string) (d : Dayjs) : DayObject :=
  {| day := Some d; disabled := negb (includes includedDates (yyyymmdd d)) |}.

(** The available days of a run of weeks. *)
Fixpoint availableDaysIn (ws : list WeekArray) : nat :=
  match ws with
  | [] => 0
  | week :: ws' => availableDaysInWeek week + availableDaysIn ws'
  end.

(** [count] consecutive dates of the month of [month], from day [first] on. *)
Definition datesFrom (month : Dayjs) (first count : nat) : list Dayjs :=
  map (fun k => Dayjs.set_date month (Z.of_nat k)) (seq first count).

(** Calendar order of dates: by month, then by day of the month. *)
Definition before (a b : Dayjs) : Prop :=
  (Dayjs.year a * 12 + Dayjs.month a < Dayjs.year b * 12 + Dayjs.month b
   \/ (Dayjs.year a * 12 + Dayjs.month a = Dayjs.year b * 12 + Dayjs.month b
       /\ Dayjs.date a < Dayjs.date b))%Z.

(** The day sequence the weeks of a result were grouped from. *)
Definition allDaysOf (r : CalendarDays.t) : list DayObject :=
  allDays (CalendarDays.shouldRenderNextMonth r) (CalendarDays.daysToRenderForTheMonth r)
    (CalendarDays.daysToRenderForNextMonth r).

(** The position of day 1 of the next month in the combined day sequence. *)
Definition boundary (browsingDate : Dayjs) (weekStart : Z) : nat :=
  paddingBeforeFirst browsingDate weekStart + Z.to_nat (daysInMonth browsingDate).

(** The chunk of the combined day sequence that the first returned week is:
    with continuation the weeks are sliced from [firstAvailableIndex] on,
    otherwise from the start. *)
Definition firstWeek (r : CalendarDays.t) : nat :=
  if CalendarDays.shouldRenderNextMonth r
  then default 0 (firstAvailableIndex (groupedWeeks (allDaysOf r)))
  else 0.

(** ** Sample inputs *)

Definition propsOf (y m : Z) (weekStart : Z) (minDate : option Dayjs)
    (includedDates excludedDates : option (list string)) (showOneMonth : option bool)
  : UseCalendarDaysProps :=
  {| browsingDate := Dayjs.mk y m 1 0; weekStart := weekStart; minDate := minDate;
     includedDates := includedDates; excludedDates := excludedDates;
     showOneMonth := showOneMonth |}.

(** The current date of the samples: 20 May 2024. Every sample but
    [june2024_no_minDate] gives [minDate], so the helper does not use it. *)
Definition today : Dayjs := Dayjs.mk 2024 4 20 0.

(** May 2024 starts on a Wednesday. *)
Definition may2024 : UseCalendarDaysProps :=
  propsOf 2024 4 0 (Some (Dayjs.mk 2024 4 1 0)) (Some ["2024-05-20"; "2024-06-03"]) None None.

(** June 2024 with two included dates. *)
Definition june2024 : UseCalendarDaysProps :=
  propsOf 2024 5 0 (Some (Dayjs.mk 2024 5 1 0)) (Some ["2024-06-05"; "2024-06-06"]) None None.

(** June 2024 with an empty list of included dates. *)
Definition june2024_empty : UseCalendarDaysProps :=
  propsOf 2024 5 0 (Some (Dayjs.mk 2024 5 1 0)) (Some []) None None.

(** June 2024 with an included date before [minDate]. *)
Definition june2024_minDate : UseCalendarDaysProps :=
  propsOf 2024 5 0 (Some (Dayjs.mk 2024 5 10 0)) (Some ["2024-06-05"; "2024-06-12"]) None None.

(** June 2024 with a July date both included and excluded. *)
Definition june2024_excluded : UseCalendarDaysProps :=
  propsOf 2024 5 0 (Some (Dayjs.mk 2024 5 1 0))
    (Some ["2024-06-28"; "2024-07-02"]) (Some ["2024-07-02"]) None.

(** June 2024 with the whole week of 30 June to 6 July available. *)
Definition june2024_cutover : UseCalendarDaysProps :=
  propsOf 2024 5 0 (Some (Dayjs.mk 2024 5 1 0))
    (Some ["2024-06-30"; "2024-07-01"; "2024-07-02"; "2024-07-03"; "2024-07-04";
           "2024-07-05"; "2024-07-06"]) None None.

(** June 2024 with one available day in each of six consecutive weeks. *)
Definition june2024_sparse : UseCalendarDaysProps :=
  propsOf 2024 5 0 (Some (Dayjs.mk 2024 5 1 0))
    (Some ["2024-06-03"; "2024-06-10"; "2024-06-17"; "2024-06-24"; "2024-07-01";
           "2024-07-08"]) None None.


(** The day sequence of [june2024_cutover]. *)
Definition june2024_cutover_allDays : list DayObject :=
  from_option allDaysOf [] (useCalendarDays (getAvailableDatesInMonth today) june2024_cutover).

(** A stand-in for the parser of dayjs on the strings the booker stores as
    keys: YYYY-MM-DD is read as that date at midnight, anything else is an
    invalid date. *)
Definition digitValue (c : Ascii.ascii) : option Z :=
  let n := Ascii.nat_of_ascii c in
  if (48 <=? n) && (n <=? 57) then Some (Z.of_nat (n - 48)) else None.

Definition dayjsISO (s : string) : option Dayjs :=
  match String.list_ascii_of_string s with
  | [y1; y2; y3; y4; s1; m1; m2; s2; d1; d2] =>
      _ ← guard (Ascii.nat_of_ascii s1 = 45 /\ Ascii.nat_of_ascii s2 = 45);
      y1 ← digitValue y1; y2 ← digitValue y2; y3 ← digitValue y3; y4 ← digitValue y4;
      m1 ← digitValue m1; m2 ← digitValue m2; d1 ← digitValue d1; d2 ← digitValue d2;
      Some (Dayjs.mk (y1 * 1000 + y2 * 100 + y3 * 10 + y4) (m1 * 10 + m2 - 1)
              (d1 * 10 + d2) 0)%Z
  | _ => None
  end.

(** A store with two dates selected for the event "30min". *)
Definition sampleStore : gmap string (gmap string (list string)) :=
  {[ "30min" := {[ "2024-06-05" := ["10:00"]; "2024-06-07" := ["11:30"; "12:00"] ]} ]}.

(** June 2024 with nothing available and every day of July 2024 available. *)
Definition june2024_july_open : UseCalendarDaysProps :=
  propsOf 2024 5 0 (Some (Dayjs.mk 2024 5 1 0))
    (Some (map yyyymmdd (monthDates (Dayjs.mk 2024 6 1 0)))) None None.

(** June 2024 with nothing available in June or in July. *)
Definition june2024_nothing : UseCalendarDaysProps :=
  propsOf 2024 5 0 (Some (Dayjs.mk 2024 5 1 0)) (Some ["2024-09-02"]) None None.

(** June 2024 with two included dates and no [minDate]. *)
Definition june2024_no_minDate : UseCalendarDaysProps :=
  propsOf 2024 5 0 None (Some ["2024-06-05"; "2024-06-20"]) None None.

(** June 2024 with its only included date excluded, and a date of July. *)
Definition june2024_all_excluded : UseCalendarDaysProps :=
  propsOf 2024 5 0 (Some (Dayjs.mk 2024 5 1 0))
    (Some ["2024-06-05"; "2024-07-02"]) (Some ["2024-06-05"]) None.

(** The component at mount: nothing memoised, no array allocated. *)
Definition mountHooks : Render.Hooks := {| Render.nextRef := 0; Render.memoForTheMonth := None |}.

(** ** Days: the initial selection *)

(** [a.find(p)], with [None] for [undefined]. *)
Fixpoint Array_find {A : Type} (p : A -> bool) (a : list A) : option A :=
  match a with
  | [] => None
  | x :: a' => if p x then Some x else Array_find p a'
  end.

(** [daysToRenderForTheMonth.find((day) => !day.disabled)?.day]. *)
Definition firstAvailableDate (daysToRenderForTheMonth : list DayObject) : option Dayjs :=
  Array_find (fun day => negb (disabled day)) daysToRenderForTheMonth ≫= day.

(** [selected ? daysToRenderForTheMonth.some(...) : false]; an array never
    gets here, the handler has returned before. *)
Definition isSelectedDateAvailable (selected : Selected)
    (daysToRenderForTheMonth : list DayObject) : bool :=
  match selected with
  | SelectedDayjs selected =>
      existsb (fun o =>
                 match day o with
                 | Some d => String.eqb (yyyymmdd d) (yyyymmdd selected) && negb (disabled o)
                 | None => false
                 end) daysToRenderForTheMonth
  | _ => false
  end.

(** The handler, as the call [props.onChange(firstAvailableDate)] it makes, if
    any. *)
Definition handleInitialDateSelection (selected : Selected)
    (daysToRenderForTheMonth : list DayObject) : option Dayjs :=
  match selected with
  | SelectedArray _ => None
  | _ =>
      if isSelectedDateAvailable selected daysToRenderForTheMonth then None
      else firstAvailableDate daysToRenderForTheMonth
  end.

(** The effect runs the handler unless the layout is mobile. *)
Definition initialSelectionEffect (layout : string) (selected : Selected)
    (daysToRenderForTheMonth : list DayObject) : option Dayjs :=
  if String.eqb layout "mobile" then None
  else handleInitialDateSelection selected daysToRenderForTheMonth.

(** ** Days: the rows and cells of the grid *)

(** What [weeks.map] returns for a week: the "No availability" notice,
    [null], or the row of the week. *)
Inductive Row : Type :=
| NoAvailabilityRow
| NoRow
| WeekRow (week : WeekArray).

(** [week.every(({ disabled }) => disabled)]. *)
Definition isUnavailableWeek (week : WeekArray) : bool := forallb disabled (items week).

(** The callback of [weeks.map], week after week, with the variable
    [wasPreviousWeekUnavailable] it reads and writes. *)
Fixpoint renderRows (browsingDate : Dayjs) (shouldRenderNextMonth : bool)
    (wasPreviousWeekUnavailable : bool) (weeks : list WeekArray) : list Row :=
  match weeks with
  | [] => []
  | week :: weeks' =>
      let isTransitionRow := truthy (transitionIndex browsingDate week) in
      if shouldRenderNextMonth && isUnavailableWeek week && negb isTransitionRow then
        if negb wasPreviousWeekUnavailable
        then NoAvailabilityRow :: renderRows browsingDate shouldRenderNextMonth true weeks'
        else NoRow :: renderRows browsingDate shouldRenderNextMonth true weeks'
      else WeekRow week :: renderRows browsingDate shouldRenderNextMonth false weeks'
  end.

(** The rows of a render: the variable starts as [false]. *)
Definition rows (browsingDate : Dayjs) (shouldRenderNextMonth : bool) (weeks : list WeekArray)
  : list Row :=
  renderRows browsingDate shouldRenderNextMonth false weeks.

(** The second argument of [props.onChange(day, dayIsInNextMonth)] on a click. *)
Definition dayIsInNextMonth (browsingDate day : Dayjs) : bool :=
  (Dayjs.month day =? Dayjs.month (Dayjs.add_month 1 browsingDate))%Z.

(** The lines and the month label drawn over a cell of the transition row. *)
Inductive Decoration : Type := TopLine | LeftLine | BottomLine | MonthLabel.

#[global] Instance Decoration_eq_dec : EqDecision Decoration.
Proof. solve_decision. Defined.

Definition separator (shouldRenderNextMonth : bool) (transitionIndex : option nat) (idx : nat)
  : list Decoration :=
  match transitionIndex with
  | Some transitionIndex =>
      if shouldRenderNextMonth then
        (if idx =? transitionIndex
         then [TopLine] ++ (if negb (idx =? 0) then [LeftLine] else [])
                        ++ (if idx =? 0 then [MonthLabel] else [])
         else [])
        ++ (if idx <? transitionIndex
            then [BottomLine] ++ (if idx =? 0 then [MonthLabel] else [])
            else [])
        ++ (if transitionIndex <? idx then [TopLine] else [])
      else []
  | None => []
  end.

(** [!props.isPending && includedDatesInMonth?.length === 0]: the overlay
    "no availability in month" is shown. *)
Definition showsNoAvailabilityOverlay (isPending : bool) (includedDatesInMonth : list string)
  : bool :=
  negb isPending && (length includedDatesInMonth =? 0).

(** ** DatePicker: the month label *)




Section MonthText.

(** [new Intl.DateTimeFormat(language, { month: "long" }).format(new Date(year, month))]. *)
Variable monthName : Z -> Z -> string.


End MonthText.

(** ** Booker: the date picker of the booking page *)

Module Booker.

(** The calls the component makes on the booker store. *)
Inductive StoreCall : Type :=
| setSelectedDate (date : option string)
| setMonth (month : string)
| setDayCount (dayCount : option nat).

(** [.format("YYYY-MM")] for the years of four digits, 1000 to 9999. *)
Definition format_YYYY_MM (x : Dayjs) : string :=
  Dayjs.pad4 (Dayjs.year x) +:+ "-" +:+ Dayjs.pad2 (Dayjs.month x + 1).

(** [onChange]: the new [showOneMonth] state and the store calls. *)
Definition onChange (date : option Dayjs) (showOneMonthArg : option bool) (showOneMonth : bool)
  : bool * list StoreCall :=
  (if default false showOneMonthArg then true else showOneMonth,
   [setSelectedDate (Dayjs.format_YYYY_MM_DD <$> date)]).

(** [onMonthChange]: the new [showOneMonth] state and the store calls. *)
Definition onMonthChange (layout : string) (date : Dayjs) (showOneMonth : bool)
  : bool * list StoreCall :=
  (false,
   [setMonth (format_YYYY_MM date); setDayCount None]
   ++ (if negb (String.eqb layout "mobile")
       then [setSelectedDate (Some (Dayjs.format_YYYY_MM_DD date))]
       else [])).

End Booker.


(** A week that is not rendered as a row: with continuation, a week whose
    cells are all disabled and that does not hold the month transition. *)
Definition isCollapsedWeek (browsingDate : Dayjs) (shouldRenderNextMonth : bool)
    (week : WeekArray) : bool :=
  shouldRenderNextMonth && isUnavailableWeek week
  && negb (truthy (transitionIndex browsingDate week)).


(** * The token check of the cron routes (verifyCronRoutesToken) *)

Module CronRoutes.

Definition TOKEN_NOT_SUPPLIED : string := "TOKEN_NOT_SUPPLIED".
Definition TOKEN_INVALID : string := "TOKEN_INVALID".
Definition TOKEN_EXPIRED : string := "TOKEN_EXPIRED".

(** [Object.values(messages)]. *)
Definition messages : list string := [TOKEN_NOT_SUPPLIED; TOKEN_INVALID; TOKEN_EXPIRED].

(** The space character (code 32). *)
Definition space : Ascii.ascii := Ascii.ascii_of_nat 32.

(** [s.split(" ")]: the parts between the spaces, at least one part. *)
Fixpoint split_space (s : string) : list string :=
  match s with
  | EmptyString => [EmptyString]
  | String c s' =>
      if Ascii.eqb c space then EmptyString :: split_space s'
      else match split_space s' with
           | part :: parts => String c part :: parts
           | [] => [String c EmptyString]
           end
  end.

(** [verifyToken(authorization)], with [process.env.CRON_ROUTES_SECRET_KEY] as
    the first argument; [throw new Error(m)] is [Throws m]. *)
Definition verifyToken (secret authorization : option string) : completion bool :=
  if negb (truthy_string authorization) then Throws TOKEN_NOT_SUPPLIED
  else
    let parts := split_space (default EmptyString authorization) in
    if negb (bool_decide (parts !! 0 = Some "Bearer")) then Throws TOKEN_INVALID
    else
      let token := parts !! 1 in
      if negb (truthy_string token) then Throws TOKEN_NOT_SUPPLIED
      else if negb (bool_decide (token = secret)) then Throws TOKEN_INVALID
      else Returns true.

(** What a [catch] receives: an [Error] with its message, or another value. *)
Inductive Thrown : Type :=
| ErrorObject (message : string)
| OtherValue.

(** What [await next()] does when it is called. *)
Inductive NextResult : Type :=
| NextReturns
| NextThrows (error : Thrown).

(** [res.status(status).json({ message })]. *)
Record Response : Type := { status : nat; message : string }.

(** What the middleware did: whether it called [next], what it logged with
    [console.error], and the response it sent, if any. *)
Record Outcome : Type :=
  { nextCalled : bool; logged : option Thrown; response : option Response }.

(** The [catch] block. *)
Definition catch (error : Thrown) : Response :=
  match error with
  | ErrorObject m => {| status := 401; message := if includes messages m then m else m |}
  | OtherValue => {| status := 401; message := "Unable to verify cron token" |}
  end.

Definition verifyCronRoutesToken (secret authorization : option string) (next : NextResult)
  : Outcome :=
  match verifyToken secret authorization with
  | Returns _result =>
      match next with
      | NextReturns => {| nextCalled := true; logged := None; response := None |}
      | NextThrows error =>
          {| nextCalled := true; logged := Some error; response := Some (catch error) |}
      end
  | Throws m =>
      {| nextCalled := false; logged := Some (ErrorObject m);
         response := Some (catch (ErrorObject m)) |}
  end.

(** The text has a space in it. *)
Fixpoint has_space (s : string) : bool :=
  match s with
  | EmptyString => false
  | String c s' => Ascii.eqb c space || has_space s'
  end.

(** [parts.join(" ")]. *)
Fixpoint join_space (parts : list string) : string :=
  match parts with
  | [] => EmptyString
  | [part] => part
  | part :: parts' => part +:+ " " +:+ join_space parts'
  end.

End CronRoutes.

(** * The reminder about incomplete setups (notify-admin-about-incomplete-setups) *)

(** [parts.join(sep)]; [`${parts}`] is [parts.join(",")]. *)
Fixpoint Array_join (sep : string) (parts : list string) : string :=
  match parts with
  | [] => EmptyString
  | [part] => part
  | part :: parts' => part +:+ sep +:+ Array_join sep parts'
  end.

Definition newline : string := String (Ascii.ascii_of_nat 10) EmptyString.

Module Issue.

Record t : Type := mk { email : string; pendingTasks : list string }.

End Issue.

(** [issuesSnippet] and the template [incompleteSetupReminderEmail]. *)
Definition issuesSnippet (issue : Issue.t) : string :=
  ("<p>Email: " +:+ Issue.email issue +:+ "<p/>")
  +:+ ("<ul>"
       +:+ Array_join "," (map (fun i => "<li>" +:+ i +:+ "</li>") (Issue.pendingTasks issue))
       +:+ "</ul><br><br>").

Definition incompleteSetupReminderEmail (data : list Issue.t) : string :=
  newline +:+ "<p>The following users have issues with their Cal setup<p/>" +:+ newline
  +:+ "<br>" +:+ newline
  +:+ Array_join "," (map issuesSnippet data) +:+ newline.

Module NotifyAdmin.

(** The rows and objects the handler reads, with the fields it uses. *)
Record CrmUser : Type := { status : string; email : string }.
Record User : Type := { id : Z }.
Record SelectedCalendar : Type := { credentialId : option Z; externalId : string }.
(** [include_infreebusy] is read for its truthiness only. *)
Record ZohoCalendar : Type := { uid : string; name : string; include_infreebusy : bool }.

Record Mail : Type := { from : string; to : string; subject : string; html : string }.

(** What the handler calls: the list of managed users, the queries on the
    database (each a function of its [where] clause), the calendar service of
    a credential, the environment and the mailer. Each call returns or
    throws. *)
Record Services (Credential : Type) : Type :=
  { getManagedCrmUsers : completion (list CrmUser);
    user_findFirst : string -> completion (option User);
    selectedCalendar_findMany : Z -> completion (list SelectedCalendar);
    credential_findFirst : Z -> completion (option Credential);
    listCalendarsRaw : Credential -> completion (list ZohoCalendar);
    ADMIN_EMAIL : option string;
    sendMail : Mail -> completion unit }.
Arguments getManagedCrmUsers {Credential} _.
Arguments user_findFirst {Credential} _ _.
Arguments selectedCalendar_findMany {Credential} _ _.
Arguments credential_findFirst {Credential} _ _.
Arguments listCalendarsRaw {Credential} _ _.
Arguments ADMIN_EMAIL {Credential} _.
Arguments sendMail {Credential} _ _.

Definition notSetUp : string := "Managed setup has not been done".
Definition notConnected : string := "User has not connected any zoho calendar".
Definition reconnect : string := "User needs to reconnect zoho calendar".
Definition enableFreeBusy (name : string) : string :=
  "User needs to enable free busy on zoho calendar: " +:+ name.

(** The texts a pending task can be. *)
Definition isPendingTask (task : string) : Prop :=
  task = notSetUp \/ task = notConnected \/ task = reconnect
  \/ exists name, task = enableFreeBusy name.

(** A number or [null] is truthy unless it is [null] or 0. *)
Definition truthy_number (n : option Z) : bool :=
  match n with Some n => negb (n =? 0)%Z | None => false end.

Section Handler.

Context {Credential : Type} (services : Services Credential).

(** The inner loop, over the selected calendars of a user. *)
Fixpoint checkCalendars (selectedCalendars : list SelectedCalendar) (pendingTasks : list string)
  : completion (list string) :=
  match selectedCalendars with
  | [] => Returns pendingTasks
  | calendar :: rest =>
      if negb (truthy_number (credentialId calendar))
      then checkCalendars rest (pendingTasks ++ [reconnect])
      else
        bind (credential_findFirst services (default 0%Z (credentialId calendar)))
          (fun credential =>
             match credential with
             | None => checkCalendars rest (pendingTasks ++ [reconnect])
             | Some credential =>
                 bind (listCalendarsRaw services credential)
                   (fun calendars =>
                      match Array_find (fun cal => String.eqb (uid cal) (externalId calendar))
                              calendars with
                      | None => checkCalendars rest (pendingTasks ++ [reconnect])
                      | Some externalCalendar =>
                          let isSharingFreeBusy := include_infreebusy externalCalendar in
                          if negb isSharingFreeBusy
                          then checkCalendars rest
                                 (pendingTasks ++ [enableFreeBusy (name externalCalendar)])
                          else checkCalendars rest pendingTasks
                      end)
             end)
  end.

(** The outer loop, over the managed users. *)
Fixpoint checkUsers (crmUsers : list CrmUser) (incompleteSetups : list Issue.t)
  : completion (list Issue.t) :=
  match crmUsers with
  | [] => Returns incompleteSetups
  | crmUser :: rest =>
      let hasNotStartedSetup := String.eqb (status crmUser) "Not Started" in
      if hasNotStartedSetup
      then checkUsers rest (incompleteSetups ++ [Issue.mk (email crmUser) [notSetUp]])
      else
        bind (user_findFirst services (email crmUser))
          (fun user =>
             match user with
             | None => checkUsers rest (incompleteSetups ++ [Issue.mk (email crmUser) [notSetUp]])
             | Some user =>
                 bind (selectedCalendar_findMany services (id user))
                   (fun selectedCalendars =>
                      if length selectedCalendars =? 0
                      then checkUsers rest
                             (incompleteSetups ++ [Issue.mk (email crmUser) [notConnected]])
                      else
                        bind (checkCalendars selectedCalendars [])
                          (fun pendingTasks =>
                             if negb (length pendingTasks =? 0)
                             then checkUsers rest
                                    (incompleteSetups ++ [Issue.mk (email crmUser) pendingTasks])
                             else checkUsers rest incompleteSetups))
             end)
  end.

(** The users with an incomplete setup, as the handler collects them. *)
Definition incompleteSetups : completion (list Issue.t) :=
  bind (getManagedCrmUsers services) (fun crmUsers => checkUsers crmUsers []).

Definition reminder (to : string) (incompleteSetups : list Issue.t) : Mail :=
  {| from := "buffer-sender@buffer-staging.esa-emails.technology";
     to := to;
     subject := "Reminder: Users with incomplete Cal setup";
     html := incompleteSetupReminderEmail incompleteSetups |}.

(** [postHandler]: the calls of [sendMail] it made, and the message it
    returns or the error it throws. *)
Definition postHandler : list Mail * completion string :=
  match incompleteSetups with
  | Throws e => ([], Throws e)
  | Returns incompleteSetups =>
      if negb (length incompleteSetups =? 0) && truthy_string (ADMIN_EMAIL services)
      then
        let mail := reminder (default EmptyString (ADMIN_EMAIL services)) incompleteSetups in
        match sendMail services mail with
        | Returns _ => ([mail], Returns "In progress")
        | Throws e => ([mail], Throws e)
        end
      else ([], Returns "In progress")
  end.

End Handler.

(** A sample: one user who has not started, and one whose calendar does not
    share its free and busy times. Credentials are numbers here. *)
Definition sampleUsers : list CrmUser :=
  [ {| status := "Not Started"; email := "ann@example.com" |};
    {| status := "Completed"; email := "bob@example.com" |};
    {| status := "Completed"; email := "eve@example.com" |} ].

Definition sampleIssues : list Issue.t :=
  [ Issue.mk "ann@example.com" [notSetUp];
    Issue.mk "bob@example.com" [enableFreeBusy "Work"] ].

Definition sampleServices : Services Z :=
  {| getManagedCrmUsers := Returns sampleUsers;
     user_findFirst := fun email =>
       Returns (if String.eqb email "bob@example.com" then Some {| id := 7 |}
                else if String.eqb email "eve@example.com" then Some {| id := 8 |}
                else None);
     selectedCalendar_findMany := fun userId =>
       Returns (if (userId =? 7)%Z then [ {| credentialId := Some 3%Z; externalId := "work" |} ]
                else [ {| credentialId := Some 4%Z; externalId := "home" |} ]);
     credential_findFirst := fun id => Returns (Some id);
     listCalendarsRaw := fun credential =>
       Returns [ {| uid := "work"; name := "Work"; include_infreebusy := false |};
                 {| uid := "home"; name := "Home"; include_infreebusy := true |} ];
     ADMIN_EMAIL := Some "admin@example.com";
     sendMail := fun _ => Returns tt |}.

End NotifyAdmin.

(** * The recurrence of a Zoom meeting (ZoomVideoApiAdapter, getRecurrence) *)

Module Zoom.

(** [Frequency] of @calcom/prisma/zod-utils. *)
Inductive Frequency : Type :=
| YEARLY | MONTHLY | WEEKLY | DAILY | HOURLY | MINUTELY | SECONDLY.

(** A [Date]: its timestamp, or an invalid date. *)
Inductive Date : Type :=
| ValidDate (time : Z)
| InvalidDate.

(** A number: an integer here, or NaN. *)
Inductive Number : Type :=
| Num (value : Z)
| NaN.

(** The fields of the event that [getRecurrence] reads; [until] is a date or
    absent. *)
Record RecurringEvent : Type :=
  { freq : Frequency; interval : Z; count : Z; until : option Date }.

Record Person : Type := { timeZone : string }.

Record CalendarEvent : Type :=
  { recurringEvent : option RecurringEvent; startTime : string; attendees : list Person }.

(** [ZoomRecurrence]: an absent field is [None]. *)
Record ZoomRecurrence : Type :=
  { end_date_time : option string;
    type : Z;
    end_times : option Z;
    repeat_interval : option Z;
    weekly_days : option Number;
    monthly_day : option Number }.

Definition recurrenceOfType (type : Z) : ZoomRecurrence :=
  {| end_date_time := None; type := type; end_times := None; repeat_interval := None;
     weekly_days := None; monthly_day := None |}.

Section GetRecurrence.

(** [dayjs(startTime).tz(timeZone)]: it throws (a RangeError for a time zone
    that is not known), or returns a date, which is invalid ([None]) when
    [startTime] is not a date. *)
Variable tz : string -> string -> completion (option Dayjs).

(** [date.toISOString()] on a valid date, by its timestamp. *)
Variable toISOString : Z -> string.

(** [until.toISOString()]: a RangeError on an invalid date. *)
Definition Date_toISOString (date : Date) : completion string :=
  match date with
  | ValidDate time => Returns (toISOString time)
  | InvalidDate => Throws "RangeError"
  end.

(** [.day()] and [.date()]: NaN on an invalid date. *)
Definition day (x : option Dayjs) : Number :=
  match x with Some x => Num (Dayjs.day x) | None => NaN end.

Definition date (x : option Dayjs) : Number :=
  match x with Some x => Num (Dayjs.date x) | None => NaN end.

(** [n + 1]. *)
Definition plus_one (n : Number) : Number :=
  match n with Num n => Num (n + 1)%Z | NaN => NaN end.

(** [attendees[0].timeZone]: reading a property of [undefined] throws. *)
Definition firstTimeZone (attendees : list Person) : completion string :=
  match attendees with
  | attendee :: _ => Returns (timeZone attendee)
  | [] => Throws "TypeError"
  end.

(** [dayjs(startTime).tz(attendees[0].timeZone)]. *)
Definition startInZone (event : CalendarEvent) : completion (option Dayjs) :=
  bind (firstTimeZone (attendees event)) (fun zone => tz (startTime event) zone).

(** The [switch]: the recurrence by frequency, or the early [return]. *)
Definition recurrenceByFrequency (event : CalendarEvent) (recurringEvent : RecurringEvent)
  : completion (option ZoomRecurrence) :=
  match freq recurringEvent with
  | DAILY => Returns (Some (recurrenceOfType 1))
  | WEEKLY =>
      bind (startInZone event)
        (fun start =>
           Returns (Some {| end_date_time := None; type := 2; end_times := None;
                            repeat_interval := None;
                            weekly_days := Some (plus_one (day start));
                            monthly_day := None |}))
  | MONTHLY =>
      bind (startInZone event)
        (fun start =>
           Returns (Some {| end_date_time := None; type := 3; end_times := None;
                            repeat_interval := None;
                            weekly_days := None;
                            monthly_day := Some (date start) |}))
  | _ => Returns None
  end.

(** [recurrence.repeat_interval = ...] and the [if] on [until]. *)
Definition withEnd (recurringEvent : RecurringEvent) (recurrence : ZoomRecurrence)
  : completion ZoomRecurrence :=
  let recurrence :=
    {| end_date_time := end_date_time recurrence; type := type recurrence;
       end_times := end_times recurrence;
       repeat_interval := Some (interval recurringEvent);
       weekly_days := weekly_days recurrence;
       monthly_day := monthly_day recurrence |} in
  match until recurringEvent with
  | Some until =>
      bind (Date_toISOString until)
        (fun text =>
           Returns {| end_date_time := Some text; type := type recurrence;
                      end_times := end_times recurrence;
                      repeat_interval := repeat_interval recurrence;
                      weekly_days := weekly_days recurrence;
                      monthly_day := monthly_day recurrence |})
  | None =>
      Returns {| end_date_time := end_date_time recurrence; type := type recurrence;
                 end_times := Some (count recurringEvent);
                 repeat_interval := repeat_interval recurrence;
                 weekly_days := weekly_days recurrence;
                 monthly_day := monthly_day recurrence |}
  end.

(** [getRecurrence(event)]: [undefined], or the recurrence with type 8. *)
Definition getRecurrence (event : CalendarEvent) : completion (option (ZoomRecurrence * Z)) :=
  match recurringEvent event with
  | None => Returns None
  | Some recurringEvent =>
      bind (recurrenceByFrequency event recurringEvent)
        (fun recurrence =>
           match recurrence with
           | None => Returns None
           | Some recurrence =>
               bind (withEnd recurringEvent recurrence)
                 (fun recurrence => Returns (Some (recurrence, 8%Z)))
           end)
  end.

(** The [type] of the meeting [translateEvent] builds: 2, unless the spread
    of the recurrence replaces it. *)
Definition translateEvent_type (event : CalendarEvent) : completion Z :=
  bind (getRecurrence event)
    (fun recurrence =>
       match recurrence with
       | Some (_, type) => Returns type
       | None => Returns 2%Z
       end).

End GetRecurrence.

(** Time zones for the examples: one zone is known, and the start is read
    as 30 June 2024, a Sunday, unless it is not a date. *)
Definition sample_tz (startTime zone : string) : completion (option Dayjs) :=
  if String.eqb zone "Europe/London"
  then Returns (if String.eqb startTime "soon" then None else Some (Dayjs.mk 2024 5 30 0))
  else Throws "RangeError".

Definition sampleEvent (freq : Frequency) (until : option Date) (startTime : string)
    (zones : list string) : CalendarEvent :=
  {| recurringEvent :=
       Some {| freq := freq; interval := 1; count := 4; until := until |};
     startTime := startTime;
     attendees := map (fun zone => {| timeZone := zone |}) zones |}.

End Zoom.

(* ===================================================================== *)
(** * Properties *)

Local Ltac Zify.zify_post_hook ::= Z.to_euclidean_division_equations.
#[local] Arguments Nat.mul : simpl never.
#[local] Arguments Nat.div : simpl never.
#[local] Arguments Nat.modulo : simpl never.

(** Reading a field of the record the hook returns. *)
Ltac hook_fields :=
  cbn [CalendarDays.daysToRenderForTheMonth CalendarDays.daysToRenderForNextMonth
       CalendarDays.shouldRenderNextMonth CalendarDays.includedDatesInMonth
       CalendarDays.includedDatesNextMonth CalendarDays.weeks].

Ltac hook_fields_in H :=
  cbn [CalendarDays.daysToRenderForTheMonth CalendarDays.daysToRenderForNextMonth
       CalendarDays.shouldRenderNextMonth CalendarDays.includedDatesInMonth
       CalendarDays.includedDatesNextMonth CalendarDays.weeks] in H.

(** ** The calendar *)

Example weekday_of_known_dates :
  Dayjs.day (Dayjs.mk 1970 0 1 0) = 4%Z      (* Thursday *)
  /\ Dayjs.day (Dayjs.mk 2024 4 1 0) = 3%Z   (* Wednesday *)
  /\ Dayjs.day (Dayjs.mk 2024 5 1 0) = 6%Z   (* Saturday *)
  /\ Dayjs.day (Dayjs.mk 2026 1 1 0) = 0%Z.  (* Sunday *)
Proof. repeat split; reflexivity. Qed.

Example daysInMonth_of_known_months :
  daysInMonth (Dayjs.mk 2024 1 1 0) = 29%Z
  /\ daysInMonth (Dayjs.mk 2026 1 1 0) = 28%Z
  /\ daysInMonth (Dayjs.mk 2024 5 1 0) = 30%Z
  /\ daysInMonth (Dayjs.mk 1900 1 1 0) = 28%Z.
Proof. repeat split; reflexivity. Qed.

Example yyyymmdd_of_known_dates :
  yyyymmdd (Dayjs.mk 2024 5 5 0) = "2024-06-05"
  /\ yyyymmdd (Dayjs.mk 2024 11 31 86399999) = "2024-12-31"
  /\ yyyymmdd (Dayjs.mk 987 0 9 0) = "0987-01-09".
Proof. repeat split; reflexivity. Qed.

Example add_month_rolls_over_and_clamps :
  Dayjs.add_month 1 (Dayjs.mk 2024 11 31 0) = Dayjs.mk 2025 0 31 0
  /\ Dayjs.add_month 1 (Dayjs.mk 2024 0 31 0) = Dayjs.mk 2024 1 29 0
  /\ Dayjs.add_month (-1) (Dayjs.mk 2024 0 15 0) = Dayjs.mk 2023 11 15 0.
Proof. repeat split; reflexivity. Qed.

Lemma monthLength_bounds y m : (28 <= Dayjs.monthLength y m <= 31)%Z.
Proof.
  unfold Dayjs.monthLength.
  repeat match goal with |- context [if ?b then _ else _] => destruct b end; lia.
Qed.

Lemma daysInMonth_bounds d : (28 <= daysInMonth d <= 31)%Z.
Proof. apply monthLength_bounds. Qed.

Lemma weekdayOfFirst_bounds b : (0 <= weekdayOfFirst b < 7)%Z.
Proof. unfold weekdayOfFirst, Dayjs.day. apply Z.mod_pos_bound. lia. Qed.

Lemma paddingLength_mod b ws :
  (0 <= ws <= 6)%Z ->
  paddingLength b ws = ((weekdayOfFirst b - ws + 7) mod 7)%Z.
Proof.
  intros Hws. unfold paddingLength.
  pose proof (weekdayOfFirst_bounds b).
  apply Z.rem_mod_nonneg; lia.
Qed.

Lemma paddingBeforeFirst_lt b ws : paddingBeforeFirst b ws < 7.
Proof.
  unfold paddingBeforeFirst.
  pose proof (Z.mod_pos_bound (weekdayOfFirst b - ws + 7) 7 ltac:(lia)). lia.
Qed.

Lemma Array_fill_null_padding b ws :
  (0 <= ws <= 6)%Z ->
  Array_fill_null (paddingLength b ws) = Some (replicate (paddingBeforeFirst b ws) None).
Proof.
  intros Hws. rewrite paddingLength_mod by done.
  unfold Array_fill_null, paddingBeforeFirst.
  pose proof (Z.mod_pos_bound (weekdayOfFirst b - ws + 7) 7 ltac:(lia)).
  destruct (Z.ltb_spec ((weekdayOfFirst b - ws + 7) mod 7) 0); [lia | done].
Qed.

Lemma pushDays_app n : forall d month acc,
  pushDays n d month acc
  = acc ++ map (fun k => Some (Dayjs.set_date month (d + Z.of_nat k)%Z)) (seq 0 n).
Proof.
  induction n as [|n IH]; intros d month acc; simpl.
  - by rewrite app_nil_r.
  - rewrite IH, <- app_assoc. simpl. f_equal.
    rewrite Z.add_0_r. f_equal.
    rewrite <- seq_shift, map_map. apply map_ext. intros k. do 2 f_equal. lia.
Qed.

Lemma pushDays_monthDates month acc :
  pushDays (Z.to_nat (daysInMonth month)) 1 month acc = acc ++ map Some (monthDates month).
Proof.
  rewrite pushDays_app. f_equal. unfold monthDates.
  rewrite <- seq_shift, !map_map. apply map_ext. intros k. do 2 f_equal. lia.
Qed.

Lemma monthDates_length month : length (monthDates month) = Z.to_nat (daysInMonth month).
Proof. unfold monthDates. by rewrite length_map, length_seq. Qed.

Lemma days_eq b ws :
  (0 <= ws <= 6)%Z ->
  days b ws = Some (replicate (paddingBeforeFirst b ws) None ++ map Some (monthDates b)).
Proof.
  intros Hws. unfold days. rewrite Array_fill_null_padding by done. cbn [mbind option_bind].
  by rewrite pushDays_monthDates.
Qed.

Lemma nextMonthDays_eq b ws :
  (0 <= ws <= 6)%Z ->
  nextMonthDays b ws
  = Some (replicate (paddingBeforeFirst b ws) None
          ++ map Some (monthDates (Dayjs.add_month 1 b))).
Proof.
  intros Hws. unfold nextMonthDays. rewrite Array_fill_null_padding by done.
  cbn [mbind option_bind].
  by rewrite pushDays_monthDates.
Qed.

(** ** The day sequences of the hook *)

Lemma map_replicate {A B : Type} (f : A -> B) n x :
  map f (replicate n x) = replicate n (f x).
Proof. induction n as [|n IH]; simpl; [done | by f_equal]. Qed.

Lemma daysToRenderForTheMonth_eq pad dates inM exc :
  daysToRenderForTheMonth (replicate pad None ++ map Some dates) inM exc
  = replicate pad nullCell ++ map (monthCell inM exc) dates.
Proof.
  unfold daysToRenderForTheMonth. by rewrite map_app, map_map, map_replicate.
Qed.

Lemma daysToRenderForNextMonth_eq pad dates inc :
  daysToRenderForNextMonth (replicate pad None ++ map Some dates) (Some inc)
  = replicate pad nullCell ++ map (nextMonthCell inc) dates.
Proof.
  unfold daysToRenderForNextMonth. by rewrite map_app, map_map, map_replicate.
Qed.

Lemma filter_day_nextMonth pad dates inc :
  filter (fun d => is_Some (day d)) (replicate pad nullCell ++ map (nextMonthCell inc) dates)
  = map (nextMonthCell inc) dates.
Proof.
  rewrite filter_app.
  assert (filter (fun d => is_Some (day d)) (replicate pad nullCell) = []) as ->.
  { induction pad as [|pad IH]; simpl; [done|].
    rewrite filter_cons_False; [done|]. simpl. by intros [? ?]. }
  simpl. induction dates as [|d dates IH]; simpl; [done|].
  rewrite filter_cons_True by (simpl; eauto). by rewrite IH.
Qed.

Section HookFacts.

Variable h : Dayjs -> option Dayjs -> list string -> list string.

(** The hook returns for every week start 0 to 6, and what it returns. *)
Lemma useCalendarDays_eq (p : UseCalendarDaysProps) :
  (0 <= weekStart p <= 6)%Z ->
  let inc := default [] (includedDates p) in
  let exc := default [] (excludedDates p) in
  let inM := h (browsingDate p) (minDate p) inc in
  let inN := h (Dayjs.add_month 1 (browsingDate p)) (minDate p) inc in
  let pad := paddingBeforeFirst (browsingDate p) (weekStart p) in
  let dtrM := replicate pad nullCell ++ map (monthCell inM exc) (monthDates (browsingDate p)) in
  let dtrN := replicate pad nullCell
              ++ map (nextMonthCell inc) (monthDates (Dayjs.add_month 1 (browsingDate p))) in
  let should := shouldRenderNextMonth (showOneMonth p) inM (availableDaysForTheMonth dtrM) inN in
  useCalendarDays h p
  = Some (CalendarDays.mk dtrM dtrN should inM inN (weeks (allDays should dtrM dtrN) inM should)).
Proof.
  intros Hws. cbv zeta. unfold useCalendarDays.
  rewrite days_eq, nextMonthDays_eq by done. cbn [mbind option_bind].
  by rewrite daysToRenderForTheMonth_eq, daysToRenderForNextMonth_eq.
Qed.

End HookFacts.

(** C4. For every browsing month and week start 0 to 6 the hook returns, and
    the day sequence of the month is (weekdayOfFirst - weekStart + 7) mod 7
    null entries followed by one entry per calendar date of the month, in
    order; its length is paddingBeforeFirst + daysInMonth; with week start 0
    and a month that starts on a Wednesday there are exactly 3 leading nulls. *)
Theorem computeMonthDays_padding_then_dates
    (h : Dayjs -> option Dayjs -> list string -> list string) (p : UseCalendarDaysProps) :
  (0 <= weekStart p <= 6)%Z ->
  exists r,
    useCalendarDays h p = Some r
    /\ map day (CalendarDays.daysToRenderForTheMonth r)
       = replicate (paddingBeforeFirst (browsingDate p) (weekStart p)) None
         ++ map Some (monthDates (browsingDate p))
    /\ length (CalendarDays.daysToRenderForTheMonth r)
       = paddingBeforeFirst (browsingDate p) (weekStart p)
         + Z.to_nat (daysInMonth (browsingDate p))
    /\ (weekStart p = 0%Z -> weekdayOfFirst (browsingDate p) = 3%Z ->
        paddingBeforeFirst (browsingDate p) (weekStart p) = 3).
Proof.
  intros Hws. eexists. split; [by apply useCalendarDays_eq|]. hook_fields.
  split; [|split].
  - by rewrite map_app, map_map, map_replicate.
  - by rewrite length_app, length_replicate, length_map, monthDates_length.
  - intros Hz Hw. unfold paddingBeforeFirst. by rewrite Hz, Hw.
Qed.

Lemma computeMonthDays_padding_then_dates_witness :
  exists r,
    useCalendarDays (getAvailableDatesInMonth today) may2024 = Some r
    /\ map day (CalendarDays.daysToRenderForTheMonth r)
       = replicate (paddingBeforeFirst (browsingDate may2024) (weekStart may2024)) None
         ++ map Some (monthDates (browsingDate may2024))
    /\ length (CalendarDays.daysToRenderForTheMonth r)
       = paddingBeforeFirst (browsingDate may2024) (weekStart may2024)
         + Z.to_nat (daysInMonth (browsingDate may2024))
    /\ (weekStart may2024 = 0%Z -> weekdayOfFirst (browsingDate may2024) = 3%Z ->
        paddingBeforeFirst (browsingDate may2024) (weekStart may2024) = 3).
Proof.
  apply (computeMonthDays_padding_then_dates (getAvailableDatesInMonth today) may2024).
  unfold may2024, june2024, june2024_excluded, propsOf; cbn [weekStart]; lia.
Defined.

Example may2024_three_leading_nulls :
  weekdayOfFirst (browsingDate may2024) = 3%Z
  /\ (map day <$> (CalendarDays.daysToRenderForTheMonth
                     <$> useCalendarDays (getAvailableDatesInMonth today) may2024))
     = Some ([None; None; None] ++ map Some (monthDates (browsingDate may2024))).
Proof. split; vm_compute; reflexivity. Qed.

(** ** The availability of a month *)

(** The modelled helper keeps included dates only, and dates of the browsing
    month only. *)
Lemma getAvailableDatesInMonth_dates now b m inc s :
  (1 <= Dayjs.date b)%Z -> (1 <= Dayjs.date (default now m))%Z ->
  s ∈ getAvailableDatesInMonth now b m inc ->
  s ∈ inc /\ exists d, d ∈ monthDates b /\ s = yyyymmdd d.
Proof.
  intros Hb Hm. unfold getAvailableDatesInMonth. cbv zeta.
  set (start := if (Dayjs.valueOf b <? Dayjs.valueOf (default now m))%Z
                then default now m else b).
  assert (1 <= Dayjs.date start)%Z as Hstart.
  { unfold start. by destruct (Dayjs.valueOf b <? Dayjs.valueOf (default now m))%Z. }
  destruct (_ && _); [|by intros ?%elem_of_nil].
  intros [Hinc Hin]%list_elem_of_filter. split; [done|].
  apply list_elem_of_In, in_map_iff in Hin as (n & <- & Hn). apply in_seq in Hn.
  eexists. split; [|done].
  unfold monthDates. apply list_elem_of_In, in_map_iff.
  exists (Z.to_nat (Dayjs.date start + Z.of_nat n)). split.
  - f_equal. lia.
  - apply in_seq. lia.
Qed.

(** ** Which days are disabled *)

Lemma includes_true l s : includes l s = true <-> s ∈ l.
Proof. unfold includes. apply bool_decide_eq_true. Qed.

Lemma includes_false l s : includes l s = false <-> s ∉ l.
Proof. unfold includes. apply bool_decide_eq_false. Qed.

Lemma elem_of_padded_cells (f : Dayjs -> DayObject) pad dates o d :
  (forall x, day (f x) = Some x) ->
  o ∈ replicate pad nullCell ++ map f dates -> day o = Some d -> o = f d /\ d ∈ dates.
Proof.
  intros Hf Ho Hd. apply elem_of_app in Ho as [Ho|Ho].
  - apply elem_of_replicate in Ho as [-> _]. discriminate.
  - apply list_elem_of_In, in_map_iff in Ho as (x & <- & Hx).
    rewrite Hf in Hd. injection Hd as ->. split; [done|]. by apply list_elem_of_In.
Qed.



(** 2 July 2024 is both included and excluded, and it is rendered enabled in
    the continuation of June 2024. *)
Example july2_included_and_excluded_is_enabled :
  (CalendarDays.daysToRenderForNextMonth
     <$> useCalendarDays (getAvailableDatesInMonth today) june2024_excluded) ≫= (.!! 7)
  = Some {| day := Some (Dayjs.mk 2024 6 2 0); disabled := false |}.
Proof. vm_compute. reflexivity. Qed.

(** C5, as the code has it. A day of the browsing month is disabled exactly
    when its date-string is absent from includedDatesInMonth (what
    getAvailableDatesInMonth keeps of includedDates for the browsing month and
    minDate) or present in excludedDates; when the helper keeps only included
    dates, every day outside includedDates is disabled. *)
Theorem month_disabled_iff
    (h : Dayjs -> option Dayjs -> list string -> list string) (p : UseCalendarDaysProps) :
  (0 <= weekStart p <= 6)%Z ->
  exists r,
    useCalendarDays h p = Some r
    /\ CalendarDays.includedDatesInMonth r
       = h (browsingDate p) (minDate p) (default [] (includedDates p))
    /\ (forall o d, o ∈ CalendarDays.daysToRenderForTheMonth r -> day o = Some d ->
          (disabled o = true <->
           yyyymmdd d ∉ CalendarDays.includedDatesInMonth r
           \/ yyyymmdd d ∈ default [] (excludedDates p)))
    /\ ((forall s, s ∈ CalendarDays.includedDatesInMonth r -> s ∈ default [] (includedDates p)) ->
        forall o d, o ∈ CalendarDays.daysToRenderForTheMonth r -> day o = Some d ->
          yyyymmdd d ∉ default [] (includedDates p) -> disabled o = true).
Proof.
  intros Hws. eexists. split; [by apply useCalendarDays_eq|]. hook_fields.
  split; [done|].
  assert (forall o d,
    o ∈ replicate (paddingBeforeFirst (browsingDate p) (weekStart p)) nullCell
        ++ map (monthCell (h (browsingDate p) (minDate p) (default [] (includedDates p)))
                  (default [] (excludedDates p)))
             (monthDates (browsingDate p)) ->
    day o = Some d ->
    (disabled o = true <->
     yyyymmdd d ∉ h (browsingDate p) (minDate p) (default [] (includedDates p))
     \/ yyyymmdd d ∈ default [] (excludedDates p))) as Hcell.
  { intros o d Ho Hd.
    destruct (elem_of_padded_cells (monthCell _ _) _ _ _ _ (fun _ => eq_refl) Ho Hd)
      as [-> _].
    simpl. by rewrite orb_true_iff, negb_true_iff, includes_false, includes_true. }
  split; [exact Hcell|].
  intros Hsub o d Ho Hd Hnot. apply (Hcell o d Ho Hd). left. intros Hin.
  apply Hnot. by apply Hsub.
Qed.

Lemma month_disabled_iff_witness :
  exists r,
    useCalendarDays (getAvailableDatesInMonth today) june2024 = Some r
    /\ CalendarDays.includedDatesInMonth r
       = getAvailableDatesInMonth today (browsingDate june2024) (minDate june2024)
           (default [] (includedDates june2024))
    /\ (forall o d, o ∈ CalendarDays.daysToRenderForTheMonth r -> day o = Some d ->
          (disabled o = true <->
           yyyymmdd d ∉ CalendarDays.includedDatesInMonth r
           \/ yyyymmdd d ∈ default [] (excludedDates june2024)))
    /\ ((forall s, s ∈ CalendarDays.includedDatesInMonth r ->
                   s ∈ default [] (includedDates june2024)) ->
        forall o d, o ∈ CalendarDays.daysToRenderForTheMonth r -> day o = Some d ->
          yyyymmdd d ∉ default [] (includedDates june2024) -> disabled o = true).
Proof.
  apply (month_disabled_iff (getAvailableDatesInMonth today) june2024).
  unfold may2024, june2024, june2024_excluded, propsOf; cbn [weekStart]; lia.
Defined.

(** With includedDates = [2024-06-05; 2024-06-06], June 2024 has its 5th and
    6th enabled and every other day disabled. *)
Example june2024_only_included_days_enabled :
  (map disabled <$> (CalendarDays.daysToRenderForTheMonth
                       <$> useCalendarDays (getAvailableDatesInMonth today) june2024))
  = Some (replicate 6 true ++ replicate 4 true ++ [false; false] ++ replicate 24 true).
Proof. vm_compute. reflexivity. Qed.

(** C5 does not hold as stated: with an empty includedDates 5 June 2024 is
    disabled although it is not excluded, and with minDate 10 June 2024 it is
    disabled although it is included. *)
Lemma month_disabled_not_as_specified :
  ((CalendarDays.daysToRenderForTheMonth
      <$> useCalendarDays (getAvailableDatesInMonth today) june2024_empty) ≫= (.!! 10)
   = Some {| day := Some (Dayjs.mk 2024 5 5 0); disabled := true |}
   /\ specDisabled (default [] (includedDates june2024_empty))
        (default [] (excludedDates june2024_empty)) (Dayjs.mk 2024 5 5 0) = false)
  /\ ((CalendarDays.daysToRenderForTheMonth
         <$> useCalendarDays (getAvailableDatesInMonth today) june2024_minDate) ≫= (.!! 10)
      = Some {| day := Some (Dayjs.mk 2024 5 5 0); disabled := true |}
      /\ specDisabled (default [] (includedDates june2024_minDate))
           (default [] (excludedDates june2024_minDate)) (Dayjs.mk 2024 5 5 0) = false).
Proof. repeat split; vm_compute; reflexivity. Qed.

(** ** Continuation into the next month *)

(** C2, as the code has it. The hook renders the next month exactly when
    single-month display is not forced, includedDatesInMonth is not empty,
    fewer than 7 cells of the month are enabled and includedDatesNextMonth is
    not empty; it never does when showOneMonth is true. That
    includedDatesInMonth is not empty is the same as one day of the month
    being enabled only when nothing is excluded and the listed dates are dates
    of the month. *)
Theorem shouldRenderNextMonth_iff
    (h : Dayjs -> option Dayjs -> list string -> list string) (p : UseCalendarDaysProps) :
  (0 <= weekStart p <= 6)%Z ->
  exists r,
    useCalendarDays h p = Some r
    /\ (CalendarDays.shouldRenderNextMonth r = true <->
        showOneMonth p <> Some true
        /\ 0 < length (CalendarDays.includedDatesInMonth r)
        /\ length (filter (fun o => disabled o = false)
                     (CalendarDays.daysToRenderForTheMonth r)) < 7
        /\ 0 < length (CalendarDays.includedDatesNextMonth r))
    /\ (showOneMonth p = Some true -> CalendarDays.shouldRenderNextMonth r = false)
    /\ (default [] (excludedDates p) = [] ->
        (forall s, s ∈ CalendarDays.includedDatesInMonth r ->
           exists d, d ∈ monthDates (browsingDate p) /\ s = yyyymmdd d) ->
        (0 < length (CalendarDays.includedDatesInMonth r) <->
         exists o, o ∈ CalendarDays.daysToRenderForTheMonth r /\ disabled o = false)).
Proof.
  intros Hws. eexists. split; [by apply useCalendarDays_eq|]. hook_fields.
  split; [|split].
  - unfold shouldRenderNextMonth, availableDaysForTheMonth.
    destruct (showOneMonth p) as [[|]|]; cbn [from_option id].
    + split; [done | by intros [? _]].
    + rewrite !andb_true_iff, !Nat.ltb_lt.
      split; [intros [[? ?] ?] | intros (_ & ? & ? & ?)]; done.
    + rewrite !andb_true_iff, !Nat.ltb_lt.
      split; [intros [[? ?] ?] | intros (_ & ? & ? & ?)]; done.
  - unfold shouldRenderNextMonth. by intros ->.
  - intros -> Hdates. split.
    + intros Hpos.
      destruct (h (browsingDate p) (minDate p) (default [] (includedDates p)))
        as [|s inM] eqn:HinM; [simpl in Hpos; lia|].
      destruct (Hdates s ltac:(left)) as (d & Hd & ->).
      exists (monthCell (yyyymmdd d :: inM) [] d). split.
      * apply elem_of_app. right. apply list_elem_of_In, in_map. by apply list_elem_of_In.
      * cbn [disabled monthCell]. apply orb_false_iff. split.
        -- apply negb_false_iff, includes_true. by left.
        -- apply includes_false, not_elem_of_nil.
    + intros (o & Ho & Hen).
      apply elem_of_app in Ho as [Ho|Ho].
      * apply elem_of_replicate in Ho as [-> _]. discriminate.
      * apply list_elem_of_In, in_map_iff in Ho as (d & <- & _).
        cbn [disabled monthCell] in Hen. apply orb_false_iff in Hen as [Hen _].
        apply negb_false_iff, includes_true in Hen.
        destruct (h _ _ _); [by apply elem_of_nil in Hen | simpl; lia].
Qed.

Lemma shouldRenderNextMonth_iff_witness :
  exists r,
    useCalendarDays (getAvailableDatesInMonth today) may2024 = Some r
    /\ (CalendarDays.shouldRenderNextMonth r = true <->
        showOneMonth may2024 <> Some true
        /\ 0 < length (CalendarDays.includedDatesInMonth r)
        /\ length (filter (fun o => disabled o = false)
                     (CalendarDays.daysToRenderForTheMonth r)) < 7
        /\ 0 < length (CalendarDays.includedDatesNextMonth r))
    /\ (showOneMonth may2024 = Some true -> CalendarDays.shouldRenderNextMonth r = false)
    /\ (default [] (excludedDates may2024) = [] ->
        (forall s, s ∈ CalendarDays.includedDatesInMonth r ->
           exists d, d ∈ monthDates (browsingDate may2024) /\ s = yyyymmdd d) ->
        (0 < length (CalendarDays.includedDatesInMonth r) <->
         exists o, o ∈ CalendarDays.daysToRenderForTheMonth r /\ disabled o = false)).
Proof.
  apply (shouldRenderNextMonth_iff (getAvailableDatesInMonth today) may2024).
  unfold may2024, june2024, june2024_excluded, propsOf; cbn [weekStart]; lia.
Defined.

(** C2 does not hold as stated when "available" is read as enabled in both
    places: with includedDates = [2024-06-05; 2024-07-02] and excludedDates =
    [2024-06-05], June 2024 has no enabled day (its only included date is
    excluded), yet the next month is rendered: includedDatesInMonth has one
    entry. *)
Lemma shouldRenderNextMonth_without_enabled_day :
  (fun r => (CalendarDays.shouldRenderNextMonth r,
             length (filter (fun o => disabled o = false)
                       (CalendarDays.daysToRenderForTheMonth r)),
             CalendarDays.includedDatesInMonth r,
             CalendarDays.includedDatesNextMonth r))
    <$> useCalendarDays (getAvailableDatesInMonth today) june2024_all_excluded
  = Some (true, 0, ["2024-06-05"], ["2024-07-02"]).
Proof. vm_compute. reflexivity. Qed.

Example may2024_continues :
  CalendarDays.shouldRenderNextMonth <$> useCalendarDays (getAvailableDatesInMonth today) may2024
  = Some true.
Proof. vm_compute. reflexivity. Qed.

(** ** Grouping into weeks *)

Lemma map_fmap {A B : Type} (f : A -> B) (l : list A) : map f l = f <$> l.
Proof. reflexivity. Qed.

Lemma weekCount_le l : weekCount l <= length l.
Proof. unfold weekCount. lia. Qed.

Lemma weekCount_lt l k : 7 * k < length l <-> k < weekCount l.
Proof. unfold weekCount. lia. Qed.

Lemma groupLoop_unfold fuel l i acc :
  groupLoop fuel l i acc
  = if i <? length l then
      match fuel with
      | 0 => None
      | S fuel' =>
          groupLoop fuel' l (i + 7)
            (acc ++ [{| ref := length acc; items := slice l i (i + 7) |}])
      end
    else Some acc.
Proof. by destruct fuel. Qed.

(** The loop ends by its own condition: fuel for every week is enough. *)
Lemma groupLoop_spec l : forall fuel k,
  weekCount l - k <= fuel -> k <= weekCount l ->
  groupLoop fuel l (7 * k) (map (weekAt l) (seq 0 k))
  = Some (map (weekAt l) (seq 0 (weekCount l))).
Proof.
  induction fuel as [|fuel IH]; intros k Hfuel Hk; rewrite groupLoop_unfold;
    destruct (Nat.ltb_spec (7 * k) (length l)) as [Hlt|Hge].
  - apply weekCount_lt in Hlt. lia.
  - by assert (k = weekCount l) as -> by lia.
  - apply weekCount_lt in Hlt.
    replace (7 * k + 7) with (7 * S k) by lia.
    rewrite length_map, length_seq.
    replace (map (weekAt l) (seq 0 k) ++ [{| ref := k; items := slice l (7 * k) (7 * S k) |}])
      with (map (weekAt l) (seq 0 (S k))).
    + apply IH; lia.
    + rewrite seq_S, map_app. cbn [map]. unfold weekAt, slice. do 4 f_equal. lia.
  - assert (k = weekCount l) as ->; [|done].
    apply Nat.le_antisymm; [done|]. apply Nat.nlt_ge. intros Hlt.
    apply weekCount_lt in Hlt. lia.
Qed.

Lemma groupLoop_returns l :
  groupLoop (length l) l 0 [] = Some (map (weekAt l) (seq 0 (weekCount l))).
Proof. pose proof (weekCount_le l). apply (groupLoop_spec l (length l) 0); lia. Qed.

Lemma groupedWeeks_eq l : groupedWeeks l = map (weekAt l) (seq 0 (weekCount l)).
Proof. unfold groupedWeeks. by rewrite groupLoop_returns. Qed.

Lemma groupedWeeks_length l : length (groupedWeeks l) = weekCount l.
Proof. by rewrite groupedWeeks_eq, length_map, length_seq. Qed.

Lemma groupedWeeks_lookup l k w :
  groupedWeeks l !! k = Some w <-> k < weekCount l /\ w = weekAt l k.
Proof.
  rewrite groupedWeeks_eq, map_fmap, list_lookup_fmap. split.
  - intros H. destruct (seq 0 (weekCount l) !! k) as [j|] eqn:Hj; [|done].
    apply lookup_seq in Hj as [-> ?]. simpl in H. by injection H as <-.
  - intros [Hk ->]. by rewrite lookup_seq_lt.
Qed.

Lemma elem_of_groupedWeeks l w :
  w ∈ groupedWeeks l <-> ref w < weekCount l /\ w = weekAt l (ref w).
Proof.
  rewrite list_elem_of_lookup. split.
  - intros [k Hk]. apply groupedWeeks_lookup in Hk as [Hk ->]. done.
  - intros [Hk Hw]. exists (ref w). apply groupedWeeks_lookup. done.
Qed.

Lemma weekAt_length l k : length (items (weekAt l k)) = Nat.min 7 (length l - 7 * k).
Proof. simpl. by rewrite length_take, length_drop. Qed.

Lemma concat_weeks_seq l i : forall n,
  concat (map items (map (weekAt l) (seq i n))) = take (7 * n) (drop (7 * i) l).
Proof.
  induction n as [|n IH].
  - simpl. by rewrite take_0.
  - rewrite seq_S, !map_app, concat_app, IH. simpl. rewrite app_nil_r.
    replace (7 * S n) with (7 * n + 7) by lia.
    rewrite <- take_take_drop, drop_drop. do 3 f_equal. lia.
Qed.

Lemma concat_groupedWeeks l : concat (map items (groupedWeeks l)) = l.
Proof.
  rewrite groupedWeeks_eq, concat_weeks_seq. simpl. rewrite drop_0.
  apply take_ge. unfold weekCount. lia.
Qed.

Lemma window_groupedWeeks l i n :
  take n (drop i (groupedWeeks l))
  = map (weekAt l) (seq i (Nat.min n (weekCount l - i))).
Proof.
  rewrite groupedWeeks_eq, !map_fmap, <- fmap_drop, <- fmap_take.
  f_equal. rewrite drop_seq, take_seq. done.
Qed.

Lemma slice_window {A : Type} (l : list A) i n : slice l i (i + n) = take n (drop i l).
Proof. unfold slice. f_equal. lia. Qed.

Lemma findIndex_Some {A : Type} (p : A -> bool) (l : list A) : forall i,
  findIndex p l = Some i <->
  exists x, l !! i = Some x /\ p x = true
            /\ forall j y, j < i -> l !! j = Some y -> p y = false.
Proof.
  induction l as [|a l IH]; intros i; simpl.
  - split; [done | by intros (x & ? & _)].
  - destruct (p a) eqn:Hpa.
    + split.
      * intros [= <-]. exists a. repeat split; [done|]. intros j y Hj. lia.
      * intros (x & Hx & Hpx & Hmin). destruct i as [|i]; [done|].
        specialize (Hmin 0 a ltac:(lia) eq_refl). congruence.
    + rewrite fmap_Some. split.
      * intros (k & Hk & ->). apply IH in Hk as (x & Hx & Hpx & Hmin).
        exists x. repeat split; [done..|]. intros [|j] y Hj Hy; simpl in Hy.
        -- congruence.
        -- apply (Hmin j); [lia | done].
      * intros (x & Hx & Hpx & Hmin). destruct i as [|i]; simpl in Hx; [congruence|].
        exists i. split; [|done].
        apply IH. exists x. repeat split; [done..|]. intros j y Hj Hy.
        apply (Hmin (S j) y); [lia | done].
Qed.

Lemma findIndex_None {A : Type} (p : A -> bool) (l : list A) :
  findIndex p l = None <-> forall x, x ∈ l -> p x = false.
Proof.
  induction l as [|a l IH]; simpl.
  - split; [|done]. intros _ x Hx. by apply elem_of_nil in Hx.
  - destruct (p a) eqn:Hpa.
    + split; [done|]. intros H. specialize (H a ltac:(left)). congruence.
    + rewrite fmap_None, IH. split.
      * intros H x Hx. apply elem_of_cons in Hx as [->|Hx]; [done | by apply H].
      * intros H x Hx. apply H. by right.
Qed.

Lemma findIndex_is_Some {A : Type} (p : A -> bool) (l : list A) x :
  x ∈ l -> p x = true -> is_Some (findIndex p l).
Proof.
  intros Hx Hp. destruct (findIndex p l) as [i|] eqn:Hi; [by eexists|].
  rewrite findIndex_None in Hi. specialize (Hi x Hx). congruence.
Qed.

(** The first and the last week with an available day. *)
Lemma firstAvailableIndex_Some gw f :
  firstAvailableIndex gw = Some f ->
  exists w, gw !! f = Some w /\ hasAvailableDays w = true
            /\ forall j y, j < f -> gw !! j = Some y -> hasAvailableDays y = false.
Proof. apply findIndex_Some. Qed.

Lemma adjustedLastAvailableIndex_Some gw la :
  adjustedLastAvailableIndex gw = Some la ->
  exists w, gw !! la = Some w /\ hasAvailableDays w = true
            /\ forall j y, la < j -> gw !! j = Some y -> hasAvailableDays y = false.
Proof.
  unfold adjustedLastAvailableIndex.
  destruct (findIndex hasAvailableDays (reverse gw)) as [i|] eqn:Hi; [|done].
  cbn [fmap option_fmap option_map]. intros [= <-].
  apply findIndex_Some in Hi as (x & Hx & Hpx & Hmin).
  assert (i < length gw) as Hlen.
  { apply lookup_lt_Some in Hx. by rewrite length_reverse in Hx. }
  rewrite reverse_lookup in Hx by done.
  exists x. replace (length gw - 1 - i) with (length gw - S i) by lia.
  repeat split; [done..|]. intros j y Hj Hy.
  assert (j < length gw) as Hjl by (by apply lookup_lt_Some in Hy).
  apply (Hmin (length gw - S j) y); [lia|].
  rewrite reverse_lookup by lia. rewrite <- Hy. f_equal. lia.
Qed.

Lemma firstAvailable_then_last gw f :
  firstAvailableIndex gw = Some f ->
  exists la, adjustedLastAvailableIndex gw = Some la /\ f <= la < length gw.
Proof.
  intros Hf. destruct (firstAvailableIndex_Some _ _ Hf) as (w & Hw & Hpw & Hmin).
  unfold adjustedLastAvailableIndex.
  destruct (findIndex_is_Some hasAvailableDays (reverse gw) w) as [i Hi].
  { apply elem_of_reverse, list_elem_of_lookup. eauto. }
  { done. }
  pose proof (adjustedLastAvailableIndex_Some gw (length gw - 1 - i)) as Hla.
  unfold adjustedLastAvailableIndex in Hla. rewrite Hi in *.
  cbn [fmap option_fmap option_map] in *. eexists. split; [done|].
  destruct (Hla eq_refl) as (x & Hx & Hpx & _).
  split; [|by apply lookup_lt_Some in Hx].
  apply Nat.nlt_ge. intros Hlt. specialize (Hmin _ _ Hlt Hx). congruence.
Qed.

Lemma firstAvailable_None_bounded gw :
  firstAvailableIndex gw = None -> bounded gw = ([], 0).
Proof. unfold bounded. by intros ->. Qed.

(** The loop keeps a prefix of its range: the shortest one with 7 available
    days, or the whole range. *)
Lemma boundedLoop_spec range : forall acc c,
  exists m,
    m <= length range /\ (range <> [] -> 0 < m)
    /\ boundedLoop range acc c = (acc ++ take m range, c + availableDaysIn (take m range))
    /\ (m = length range \/ 7 <= c + availableDaysIn (take m range))
    /\ (forall j, 0 < j < m -> c + availableDaysIn (take j range) < 7).
Proof.
  induction range as [|w range IH]; intros acc c.
  - exists 0. simpl. rewrite app_nil_r, Nat.add_0_r.
    split; [lia|]. split; [done|]. split; [done|]. split; [by left | intros; lia].
  - cbn [boundedLoop]. destruct (Nat.leb_spec 7 (c + availableDaysInWeek w)) as [Hge|Hlt].
    + exists 1. cbn [take length]. rewrite take_0. cbn [availableDaysIn].
      rewrite Nat.add_0_r.
      split; [lia|]. split; [lia|]. split; [done|]. split; [by right | intros; lia].
    + destruct (IH (acc ++ [w]) (c + availableDaysInWeek w))
        as (m & Hm & _ & Heq & Hstop & Hmin).
      exists (S m). cbn [take length availableDaysIn].
      rewrite Heq, <- app_assoc, Nat.add_assoc.
      split; [lia|]. split; [lia|]. split; [done|]. split; [lia|].
      intros [|j] Hj; [lia|]. cbn [take availableDaysIn].
      destruct j as [|j]; [rewrite take_0; simpl; lia|].
      specialize (Hmin (S j) ltac:(lia)). lia.
Qed.

Lemma boundedLoop_count range : forall acc c,
  c < 7 -> (forall w, w ∈ range -> availableDaysInWeek w <= 7) ->
  (boundedLoop range acc c).2 < 14.
Proof.
  induction range as [|w range IH]; intros acc c Hc Hw; cbn [boundedLoop]; [simpl; lia|].
  pose proof (Hw w ltac:(left)).
  destruct (Nat.leb_spec 7 (c + availableDaysInWeek w)); [simpl; lia|].
  apply IH; [lia|]. intros w' Hw'. apply Hw. by right.
Qed.

Lemma availableDaysInWeek_le w : availableDaysInWeek w <= length (items w).
Proof. unfold availableDaysInWeek. apply length_filter. Qed.

Lemma groupedWeeks_available_le l w : w ∈ groupedWeeks l -> availableDaysInWeek w <= 7.
Proof.
  intros [_ ->]%elem_of_groupedWeeks.
  pose proof (availableDaysInWeek_le (weekAt l (ref w))).
  rewrite weekAt_length in *. lia.
Qed.

Lemma findIndex_ref l f :
  f < weekCount l ->
  findIndex (fun week => ref week =? f) (groupedWeeks l) = Some f.
Proof.
  intros Hf. apply findIndex_Some. exists (weekAt l f). repeat split.
  - by apply groupedWeeks_lookup.
  - simpl. apply Nat.eqb_refl.
  - intros j y Hj [_ ->]%groupedWeeks_lookup. simpl. apply Nat.eqb_neq. lia.
Qed.

Lemma bounded_spec l f :
  firstAvailableIndex (groupedWeeks l) = Some f ->
  exists la m,
    adjustedLastAvailableIndex (groupedWeeks l) = Some la
    /\ f <= la < weekCount l
    /\ 0 < m <= la - f + 1
    /\ bounded (groupedWeeks l)
       = (slice (groupedWeeks l) f (f + m),
          availableDaysIn (slice (groupedWeeks l) f (f + m)))
    /\ (m = la - f + 1 \/ 7 <= availableDaysIn (slice (groupedWeeks l) f (f + m)))
    /\ (forall j, 0 < j < m -> availableDaysIn (slice (groupedWeeks l) f (f + j)) < 7)
    /\ availableDaysIn (slice (groupedWeeks l) f (f + m)) < 14.
Proof.
  intros Hf. destruct (firstAvailable_then_last _ _ Hf) as (la & Hla & Hfl & Hlen).
  rewrite groupedWeeks_length in Hlen.
  unfold bounded. rewrite Hf, Hla.
  set (range := slice (groupedWeeks l) f (S la)).
  assert (length range = la - f + 1) as Hrange.
  { unfold range, slice. rewrite length_take, length_drop, groupedWeeks_length. lia. }
  destruct (boundedLoop_spec range [] 0) as (m & Hm & Hpos & Heq & Hstop & Hmin).
  assert (forall j, j <= length range ->
            take j range = slice (groupedWeeks l) f (f + j)) as Htake.
  { intros j Hj. rewrite slice_window. unfold range, slice.
    rewrite take_take. f_equal. lia. }
  exists la, m. split; [done|]. split; [lia|]. split.
  { split; [|lia]. apply Hpos. intros Hnil. rewrite Hnil in Hrange. simpl in Hrange. lia. }
  pose proof (boundedLoop_count range [] 0 ltac:(lia)) as Hcount.
  rewrite Heq in *. cbn [app Nat.add snd] in *. rewrite (Htake m Hm) in *.
  split; [done|]. split; [lia|]. split.
  - intros j Hj. rewrite <- Htake by lia. by apply Hmin.
  - apply Hcount. intros w Hw. apply (groupedWeeks_available_le l).
    unfold range, slice in Hw. by apply subseteq_take, subseteq_drop in Hw.
Qed.

Lemma bounded_length l f m n :
  firstAvailableIndex (groupedWeeks l) = Some f ->
  bounded (groupedWeeks l) = (slice (groupedWeeks l) f (f + m), n) ->
  0 < m -> (exists la, f <= la < weekCount l /\ m <= la - f + 1) ->
  length (bounded (groupedWeeks l)).1 = m
  /\ (bounded (groupedWeeks l)).1 !! 0 = Some (weekAt l f).
Proof.
  intros Hf -> Hm (la & Hla & Hle). cbn [fst]. split.
  - rewrite slice_window, length_take, length_drop, groupedWeeks_length. lia.
  - rewrite slice_window, lookup_take_lt, lookup_drop, Nat.add_0_r by lia.
    apply groupedWeeks_lookup. split; [lia | done].
Qed.

Lemma weeks_continuing l inM f :
  inM <> [] ->
  firstAvailableIndex (groupedWeeks l) = Some f ->
  weeks l inM true
  = if length (bounded (groupedWeeks l)).1 <? 5
    then slice (groupedWeeks l) f (f + 5)
    else (bounded (groupedWeeks l)).1.
Proof.
  intros Hinc Hf.
  assert ((length inM =? 0) = false) as Hlen.
  { apply Nat.eqb_neq. by destruct inM. }
  unfold weeks. rewrite Hlen. cbn [negb orb].
  destruct (bounded_spec _ _ Hf) as (la & m & Hla & Hfl & Hm & Hb & Hstop & Hmin & Hc).
  destruct (bounded_length l f m _ Hf Hb ltac:(lia)) as [Hlm H0].
  { exists la. lia. }
  destruct (bounded (groupedWeeks l)) as [bw count] eqn:Hbw. cbn [fst snd] in *.
  injection Hb as -> ->.
  assert ((availableDaysIn (slice (groupedWeeks l) f (f + m)) <? 14) = true) as ->
    by (by apply Nat.ltb_lt).
  rewrite andb_true_r.
  destruct (length (slice (groupedWeeks l) f (f + m)) <? 5); [|done].
  unfold currentWeekIndex. rewrite H0. cbn [ref weekAt].
  rewrite findIndex_ref by lia. done.
Qed.

Lemma weeks_continuing_none l inM :
  inM <> [] -> firstAvailableIndex (groupedWeeks l) = None -> weeks l inM true = [].
Proof.
  intros Hinc Hf.
  assert ((length inM =? 0) = false) as Hlen.
  { apply Nat.eqb_neq. by destruct inM. }
  unfold weeks. rewrite Hlen. cbn [negb orb].
  by rewrite firstAvailable_None_bounded.
Qed.

(** C3, as the code has it. With continuation active the weeks start at the
    first week with an available day; weeks are accumulated up to the last
    week with an available day, stopping as soon as 7 available days have been
    accumulated; fewer than 14 are ever accumulated. When this bounded window
    has fewer than 5 weeks the 5 weeks from the first available week are
    returned, otherwise the bounded window itself; without any available week
    nothing is returned. *)
Theorem weeks_continuation (allDays : list DayObject) (includedDatesInMonth : list string) :
  includedDatesInMonth <> [] ->
  match firstAvailableIndex (groupedWeeks allDays) with
  | None => weeks allDays includedDatesInMonth true = []
  | Some first =>
      exists last m,
        adjustedLastAvailableIndex (groupedWeeks allDays) = Some last
        /\ first <= last < weekCount allDays
        /\ 0 < m <= last - first + 1
        /\ bounded (groupedWeeks allDays)
           = (slice (groupedWeeks allDays) first (first + m),
              availableDaysIn (slice (groupedWeeks allDays) first (first + m)))
        /\ (m = last - first + 1
            \/ 7 <= availableDaysIn (slice (groupedWeeks allDays) first (first + m)))
        /\ (forall j, 0 < j < m ->
              availableDaysIn (slice (groupedWeeks allDays) first (first + j)) < 7)
        /\ availableDaysIn (slice (groupedWeeks allDays) first (first + m)) < 14
        /\ ((length (bounded (groupedWeeks allDays)).1 <? 5)
            && ((bounded (groupedWeeks allDays)).2 <? 14)) = (m <? 5)
        /\ weeks allDays includedDatesInMonth true
           = if m <? 5 then slice (groupedWeeks allDays) first (first + 5)
             else slice (groupedWeeks allDays) first (first + m)
  end.
Proof.
  intros Hinc.
  destruct (firstAvailableIndex (groupedWeeks allDays)) as [f|] eqn:Hf;
    [|by apply weeks_continuing_none].
  destruct (bounded_spec _ _ Hf) as (la & m & Hla & Hfl & Hm & Hb & Hstop & Hmin & Hc).
  destruct (bounded_length allDays f m _ Hf Hb ltac:(lia)) as [Hlm _].
  { exists la. lia. }
  exists la, m. rewrite (weeks_continuing allDays _ f Hinc Hf), Hlm.
  do 7 (split; [done|]). rewrite Hb. cbn [fst snd]. split; [|done].
  apply Nat.ltb_lt in Hc. rewrite Hc. apply andb_true_r.
Qed.

(** The weeks returned are always a run of consecutive weeks of the grouping. *)
Lemma weeks_window allDays inM should :
  exists i n, weeks allDays inM should = take n (drop i (groupedWeeks allDays)).
Proof.
  destruct (decide (inM = [] \/ should = false)) as [Hearly|Hlate].
  - exists 0, (length (groupedWeeks allDays)). rewrite drop_0, firstn_all.
    unfold weeks. destruct Hearly as [-> | ->]; [done|]. by rewrite orb_true_r.
  - assert (inM <> []) as Hinc by tauto.
    assert (should = true) as -> by (destruct should; tauto).
    destruct (firstAvailableIndex (groupedWeeks allDays)) as [f|] eqn:Hf.
    + rewrite (weeks_continuing allDays _ f Hinc Hf).
      destruct (bounded_spec _ _ Hf) as (la & m & _ & _ & _ & -> & _).
      cbn [fst]. destruct (_ <? 5); rewrite slice_window; eauto.
    + exists 0, 0. by rewrite weeks_continuing_none, take_0.
Qed.

Lemma elem_of_weeks allDays inM should w :
  w ∈ weeks allDays inM should -> w ∈ groupedWeeks allDays.
Proof.
  destruct (weeks_window allDays inM should) as (i & n & ->).
  intros Hw. by apply subseteq_take, subseteq_drop in Hw.
Qed.

(** C1, as the code has it. Every returned week is one of the consecutive
    7-entry chunks of the day sequence: it has between 1 and 7 entries, and
    exactly 7 unless the sequence ends inside it (nothing is padded at the
    tail). When continuation is not active the weeks concatenate to the
    whole day sequence; in every case they concatenate to a contiguous part of
    it, in order. *)
Theorem weeks_are_chunks (allDays : list DayObject) (includedDatesInMonth : list string)
    (shouldRenderNextMonth : bool) :
  (forall w, w ∈ weeks allDays includedDatesInMonth shouldRenderNextMonth ->
     items w = take 7 (drop (7 * ref w) allDays)
     /\ 0 < length (items w) <= 7
     /\ (7 * ref w + 7 <= length allDays -> length (items w) = 7))
  /\ (includedDatesInMonth = [] \/ shouldRenderNextMonth = false ->
      concat (map items (weeks allDays includedDatesInMonth shouldRenderNextMonth)) = allDays)
  /\ (exists before after,
        allDays
        = before
          ++ concat (map items (weeks allDays includedDatesInMonth shouldRenderNextMonth))
          ++ after).
Proof.
  split; [|split].
  - intros w Hw. apply elem_of_weeks, elem_of_groupedWeeks in Hw as [Hlt Hw].
    assert (items w = take 7 (drop (7 * ref w) allDays)) as Hitems by (by rewrite Hw at 1).
    assert (length (items w) = Nat.min 7 (length allDays - 7 * ref w)) as Hlen.
    { rewrite Hitems, length_take, length_drop. done. }
    apply weekCount_lt in Hlt. split; [done|]. lia.
  - intros Hearly.
    assert (weeks allDays includedDatesInMonth shouldRenderNextMonth = groupedWeeks allDays)
      as ->.
    { unfold weeks. destruct Hearly as [-> | ->]; [done|]. by rewrite orb_true_r. }
    apply concat_groupedWeeks.
  - destruct (weeks_window allDays includedDatesInMonth shouldRenderNextMonth)
      as (i & n & ->).
    rewrite window_groupedWeeks, concat_weeks_seq.
    exists (take (7 * i) allDays),
      (drop (7 * Nat.min n (weekCount allDays - i)) (drop (7 * i) allDays)).
    by rewrite take_drop, take_drop.
Qed.

Lemma weeks_of_hook h p r :
  useCalendarDays h p = Some r ->
  CalendarDays.weeks r
  = weeks (allDaysOf r) (CalendarDays.includedDatesInMonth r)
      (CalendarDays.shouldRenderNextMonth r).
Proof.
  unfold useCalendarDays.
  destruct (days _ _); [|done]. destruct (nextMonthDays _ _); [|done].
  cbn [mbind option_bind]. by intros [= <-].
Qed.

Lemma continuation_inputs h p r :
  useCalendarDays h p = Some r ->
  CalendarDays.shouldRenderNextMonth r = true ->
  CalendarDays.includedDatesInMonth r <> []
  /\ CalendarDays.includedDatesNextMonth r <> []
  /\ CalendarDays.weeks r = weeks (allDaysOf r) (CalendarDays.includedDatesInMonth r) true.
Proof.
  intros Hr Hs. rewrite (weeks_of_hook h p r Hr), Hs. split; [|split; [|done]].
  - revert Hr Hs. unfold useCalendarDays.
    destruct (days _ _); [|done]. destruct (nextMonthDays _ _); [|done].
    cbn [mbind option_bind]. intros [= <-]. hook_fields. unfold shouldRenderNextMonth.
    destruct (default false (showOneMonth p)); [done|].
    intros [[Hm _]%andb_true_iff _]%andb_true_iff He. by rewrite He in Hm.
  - revert Hr Hs. unfold useCalendarDays.
    destruct (days _ _); [|done]. destruct (nextMonthDays _ _); [|done].
    cbn [mbind option_bind]. intros [= <-]. hook_fields. unfold shouldRenderNextMonth.
    destruct (default false (showOneMonth p)); [done|].
    intros [_ Hn]%andb_true_iff He. by rewrite He in Hn.
Qed.

Lemma weeks_continuation_witness :
  match firstAvailableIndex (groupedWeeks june2024_cutover_allDays) with
  | None => weeks june2024_cutover_allDays ["2024-06-30"] true = []
  | Some first =>
      exists last m,
        adjustedLastAvailableIndex (groupedWeeks june2024_cutover_allDays) = Some last
        /\ first <= last < weekCount june2024_cutover_allDays
        /\ 0 < m <= last - first + 1
        /\ bounded (groupedWeeks june2024_cutover_allDays)
           = (slice (groupedWeeks june2024_cutover_allDays) first (first + m),
              availableDaysIn (slice (groupedWeeks june2024_cutover_allDays) first (first + m)))
        /\ (m = last - first + 1
            \/ 7 <= availableDaysIn
                      (slice (groupedWeeks june2024_cutover_allDays) first (first + m)))
        /\ (forall j, 0 < j < m ->
              availableDaysIn (slice (groupedWeeks june2024_cutover_allDays) first (first + j))
              < 7)
        /\ availableDaysIn (slice (groupedWeeks june2024_cutover_allDays) first (first + m))
           < 14
        /\ ((length (bounded (groupedWeeks june2024_cutover_allDays)).1 <? 5)
            && ((bounded (groupedWeeks june2024_cutover_allDays)).2 <? 14)) = (m <? 5)
        /\ weeks june2024_cutover_allDays ["2024-06-30"] true
           = if m <? 5 then slice (groupedWeeks june2024_cutover_allDays) first (first + 5)
             else slice (groupedWeeks june2024_cutover_allDays) first (first + m)
  end.
Proof.
  apply (weeks_continuation june2024_cutover_allDays ["2024-06-30"]). discriminate.
Defined.

Example june2024_cutover_first_week :
  firstAvailableIndex (groupedWeeks june2024_cutover_allDays) = Some 5
  /\ map ref (weeks june2024_cutover_allDays ["2024-06-30"] true) = [5; 6; 7; 8; 9].
Proof. split; vm_compute; reflexivity. Qed.

(** C3 does not hold as stated: the week window is not the one the
    specification words. In June 2024 with the week of 30 June to 6 July
    available, the first retained week already shows 7 available days and 5
    weeks are returned; with one available day in each of six weeks, 6 weeks
    are returned. *)
Lemma weeks_not_as_specified :
  (CalendarDays.shouldRenderNextMonth
     <$> useCalendarDays (getAvailableDatesInMonth today) june2024_cutover = Some true
   /\ (fun r => map availableDaysInWeek (CalendarDays.weeks r))
        <$> useCalendarDays (getAvailableDatesInMonth today) june2024_cutover
      = Some [7; 0; 0; 0; 0]
   /\ (fun r => map availableDaysInWeek (specWeeks (groupedWeeks (allDaysOf r))))
        <$> useCalendarDays (getAvailableDatesInMonth today) june2024_cutover
      = Some [7])
  /\ (CalendarDays.shouldRenderNextMonth
        <$> useCalendarDays (getAvailableDatesInMonth today) june2024_sparse = Some true
      /\ (fun r => map availableDaysInWeek (CalendarDays.weeks r))
           <$> useCalendarDays (getAvailableDatesInMonth today) june2024_sparse
         = Some [1; 1; 1; 1; 1; 1]
      /\ (fun r => map availableDaysInWeek (specWeeks (groupedWeeks (allDaysOf r))))
           <$> useCalendarDays (getAvailableDatesInMonth today) june2024_sparse
         = Some [1; 1; 1; 1; 1]).
Proof. repeat split; vm_compute; reflexivity. Qed.

(** C1 does not hold as stated: weeks are not always of length 7 and days
    are dropped. June 2024 without continuation ends in a week of one entry;
    with the continuation of [june2024_cutover] only 32 of the 61 days are
    returned, the last week with 4 entries. *)
Lemma weeks_not_always_seven :
  (CalendarDays.shouldRenderNextMonth
     <$> useCalendarDays (getAvailableDatesInMonth today) june2024 = Some false
   /\ (fun r => map (fun w => length (items w)) (CalendarDays.weeks r))
        <$> useCalendarDays (getAvailableDatesInMonth today) june2024
      = Some [7; 7; 7; 7; 7; 1])
  /\ ((fun r => length (omap day (allDaysOf r)))
        <$> useCalendarDays (getAvailableDatesInMonth today) june2024_cutover = Some 61
      /\ (fun r => length (omap day (concat (map items (CalendarDays.weeks r)))))
           <$> useCalendarDays (getAvailableDatesInMonth today) june2024_cutover = Some 32
      /\ (fun r => map (fun w => length (items w)) (CalendarDays.weeks r))
           <$> useCalendarDays (getAvailableDatesInMonth today) june2024_cutover
         = Some [7; 7; 7; 7; 4]).
Proof. repeat split; vm_compute; reflexivity. Qed.

(** ** The week of the month transition *)

Lemma lookup_chunk {A : Type} (l : list A) k i :
  i < 7 -> take 7 (drop (7 * k) l) !! i = l !! (7 * k + i).
Proof. intros Hi. by rewrite lookup_take_lt, lookup_drop. Qed.


Lemma datesFrom_length month first count : length (datesFrom month first count) = count.
Proof. unfold datesFrom. by rewrite length_map, length_seq. Qed.








Lemma add_month_other_month b :
  Dayjs.month b <> Dayjs.month (Dayjs.add_month 1 b).
Proof. unfold Dayjs.add_month. cbn [Dayjs.year Dayjs.month]. lia. Qed.






Lemma allDaysOf_continuation h p r :
  (0 <= weekStart p <= 6)%Z ->
  useCalendarDays h p = Some r ->
  CalendarDays.shouldRenderNextMonth r = true ->
  allDaysOf r
  = (replicate (paddingBeforeFirst (browsingDate p) (weekStart p)) nullCell
     ++ map (monthCell (CalendarDays.includedDatesInMonth r) (default [] (excludedDates p)))
          (monthDates (browsingDate p)))
    ++ map (nextMonthCell (default [] (includedDates p)))
         (monthDates (Dayjs.add_month 1 (browsingDate p))).
Proof.
  intros Hws Hr Hs. rewrite useCalendarDays_eq in Hr by done. cbv zeta in Hr.
  injection Hr as <-. unfold allDaysOf. hook_fields. hook_fields_in Hs. rewrite Hs.
  unfold allDays. by rewrite filter_day_nextMonth.
Qed.

(** With the modelled availability, an active continuation always has a week
    with an available day: an available date of the next month is an enabled
    cell of the combined sequence. *)
Lemma continuation_has_available_week now p r :
  (0 <= weekStart p <= 6)%Z ->
  (1 <= Dayjs.date (browsingDate p))%Z ->
  (1 <= Dayjs.date (default now (minDate p)))%Z ->
  useCalendarDays (getAvailableDatesInMonth now) p = Some r ->
  CalendarDays.shouldRenderNextMonth r = true ->
  is_Some (firstAvailableIndex (groupedWeeks (allDaysOf r))).
Proof.
  intros Hws Hb Hm Hr Hs.
  destruct (continuation_inputs _ p r Hr Hs) as (_ & HinN & _).
  pose proof (allDaysOf_continuation _ p r Hws Hr Hs) as Hall.
  assert (CalendarDays.includedDatesNextMonth r
          = getAvailableDatesInMonth now (Dayjs.add_month 1 (browsingDate p)) (minDate p)
              (default [] (includedDates p))) as HN.
  { rewrite useCalendarDays_eq in Hr by done. cbv zeta in Hr. by injection Hr as <-. }
  destruct (CalendarDays.includedDatesNextMonth r) as [|s inN] eqn:HinN'; [done|].
  destruct (getAvailableDatesInMonth_dates now (Dayjs.add_month 1 (browsingDate p)) (minDate p)
              (default [] (includedDates p)) s) as (Hinc & d & Hd & ->).
  { unfold Dayjs.add_month. cbn [Dayjs.date].
    pose proof (monthLength_bounds
                  ((Dayjs.year (browsingDate p) * 12 + Dayjs.month (browsingDate p) + 1) / 12)
                  ((Dayjs.year (browsingDate p) * 12 + Dayjs.month (browsingDate p) + 1)
                   mod 12)).
    lia. }
  { done. }
  { rewrite <- HN. by left. }
  set (o := nextMonthCell (default [] (includedDates p)) d).
  assert (o ∈ allDaysOf r) as Ho.
  { rewrite Hall. apply elem_of_app. right.
    apply list_elem_of_In, in_map. by apply list_elem_of_In. }
  rewrite <- (concat_groupedWeeks (allDaysOf r)) in Ho.
  apply list_elem_of_In, in_concat in Ho as (ws & Hws' & Hin).
  apply in_map_iff in Hws' as (w & <- & Hw).
  apply (findIndex_is_Some hasAvailableDays _ w); [by apply list_elem_of_In|].
  unfold hasAvailableDays. apply existsb_exists. exists o. split; [done|].
  unfold o. cbn [disabled nextMonthCell]. rewrite negb_involutive. by apply includes_true.
Qed.



Example june2024_cutover_transition :
  boundary (browsingDate june2024_cutover) (weekStart june2024_cutover) = 36
  /\ (fun r => map (transitionIndex (browsingDate june2024_cutover)) (CalendarDays.weeks r))
       <$> useCalendarDays (getAvailableDatesInMonth today) june2024_cutover
     = Some [Some 1; None; None; None; None].
Proof. split; vm_compute; reflexivity. Qed.


(** ** The selected day *)

Lemma existsb_eqb_elem {A : Type} (f : A -> string) (s : string) (l : list A) :
  existsb (fun e => String.eqb (f e) s) l = bool_decide (s ∈ map f l).
Proof.
  induction l as [|a l IH]; [done|]. cbn [existsb map]. rewrite IH.
  destruct (String.eqb_spec (f a) s) as [->|Hne].
  - symmetry. apply bool_decide_eq_true. by left.
  - cbn [orb]. apply bool_decide_ext. rewrite elem_of_cons.
    split; [by right | by intros [?|?]].
Qed.

(** C7. Whatever the selection, isActive returns and never throws, and its
    result is whether the date-string of the day is among the date-strings of
    the selection: those of the array; or that of the single date, with the
    keys of the map entry of the event. So a selection that matches no day
    gives false, and only date-strings matter, not the dayjs objects. *)
Theorem isActive_by_date_string (dayjs : string -> option Dayjs) (selected : Selected)
    (eventSlug : option string)
    (selectedDatesAndTimes : option (gmap string (gmap string (list string))))
    (day : Dayjs) :
  isActive dayjs selected eventSlug selectedDatesAndTimes day
  = Returns (bool_decide
               (yyyymmdd day ∈ selectionStrings dayjs selected eventSlug selectedDatesAndTimes))
  /\ ((forall s, s ∈ selectionStrings dayjs selected eventSlug selectedDatesAndTimes ->
                 s <> yyyymmdd day) ->
      isActive dayjs selected eventSlug selectedDatesAndTimes day = Returns false)
  /\ (forall day', yyyymmdd day' = yyyymmdd day ->
        isActive dayjs selected eventSlug selectedDatesAndTimes day'
        = isActive dayjs selected eventSlug selectedDatesAndTimes day)
  /\ (forall selected',
        selectionStrings dayjs selected' eventSlug selectedDatesAndTimes
        = selectionStrings dayjs selected eventSlug selectedDatesAndTimes ->
        isActive dayjs selected' eventSlug selectedDatesAndTimes day
        = isActive dayjs selected eventSlug selectedDatesAndTimes day).
Proof.
  assert (forall sel d,
    isActive dayjs sel eventSlug selectedDatesAndTimes d
    = Returns (bool_decide
                 (yyyymmdd d ∈ selectionStrings dayjs sel eventSlug selectedDatesAndTimes)))
    as Heq.
  { intros sel d.
    assert (forall single : bool,
      (if single then Returns true
       else
         bind (and_then (Returns (truthy_string eventSlug))
                 (and_then (Returns (truthy selectedDatesAndTimes))
                    (and_then
                       (bind (get_member selectedDatesAndTimes (default "" eventSlug))
                          (fun e => Returns (truthy e)))
                       (bind (bind (get_member selectedDatesAndTimes (default "" eventSlug))
                                Object_keys)
                          (fun keys => Returns (0 <? length keys))))))
           (fun multiple =>
              if multiple
              then bind (bind (get_member selectedDatesAndTimes (default "" eventSlug))
                           Object_keys)
                     (fun keys =>
                        Returns (existsb (fun date =>
                                   String.eqb (yyyymmdd_dayjs dayjs date) (yyyymmdd d)) keys))
              else Returns false))
      = Returns (single
                 || bool_decide
                      (yyyymmdd d
                       ∈ (if truthy_string eventSlug then
                            match selectedDatesAndTimes with
                            | Some m =>
                                match m !! default "" eventSlug with
                                | Some entry =>
                                    map (yyyymmdd_dayjs dayjs) (map_to_list entry).*1
                                | None => []
                                end
                            | None => []
                            end
                          else [])))) as Hmap.
    { intros [|]; [done|]. cbn [orb].
      destruct (truthy_string eventSlug); [|done].
      destruct selectedDatesAndTimes as [m|]; [|done].
      cbn [and_then bind truthy get_member].
      destruct (m !! default "" eventSlug) as [entry|]; [|done].
      cbn [and_then bind truthy Object_keys].
      destruct ((map_to_list entry).*1) as [|key keys] eqn:Hkeys; [done|].
      cbn [length Nat.ltb Nat.leb bind]. by rewrite existsb_eqb_elem. }
    destruct sel as [|s|l]; cbn [isActive selectionStrings].
    - rewrite (Hmap false). done.
    - rewrite Hmap. f_equal. destruct (String.eqb_spec (yyyymmdd s) (yyyymmdd d)) as [He|Hne].
      + symmetry. apply bool_decide_eq_true. rewrite He. by left.
      + cbn [orb]. apply bool_decide_ext. cbn [app]. rewrite elem_of_cons.
        split; [by right | by intros [?|?]].
    - by rewrite existsb_eqb_elem. }
  split; [apply Heq|]. split; [|split].
  - intros Hno. rewrite Heq. f_equal. apply bool_decide_eq_false. intros Hin.
    by apply (Hno _ Hin).
  - intros day' Hd. by rewrite !Heq, Hd.
  - intros selected' Hs. by rewrite !Heq, Hs.
Qed.

(** A selected dayjs object with another time of day selects the day, and a
    key of the map entry of the event does too; a key of no rendered day, or an
    invalid one, selects nothing. *)
Example isActive_samples :
  isActive dayjsISO (SelectedDayjs (Dayjs.mk 2024 5 5 36000000)) None None
    (Dayjs.mk 2024 5 5 0) = Returns true
  /\ isActive dayjsISO (SelectedArray [Dayjs.mk 2024 5 4 0; Dayjs.mk 2024 5 5 7]) None None
       (Dayjs.mk 2024 5 5 0) = Returns true
  /\ isActive dayjsISO SelectedNone (Some "30min") (Some sampleStore) (Dayjs.mk 2024 5 7 0)
     = Returns true
  /\ isActive dayjsISO (SelectedDayjs (Dayjs.mk 2023 0 1 0)) (Some "30min") (Some sampleStore)
       (Dayjs.mk 2024 5 6 0) = Returns false
  /\ isActive dayjsISO SelectedNone (Some "30min")
       (Some {[ "30min" := {[ "tomorrow" := ["10:00"] ]} ]}) (Dayjs.mk 2024 5 6 0)
     = Returns false
  /\ isActive dayjsISO SelectedNone (Some "15min") None (Dayjs.mk 2024 5 6 0) = Returns false.
Proof. repeat split; vm_compute; reflexivity. Qed.

(** ** Month navigation *)

Lemma autoAdvances_iff st inMonth inNext :
  DatePicker.autoAdvances st inMonth inNext = true
  <-> DatePicker.autoNavigating st = true /\ inMonth = [] /\ inNext <> [].
Proof.
  unfold DatePicker.autoAdvances.
  rewrite !andb_true_iff, Nat.eqb_eq, Nat.ltb_lt.
  split.
  - intros [[Ha Hm] Hn]. split; [done|]. split.
    + by destruct inMonth.
    + intros ->. simpl in Hn. lia.
  - intros (Ha & -> & Hn). repeat split; [done..|].
    destruct inNext; [done | simpl; lia].
Qed.

Lemma step_clears_autoNavigating omc st e :
  DatePicker.autoNavigating (DatePicker.step omc st e) = false.
Proof.
  destruct e as [inMonth inNext|newMonth]; cbn [DatePicker.step]; [|done].
  unfold DatePicker.autoNavigateEffect. by destruct (DatePicker.autoAdvances _ _ _).
Qed.

Lemma fires_needs_autoNavigating st e :
  DatePicker.autoNavigating st = false -> DatePicker.fires st e = false.
Proof.
  intros Hst. destruct e as [inMonth inNext|newMonth]; [|done].
  cbn [DatePicker.fires]. unfold DatePicker.autoAdvances. by rewrite Hst.
Qed.

Lemma autoAdvanceLog_quiet omc es : forall st,
  DatePicker.autoNavigating st = false ->
  Forall (fun fired => fired = false) (DatePicker.autoAdvanceLog omc st es).
Proof.
  induction es as [|e es IH]; intros st Hst; cbn [DatePicker.autoAdvanceLog]; constructor.
  - by apply fires_needs_autoNavigating.
  - apply IH, step_clears_autoNavigating.
Qed.

(** C8, as the code has it. The effect navigates to the next month exactly
    when autoNavigating is still set, the month has no available date and the
    next month has at least one. Every event clears autoNavigating: the
    automatic navigation itself, an effect run that does not navigate, and a
    manual changeMonth. So only the first event after mount can navigate
    automatically, and nothing navigates automatically after a manual
    navigation. *)
Theorem autoNavigation_once (onMonthChange : option (Dayjs -> Dayjs)) :
  (forall st inMonth inNext,
     DatePicker.fires st (DatePicker.EffectRun inMonth inNext) = true
     <-> DatePicker.autoNavigating st = true /\ inMonth = [] /\ inNext <> [])
  /\ (forall st e, DatePicker.autoNavigating (DatePicker.step onMonthChange st e) = false)
  /\ (forall st e es,
        Forall (fun fired => fired = false)
          (DatePicker.autoAdvanceLog onMonthChange (DatePicker.step onMonthChange st e) es))
  /\ (forall st newMonth es,
        Forall (fun fired => fired = false)
          (DatePicker.autoAdvanceLog onMonthChange
             (DatePicker.changeMonth onMonthChange newMonth st) es))
  /\ (forall st inMonth inNext,
        DatePicker.fires st (DatePicker.EffectRun inMonth inNext) = true ->
        DatePicker.step onMonthChange st (DatePicker.EffectRun inMonth inNext)
        = DatePicker.changeMonth onMonthChange 1 st).
Proof.
  split; [|split; [|split; [|split]]].
  - intros st inMonth inNext. apply autoAdvances_iff.
  - apply step_clears_autoNavigating.
  - intros st e es. apply autoAdvanceLog_quiet, step_clears_autoNavigating.
  - intros st newMonth es. by apply autoAdvanceLog_quiet.
  - intros st inMonth inNext Hf. cbn [DatePicker.step DatePicker.fires] in *.
    unfold DatePicker.autoNavigateEffect. by rewrite Hf.
Qed.

(** C8 does not hold as stated: the automatic navigation is not tied to both
    months being empty. With June 2024 empty and all 31 days of July 2024
    available the effect navigates at mount; with June and July both empty it
    does not. *)
Lemma autoNavigation_not_when_both_empty :
  ((fun r => (length (CalendarDays.includedDatesInMonth r),
              length (CalendarDays.includedDatesNextMonth r),
              DatePicker.fires (DatePicker.mount (browsingDate june2024_july_open))
                (DatePicker.EffectRun (CalendarDays.includedDatesInMonth r)
                   (CalendarDays.includedDatesNextMonth r))))
     <$> useCalendarDays (getAvailableDatesInMonth today) june2024_july_open)
  = Some (0, 31, true)
  /\ ((fun r => (length (CalendarDays.includedDatesInMonth r),
                 length (CalendarDays.includedDatesNextMonth r),
                 DatePicker.fires (DatePicker.mount (browsingDate june2024_nothing))
                   (DatePicker.EffectRun (CalendarDays.includedDatesInMonth r)
                      (CalendarDays.includedDatesNextMonth r))))
        <$> useCalendarDays (getAvailableDatesInMonth today) june2024_nothing)
     = Some (0, 0, false).
Proof. split; vm_compute; reflexivity. Qed.

(** A session: the automatic navigation at mount, then nothing automatic. *)
Example session_log :
  DatePicker.autoAdvanceLog (Some id) (DatePicker.mount (Dayjs.mk 2024 5 1 0))
    [DatePicker.EffectRun [] ["2024-07-01"]; DatePicker.EffectRun [] ["2024-08-01"];
     DatePicker.Manual (-1); DatePicker.EffectRun [] ["2024-07-01"]]
  = [true; false; false; false]
  /\ DatePicker.browsingDate
       (foldl (DatePicker.step (Some id)) (DatePicker.mount (Dayjs.mk 2024 5 1 0))
          [DatePicker.EffectRun [] ["2024-07-01"]; DatePicker.EffectRun [] ["2024-08-01"]])
     = Dayjs.mk 2024 6 1 0.
Proof. split; vm_compute; reflexivity. Qed.

(** ** Renders *)

Lemma useMemo_fresh factory deps' cell :
  match cell with
  | Some c => Render.deps c <> deps'
  | None => True
  end ->
  Render.useMemo factory deps' cell
  = (factory, Some {| Render.deps := deps'; Render.value := factory |}).
Proof.
  intros Hc. unfold Render.useMemo. destruct cell as [c|]; [|done].
  by destruct (decide (Render.deps c = deps')).
Qed.

(** C9, as the code has it. From any state left by earlier renders, a render
    of the days of the month returns the sequence the hook computes from its
    props and from what the availability helper answers at that time, whatever
    the memo cell holds: the cell is the only state kept between renders and
    it never changes the result. Two renders with the same props return equal
    sequences whenever the helper answers the same in both, in particular at
    the same current date; the modelled helper reads the current date only
    when minDate is absent. *)
Theorem computeMonthDays_deterministic
    (h : Dayjs -> Dayjs -> option Dayjs -> list string -> list string)
    (p : UseCalendarDaysProps) (now now' : Dayjs)
    (includedRef excludedRef includedRef' excludedRef' : nat) (st : Render.Hooks) :
  (0 <= weekStart p <= 6)%Z ->
  Render.older st ->
  exists v v' st1 st2,
    Render.renderDaysToRenderForTheMonth h now p includedRef excludedRef st = Some (v, st1)
    /\ Render.renderDaysToRenderForTheMonth h now' p includedRef' excludedRef' st1
       = Some (v', st2)
    /\ (CalendarDays.daysToRenderForTheMonth <$> useCalendarDays (h now) p) = Some v
    /\ (CalendarDays.daysToRenderForTheMonth <$> useCalendarDays (h now') p) = Some v'
    /\ (h now (browsingDate p) (minDate p) (default [] (includedDates p))
        = h now' (browsingDate p) (minDate p) (default [] (includedDates p)) ->
        v = v')
    /\ (now = now' -> v = v')
    /\ (forall m b inc,
          getAvailableDatesInMonth now b (Some m) inc
          = getAvailableDatesInMonth now' b (Some m) inc)
    /\ Render.older st1 /\ Render.older st2.
Proof.
  intros Hws Hold.
  set (cells := fun t =>
         replicate (paddingBeforeFirst (browsingDate p) (weekStart p)) nullCell
         ++ map (monthCell (h t (browsingDate p) (minDate p) (default [] (includedDates p)))
                   (default [] (excludedDates p)))
              (monthDates (browsingDate p))).
  assert (forall t iref eref s, Render.older s ->
    Render.renderDaysToRenderForTheMonth h t p iref eref s
    = Some (cells t,
            {| Render.nextRef := Render.nextRef s + 2;
               Render.memoForTheMonth :=
                 Some {| Render.deps := [Render.nextRef s; iref; eref];
                         Render.value := cells t |} |})) as Hrender.
  { intros t iref eref s Hs. unfold Render.renderDaysToRenderForTheMonth.
    rewrite days_eq, nextMonthDays_eq by done. cbn [mbind option_bind].
    rewrite daysToRenderForTheMonth_eq, useMemo_fresh; [done|].
    unfold Render.older in Hs. destruct (Render.memoForTheMonth s) as [c|]; [|done].
    destruct Hs as (r0 & rest & Hdeps & Hlt). rewrite Hdeps. intros [= -> _]. lia. }
  assert (forall t iref eref s,
    Render.older {| Render.nextRef := Render.nextRef s + 2;
                    Render.memoForTheMonth :=
                      Some {| Render.deps := [Render.nextRef s; iref; eref];
                              Render.value := cells t |} |}) as Hnext.
  { intros t iref eref s. unfold Render.older. cbn. eexists _, _. split; [done|]. lia. }
  exists (cells now), (cells now'). eexists _, _.
  split; [by apply Hrender|].
  split; [apply Hrender, Hnext|].
  split; [by rewrite useCalendarDays_eq|].
  split; [by rewrite useCalendarDays_eq|].
  split; [unfold cells; by intros ->|].
  split; [by intros ->|].
  split; [done|].
  split; apply Hnext.
Qed.

(** Two renders of [june2024_no_minDate] on 1 June 2024 return equal
    sequences. *)
Example june2024_no_minDate_same_day :
  (fst <$> Render.renderDaysToRenderForTheMonth getAvailableDatesInMonth
             (Dayjs.mk 2024 5 1 0) june2024_no_minDate 7 8 mountHooks)
  = (fst <$> Render.renderDaysToRenderForTheMonth getAvailableDatesInMonth
               (Dayjs.mk 2024 5 1 0) june2024_no_minDate 9 8
               (from_option snd mountHooks
                  (Render.renderDaysToRenderForTheMonth getAvailableDatesInMonth
                     (Dayjs.mk 2024 5 1 0) june2024_no_minDate 7 8 mountHooks))).
Proof. vm_compute. reflexivity. Qed.

Lemma computeMonthDays_deterministic_witness :
  exists v v' st1 st2,
    Render.renderDaysToRenderForTheMonth getAvailableDatesInMonth today june2024 7 8
      mountHooks = Some (v, st1)
    /\ Render.renderDaysToRenderForTheMonth getAvailableDatesInMonth
         (Dayjs.mk 2024 5 10 0) june2024 9 8 st1 = Some (v', st2)
    /\ (CalendarDays.daysToRenderForTheMonth
          <$> useCalendarDays (getAvailableDatesInMonth today) june2024) = Some v
    /\ (CalendarDays.daysToRenderForTheMonth
          <$> useCalendarDays (getAvailableDatesInMonth (Dayjs.mk 2024 5 10 0)) june2024)
       = Some v'
    /\ (getAvailableDatesInMonth today (browsingDate june2024) (minDate june2024)
          (default [] (includedDates june2024))
        = getAvailableDatesInMonth (Dayjs.mk 2024 5 10 0) (browsingDate june2024)
            (minDate june2024) (default [] (includedDates june2024)) ->
        v = v')
    /\ (today = Dayjs.mk 2024 5 10 0 -> v = v')
    /\ (forall m b inc,
          getAvailableDatesInMonth today b (Some m) inc
          = getAvailableDatesInMonth (Dayjs.mk 2024 5 10 0) b (Some m) inc)
    /\ Render.older st1 /\ Render.older st2.
Proof.
  apply (computeMonthDays_deterministic getAvailableDatesInMonth june2024
           today (Dayjs.mk 2024 5 10 0) 7 8 9 8 mountHooks).
  - unfold june2024, propsOf; cbn [weekStart]; lia.
  - exact I.
Defined.

(** C9 does not hold as stated: the inputs (browsingDate, weekStart,
    includedDates, excludedDates) do not fix the output. With the same props
    and no minDate, a render on 1 June 2024 enables the 5th of June and the
    next render, on 10 June 2024, disables it. The cell of 5 June is at
    position 10 (6 padding cells, then the dates from 1 June). *)
Lemma computeMonthDays_depends_on_clock :
  ((fun '(v, _) => disabled <$> v !! 10)
     <$> Render.renderDaysToRenderForTheMonth getAvailableDatesInMonth
           (Dayjs.mk 2024 5 1 0) june2024_no_minDate 7 8 mountHooks)
  = Some (Some false)
  /\ ((fun '(v, _) => disabled <$> v !! 10)
        <$> Render.renderDaysToRenderForTheMonth getAvailableDatesInMonth
              (Dayjs.mk 2024 5 10 0) june2024_no_minDate 7 8
              (from_option snd mountHooks
                 (Render.renderDaysToRenderForTheMonth getAvailableDatesInMonth
                    (Dayjs.mk 2024 5 1 0) june2024_no_minDate 7 8 mountHooks)))
     = Some (Some true)
  /\ ((fun '(v, _) => (day <$> v !! 10))
        <$> Render.renderDaysToRenderForTheMonth getAvailableDatesInMonth
              (Dayjs.mk 2024 5 1 0) june2024_no_minDate 7 8 mountHooks)
     = Some (Some (Some (Dayjs.mk 2024 5 5 0))).
Proof. repeat split; vm_compute; reflexivity. Qed.

(* ===================================================================== *)
(** * Further properties of the date picker *)

(** ** The calendar: weekdays along a month and across its end *)

(** The days before 1 January of a year, up to a constant. *)
Lemma epochDay_date y m d :
  Dayjs.epochDay y m d = (Dayjs.epochDay y m 1 + d - 1)%Z.
Proof. unfold Dayjs.epochDay. cbv zeta. lia. Qed.

Lemma day_set_date b d :
  Dayjs.day (Dayjs.set_date b d) = ((weekdayOfFirst b + d - 1) mod 7)%Z.
Proof.
  unfold weekdayOfFirst, Dayjs.day, Dayjs.set_date.
  cbn [Dayjs.year Dayjs.month Dayjs.date].
  rewrite (epochDay_date _ _ d).
  generalize (Dayjs.epochDay (Dayjs.year b) (Dayjs.month b) 1). intros e. lia.
Qed.

Lemma era_days y :
  (y / 400 * 146097
   + ((y - y / 400 * 400) * 365 + (y - y / 400 * 400) / 4 - (y - y / 400 * 400) / 100)
   = 365 * y + y / 4 - y / 100 + y / 400)%Z.
Proof. lia. Qed.

Lemma epochDay_eq y m d :
  Dayjs.epochDay y m d
  = ((let y' := if m + 1 <=? 2 then y - 1 else y in
      365 * y' + y' / 4 - y' / 100 + y' / 400)
     + (153 * (if m + 1 >? 2 then m + 1 - 3 else m + 1 + 9) + 2) / 5 + d - 1 - 719468)%Z.
Proof. unfold Dayjs.epochDay. cbv zeta. rewrite <- era_days. lia. Qed.

Lemma leap_step y :
  (365 * y + y / 4 - y / 100 + y / 400
   = 365 * (y - 1) + (y - 1) / 4 - (y - 1) / 100 + (y - 1) / 400
     + 365 + (if Dayjs.isLeapYear y then 1 else 0))%Z.
Proof.
  unfold Dayjs.isLeapYear.
  destruct (Z.eqb_spec (y mod 4) 0); destruct (Z.eqb_spec (y mod 100) 0);
    destruct (Z.eqb_spec (y mod 400) 0); cbn [andb orb negb]; lia.
Qed.

(** Comparisons of literals are evaluated. *)
Ltac eval_comparisons :=
  repeat match goal with
    | |- context [(?a <=? ?b)%Z] =>
        let v := eval vm_compute in (a <=? b)%Z in
        lazymatch v with
        | true => change (a <=? b)%Z with true
        | false => change (a <=? b)%Z with false
        end
    | |- context [(?a >? ?b)%Z] =>
        let v := eval vm_compute in (a >? b)%Z in
        lazymatch v with
        | true => change (a >? b)%Z with true
        | false => change (a >? b)%Z with false
        end
    | |- context [(?a =? ?b)%Z] =>
        let v := eval vm_compute in (a =? b)%Z in
        lazymatch v with
        | true => change (a =? b)%Z with true
        | false => change (a =? b)%Z with false
        end
    end;
  cbn [orb andb negb].

(** The first day of the next month is the day after the last day of the
    month. *)
Lemma epochDay_next_month y m :
  (0 <= m <= 11)%Z ->
  Dayjs.epochDay ((y * 12 + m + 1) / 12) ((y * 12 + m + 1) mod 12) 1
  = (Dayjs.epochDay y m (Dayjs.monthLength y m) + 1)%Z.
Proof.
  intros Hm.
  assert (m = 0 \/ m = 1 \/ m = 2 \/ m = 3 \/ m = 4 \/ m = 5 \/ m = 6 \/ m = 7 \/ m = 8
          \/ m = 9 \/ m = 10 \/ m = 11)%Z as H by lia.
  destruct (Z.eq_dec m 11%Z) as [->|Hdec].
  - replace ((y * 12 + 11 + 1) / 12)%Z with (y + 1)%Z by lia.
    replace ((y * 12 + 11 + 1) mod 12)%Z with 0%Z by lia.
    rewrite !epochDay_eq. unfold Dayjs.monthLength. cbv zeta. eval_comparisons.
    replace (y + 1 - 1)%Z with y by lia.
    generalize (y / 4)%Z (y / 100)%Z (y / 400)%Z. intros. lia.
  - replace ((y * 12 + m + 1) / 12)%Z with y by lia.
    replace ((y * 12 + m + 1) mod 12)%Z with (m + 1)%Z by lia.
    rewrite !epochDay_eq. unfold Dayjs.monthLength. cbv zeta.
    destruct H as [->|[->|[->|[->|[->|[->|[->|[->|[->|[->|[->| ->]]]]]]]]]]];
      [ | | | | | | | | | | | done]; eval_comparisons.
    2: { rewrite (leap_step y).
         generalize ((y - 1) / 4)%Z ((y - 1) / 100)%Z ((y - 1) / 400)%Z. intros.
         destruct (Dayjs.isLeapYear y); lia. }
    1: generalize ((y - 1) / 4)%Z ((y - 1) / 100)%Z ((y - 1) / 400)%Z; intros; lia.
    all: generalize (y / 4)%Z (y / 100)%Z (y / 400)%Z; intros; lia.
Qed.

Lemma weekdayOfFirst_next_month b :
  (0 <= Dayjs.month b <= 11)%Z ->
  weekdayOfFirst (Dayjs.add_month 1 b) = ((weekdayOfFirst b + daysInMonth b) mod 7)%Z.
Proof.
  intros Hm. unfold weekdayOfFirst, Dayjs.day, Dayjs.set_date, Dayjs.add_month, daysInMonth.
  cbn [Dayjs.year Dayjs.month Dayjs.date].
  rewrite epochDay_next_month by done.
  rewrite (epochDay_date _ _ (Dayjs.monthLength _ _)).
  generalize (Dayjs.epochDay (Dayjs.year b) (Dayjs.month b) 1).
  generalize (Dayjs.monthLength (Dayjs.year b) (Dayjs.month b)). intros n e. lia.
Qed.

(** ** Where a date sits in the grid *)

Lemma monthDates_lookup month j d :
  monthDates month !! j = Some d ->
  d = Dayjs.set_date month (Z.of_nat (S j)) /\ j < Z.to_nat (daysInMonth month).
Proof.
  unfold monthDates. rewrite map_fmap, list_lookup_fmap.
  destruct (seq 1 (Z.to_nat (daysInMonth month)) !! j) as [k|] eqn:Hk; [|done].
  apply lookup_seq in Hk as [-> Hj]. cbn. by intros [= <-].
Qed.

Lemma allDaysOf_eq h p r :
  (0 <= weekStart p <= 6)%Z ->
  useCalendarDays h p = Some r ->
  allDaysOf r
  = (replicate (paddingBeforeFirst (browsingDate p) (weekStart p)) nullCell
     ++ map (monthCell (CalendarDays.includedDatesInMonth r) (default [] (excludedDates p)))
          (monthDates (browsingDate p)))
    ++ (if CalendarDays.shouldRenderNextMonth r
        then map (nextMonthCell (default [] (includedDates p)))
               (monthDates (Dayjs.add_month 1 (browsingDate p)))
        else []).
Proof.
  intros Hws Hr.
  destruct (CalendarDays.shouldRenderNextMonth r) eqn:Hs.
  - by apply (allDaysOf_continuation h).
  - rewrite useCalendarDays_eq in Hr by done. cbv zeta in Hr. injection Hr as <-.
    unfold allDaysOf. hook_fields. hook_fields_in Hs. rewrite Hs.
    unfold allDays. by rewrite app_nil_r.
Qed.

(** A non-null cell of the day sequence is a date of the browsing month, at
    the position padding + date - 1, or with continuation a date of the next
    month, at the position boundary + date - 1. *)
Lemma allDaysOf_cell h p r i o d :
  (0 <= weekStart p <= 6)%Z ->
  useCalendarDays h p = Some r ->
  allDaysOf r !! i = Some o -> day o = Some d ->
  (paddingBeforeFirst (browsingDate p) (weekStart p) <= i
     < boundary (browsingDate p) (weekStart p)
   /\ d = Dayjs.set_date (browsingDate p)
            (Z.of_nat (i - paddingBeforeFirst (browsingDate p) (weekStart p) + 1))
   /\ o = monthCell (CalendarDays.includedDatesInMonth r) (default [] (excludedDates p)) d)
  \/ (CalendarDays.shouldRenderNextMonth r = true
      /\ boundary (browsingDate p) (weekStart p) <= i
           < boundary (browsingDate p) (weekStart p)
             + Z.to_nat (daysInMonth (Dayjs.add_month 1 (browsingDate p)))
      /\ d = Dayjs.set_date (Dayjs.add_month 1 (browsingDate p))
               (Z.of_nat (i - boundary (browsingDate p) (weekStart p) + 1))
      /\ o = nextMonthCell (default [] (includedDates p)) d).
Proof.
  intros Hws Hr Hi Hd. rewrite (allDaysOf_eq h p r Hws Hr) in Hi.
  unfold boundary.
  set (pad := paddingBeforeFirst (browsingDate p) (weekStart p)) in *.
  apply lookup_app_Some in Hi as [Hi|[Hlen Hi]].
  - left. apply lookup_app_Some in Hi as [Hi|[Hlen Hi]].
    + apply lookup_replicate in Hi as [-> _]. discriminate.
    + rewrite length_replicate in Hlen, Hi.
      rewrite map_fmap, list_lookup_fmap in Hi.
      destruct (monthDates (browsingDate p) !! (i - pad)) as [d'|] eqn:Hd'; [|done].
      cbn in Hi. injection Hi as <-. cbn in Hd. injection Hd as ->.
      apply monthDates_lookup in Hd' as [-> Hlt].
      split; [lia|]. split; [|done]. f_equal. lia.
  - right. rewrite length_app, length_replicate, length_map, monthDates_length in Hlen, Hi.
    destruct (CalendarDays.shouldRenderNextMonth r); [|done].
    rewrite map_fmap, list_lookup_fmap in Hi.
    destruct (monthDates (Dayjs.add_month 1 (browsingDate p))
                !! (i - (pad + Z.to_nat (daysInMonth (browsingDate p))))) as [d'|] eqn:Hd';
      [|done].
    cbn in Hi. injection Hi as <-. cbn in Hd. injection Hd as ->.
    apply monthDates_lookup in Hd' as [-> Hlt].
    split; [done|]. split; [lia|]. split; [|done]. f_equal. lia.
Qed.

Lemma weeks_cell h p r w c o :
  useCalendarDays h p = Some r ->
  w ∈ CalendarDays.weeks r -> items w !! c = Some o ->
  c < 7 /\ allDaysOf r !! (7 * ref w + c) = Some o.
Proof.
  intros Hr Hw Hc. rewrite (weeks_of_hook h p r Hr) in Hw.
  apply elem_of_weeks, elem_of_groupedWeeks in Hw as [_ Hw].
  rewrite Hw in Hc. cbn [items weekAt] in Hc.
  assert (c < 7) as Hlt.
  { apply lookup_lt_Some in Hc. rewrite length_take in Hc. lia. }
  split; [done|]. by rewrite lookup_chunk in Hc.
Qed.

(** The week at position j of the returned weeks is the chunk
    [firstWeek + j] of the combined day sequence. *)
Lemma weeks_lookup_ref h p r j w :
  useCalendarDays h p = Some r ->
  CalendarDays.weeks r !! j = Some w ->
  ref w = firstWeek r + j.
Proof.
  intros Hr. unfold firstWeek.
  destruct (CalendarDays.shouldRenderNextMonth r) eqn:Hs.
  - destruct (continuation_inputs h p r Hr Hs) as (Hinc & _ & ->).
    destruct (firstAvailableIndex (groupedWeeks (allDaysOf r))) as [f|] eqn:Hf.
    + rewrite (weeks_continuing _ _ f Hinc Hf).
      destruct (bounded_spec _ _ Hf) as (la & m & _ & _ & _ & -> & _). cbn [fst default].
      destruct (_ <? 5); rewrite slice_window;
        intros [Hj _]%lookup_take_Some; rewrite lookup_drop in Hj;
        by apply groupedWeeks_lookup in Hj as [_ ->].
    + by rewrite weeks_continuing_none.
  - rewrite (weeks_of_hook h p r Hr), Hs. unfold weeks. rewrite orb_true_r.
    by intros [_ ->]%groupedWeeks_lookup.
Qed.

Lemma weeks_lookup_cell h p r j w c o :
  useCalendarDays h p = Some r ->
  CalendarDays.weeks r !! j = Some w -> items w !! c = Some o ->
  c < 7 /\ allDaysOf r !! (7 * (firstWeek r + j) + c) = Some o.
Proof.
  intros Hr Hj Hc. rewrite <- (weeks_lookup_ref h p r j w Hr Hj).
  apply (weeks_cell h p r w c o Hr); [|done]. by apply list_elem_of_lookup_2 in Hj.
Qed.

(** X1. In every week the hook returns, with or without continuation, the
    cell in column c holds a date whose weekday is weekStart + c modulo 7:
    every date, of the browsing month and of the next month, sits in the
    column of its weekday. *)
Theorem dates_in_weekday_columns
    (h : Dayjs -> option Dayjs -> list string -> list string) (p : UseCalendarDaysProps) :
  (0 <= weekStart p <= 6)%Z ->
  (0 <= Dayjs.month (browsingDate p) <= 11)%Z ->
  exists r,
    useCalendarDays h p = Some r
    /\ forall w c o d,
         w ∈ CalendarDays.weeks r -> items w !! c = Some o -> day o = Some d ->
         Z.of_nat c = ((Dayjs.day d - weekStart p) mod 7)%Z
         /\ Dayjs.day d = ((weekStart p + Z.of_nat c) mod 7)%Z.
Proof.
  intros Hws Hm.
  destruct (useCalendarDays h p) as [r|] eqn:Hr; [|by rewrite useCalendarDays_eq in Hr].
  exists r. split; [done|]. intros w c o d Hw Hc Hd.
  destruct (weeks_cell h p r w c o Hr Hw Hc) as [Hlt Hi].
  pose proof (weekdayOfFirst_bounds (browsingDate p)) as Hw1.
  pose proof (daysInMonth_bounds (browsingDate p)) as Hdim.
  assert (Z.of_nat (paddingBeforeFirst (browsingDate p) (weekStart p))
          = (weekdayOfFirst (browsingDate p) - weekStart p + 7) mod 7)%Z as Hpad.
  { unfold paddingBeforeFirst. lia. }
  destruct (allDaysOf_cell h p r _ o d Hws Hr Hi Hd)
    as [(Hrange & -> & _)|(_ & Hrange & -> & _)]; rewrite day_set_date.
  - revert Hrange Hpad.
    generalize (paddingBeforeFirst (browsingDate p) (weekStart p)).
    generalize (weekdayOfFirst (browsingDate p)) Hw1.
    unfold boundary. intros w1 Hw1' pad Hrange Hpad. lia.
  - rewrite weekdayOfFirst_next_month by done.
    revert Hrange Hpad. unfold boundary.
    generalize (paddingBeforeFirst (browsingDate p) (weekStart p)).
    generalize (weekdayOfFirst (browsingDate p)) Hw1.
    generalize (daysInMonth (browsingDate p)) Hdim.
    intros dim Hdim' w1 Hw1' pad Hrange Hpad. lia.
Qed.

Lemma dates_in_weekday_columns_witness :
  exists r,
    useCalendarDays (getAvailableDatesInMonth today) may2024 = Some r
    /\ forall w c o d,
         w ∈ CalendarDays.weeks r -> items w !! c = Some o -> day o = Some d ->
         Z.of_nat c = ((Dayjs.day d - weekStart may2024) mod 7)%Z
         /\ Dayjs.day d = ((weekStart may2024 + Z.of_nat c) mod 7)%Z.
Proof.
  apply (dates_in_weekday_columns (getAvailableDatesInMonth today) may2024).
  - unfold may2024, propsOf; cbn [weekStart]; lia.
  - unfold may2024, propsOf; cbn [browsingDate Dayjs.month]; lia.
Defined.

(** With continuation, the week of 26 May 2024 holds 26 to 31 May and 1 June,
    Sunday to Saturday. *)
Example may2024_last_week_weekdays :
  (fun r => (fun w => omap (fun o => Dayjs.day <$> day o) (items w))
              <$> last (CalendarDays.weeks r))
    <$> useCalendarDays (getAvailableDatesInMonth today) may2024
  = Some (Some [0; 1; 2; 3; 4; 5; 6]%Z).
Proof. vm_compute. reflexivity. Qed.

(** ** When the hook throws *)


(** May 2024 starts on a Wednesday: week start 10 is answered, week start 11
    throws. *)
Example may2024_weekStart_out_of_range :
  is_Some (useCalendarDays (getAvailableDatesInMonth today)
             (propsOf 2024 4 10 None (Some ["2024-05-20"]) None None))
  /\ useCalendarDays (getAvailableDatesInMonth today)
       (propsOf 2024 4 11 None (Some ["2024-05-20"]) None None) = None.
Proof. split; [by eexists | vm_compute; reflexivity]. Qed.

(** ** The size of the grid *)

(** X3. Without continuation a month is rendered in 4 to 6 weeks, the
    number (padding + days in month) / 7 rounded up, and the weeks hold the 28
    to 37 cells of the month and nothing else; with continuation there are at
    most 10 weeks. *)
Theorem month_grid_size
    (h : Dayjs -> option Dayjs -> list string -> list string) (p : UseCalendarDaysProps) :
  (0 <= weekStart p <= 6)%Z ->
  exists r,
    useCalendarDays h p = Some r
    /\ (CalendarDays.shouldRenderNextMonth r = false ->
        length (CalendarDays.weeks r) = (boundary (browsingDate p) (weekStart p) + 6) / 7
        /\ 4 <= length (CalendarDays.weeks r) <= 6
        /\ concat (map items (CalendarDays.weeks r)) = CalendarDays.daysToRenderForTheMonth r)
    /\ 28 <= length (CalendarDays.daysToRenderForTheMonth r) <= 37
    /\ length (CalendarDays.weeks r) <= 10.
Proof.
  intros Hws.
  destruct (useCalendarDays h p) as [r|] eqn:Hr; [|by rewrite useCalendarDays_eq in Hr].
  exists r. split; [done|].
  pose proof (daysInMonth_bounds (browsingDate p)) as Hdim.
  pose proof (daysInMonth_bounds (Dayjs.add_month 1 (browsingDate p))) as Hdim'.
  pose proof (paddingBeforeFirst_lt (browsingDate p) (weekStart p)) as Hpad.
  pose proof (allDaysOf_eq h p r Hws Hr) as Hall.
  assert (CalendarDays.daysToRenderForTheMonth r
          = replicate (paddingBeforeFirst (browsingDate p) (weekStart p)) nullCell
            ++ map (monthCell (CalendarDays.includedDatesInMonth r)
                      (default [] (excludedDates p))) (monthDates (browsingDate p))) as HdtrM.
  { rewrite useCalendarDays_eq in Hr by done. cbv zeta in Hr. by injection Hr as <-. }
  assert (length (CalendarDays.daysToRenderForTheMonth r)
          = boundary (browsingDate p) (weekStart p)) as Hlen.
  { rewrite HdtrM. unfold boundary.
    by rewrite length_app, length_replicate, length_map, monthDates_length. }
  split; [|split].
  - intros Hs. rewrite Hs, app_nil_r, <- HdtrM in Hall.
    rewrite (weeks_of_hook h p r Hr), Hs, Hall.
    assert (weeks (CalendarDays.daysToRenderForTheMonth r)
              (CalendarDays.includedDatesInMonth r) false
            = groupedWeeks (CalendarDays.daysToRenderForTheMonth r)) as ->.
    { unfold weeks. by rewrite orb_true_r. }
    rewrite groupedWeeks_length, concat_groupedWeeks. unfold weekCount. rewrite Hlen.
    unfold boundary in *. split; [done|]. split; [lia | done].
  - rewrite Hlen. unfold boundary. lia.
  - rewrite (weeks_of_hook h p r Hr).
    destruct (weeks_window (allDaysOf r) (CalendarDays.includedDatesInMonth r)
                (CalendarDays.shouldRenderNextMonth r)) as (i & n & ->).
    rewrite length_take, length_drop, groupedWeeks_length. unfold weekCount.
    assert (length (allDaysOf r) <= 68); [|lia].
    rewrite Hall, length_app, <- HdtrM, Hlen. unfold boundary.
    destruct (CalendarDays.shouldRenderNextMonth r).
    + rewrite length_map, monthDates_length. lia.
    + simpl. lia.
Qed.

Lemma month_grid_size_witness :
  exists r,
    useCalendarDays (getAvailableDatesInMonth today) june2024 = Some r
    /\ (CalendarDays.shouldRenderNextMonth r = false ->
        length (CalendarDays.weeks r)
        = (boundary (browsingDate june2024) (weekStart june2024) + 6) / 7
        /\ 4 <= length (CalendarDays.weeks r) <= 6
        /\ concat (map items (CalendarDays.weeks r)) = CalendarDays.daysToRenderForTheMonth r)
    /\ 28 <= length (CalendarDays.daysToRenderForTheMonth r) <= 37
    /\ length (CalendarDays.weeks r) <= 10.
Proof.
  apply (month_grid_size (getAvailableDatesInMonth today) june2024).
  unfold june2024, propsOf; cbn [weekStart]; lia.
Defined.

(** ** Clicking a day *)

(** X4. The flag a click passes to onChange tells the months apart by
    position: for a non-null cell at position i of the day sequence,
    dayIsInNextMonth is true exactly when i is at or after the boundary
    (padding + days in month), which only happens with continuation. For the
    cell in column c of the week at position j of the returned weeks that
    position is 7 * (firstWeek + j) + c, where the returned weeks start at the
    first week with an enabled cell under continuation and at the first week
    of the grid otherwise. *)
Theorem dayIsInNextMonth_iff_after_boundary
    (h : Dayjs -> option Dayjs -> list string -> list string) (p : UseCalendarDaysProps) :
  (0 <= weekStart p <= 6)%Z ->
  exists r,
    useCalendarDays h p = Some r
    /\ (forall i o d, allDaysOf r !! i = Some o -> day o = Some d ->
          (dayIsInNextMonth (browsingDate p) d = true
           <-> boundary (browsingDate p) (weekStart p) <= i)
          /\ (dayIsInNextMonth (browsingDate p) d = true ->
              CalendarDays.shouldRenderNextMonth r = true))
    /\ (forall j w c o d,
          CalendarDays.weeks r !! j = Some w -> items w !! c = Some o -> day o = Some d ->
          (dayIsInNextMonth (browsingDate p) d = true
           <-> boundary (browsingDate p) (weekStart p) <= 7 * (firstWeek r + j) + c)).
Proof.
  intros Hws.
  destruct (useCalendarDays h p) as [r|] eqn:Hr; [|by rewrite useCalendarDays_eq in Hr].
  exists r. split; [done|].
  assert (forall i o d, allDaysOf r !! i = Some o -> day o = Some d ->
            (dayIsInNextMonth (browsingDate p) d = true
             <-> boundary (browsingDate p) (weekStart p) <= i)
            /\ (dayIsInNextMonth (browsingDate p) d = true ->
                CalendarDays.shouldRenderNextMonth r = true)) as Hcell.
  { intros i o d Hi Hd. unfold dayIsInNextMonth.
    pose proof (add_month_other_month (browsingDate p)) as Hne.
    destruct (allDaysOf_cell h p r i o d Hws Hr Hi Hd)
      as [(Hrange & -> & _)|(Hs & Hrange & -> & _)];
      cbn [Dayjs.set_date Dayjs.month]; rewrite Z.eqb_eq.
    - split; [split; [done | lia] | done].
    - split; [split; [lia | done] | done]. }
  split; [exact Hcell|].
  intros j w c o d Hj Hc Hd.
  destruct (weeks_lookup_cell h p r j w c o Hr Hj Hc) as [_ Hi].
  apply (Hcell _ _ _ Hi Hd).
Qed.

Lemma dayIsInNextMonth_iff_after_boundary_witness :
  exists r,
    useCalendarDays (getAvailableDatesInMonth today) june2024_cutover = Some r
    /\ (forall i o d, allDaysOf r !! i = Some o -> day o = Some d ->
          (dayIsInNextMonth (browsingDate june2024_cutover) d = true
           <-> boundary (browsingDate june2024_cutover) (weekStart june2024_cutover) <= i)
          /\ (dayIsInNextMonth (browsingDate june2024_cutover) d = true ->
              CalendarDays.shouldRenderNextMonth r = true))
    /\ (forall j w c o d,
          CalendarDays.weeks r !! j = Some w -> items w !! c = Some o -> day o = Some d ->
          (dayIsInNextMonth (browsingDate june2024_cutover) d = true
           <-> boundary (browsingDate june2024_cutover) (weekStart june2024_cutover)
               <= 7 * (firstWeek r + j) + c)).
Proof.
  apply (dayIsInNextMonth_iff_after_boundary (getAvailableDatesInMonth today) june2024_cutover).
  unfold june2024_cutover, propsOf; cbn [weekStart]; lia.
Defined.

(** In [june2024_cutover] the returned weeks start at the sixth week of the
    grid: the first returned week holds 30 June in column 0 and 1 July in
    column 1, at positions 35 and 36 of the day sequence, and the boundary is
    36. *)
Example june2024_cutover_first_returned_week :
  (fun r => (firstWeek r,
             boundary (browsingDate june2024_cutover) (weekStart june2024_cutover),
             (fun w => map (fun o => from_option (dayIsInNextMonth
                                                    (browsingDate june2024_cutover)) false
                                       (day o))
                         (take 3 (items w)))
               <$> CalendarDays.weeks r !! 0))
    <$> useCalendarDays (getAvailableDatesInMonth today) june2024_cutover
  = Some (5, 36, Some [false; true; true]).
Proof. vm_compute. reflexivity. Qed.

(** X5. Picking a day of the next month switches the booking page to a
    single month: the click on a cell at or after the boundary calls onChange
    with the flag set, onChange sets showOneMonth and selects the date by its
    date-string, and with showOneMonth the hook no longer continues into the
    next month: its weeks are the plain grouping of the same cells of the
    browsing month. A month change clears showOneMonth again. *)
Theorem picking_next_month_day_shows_one_month
    (h : Dayjs -> option Dayjs -> list string -> list string) (p : UseCalendarDaysProps)
    (showOneMonth0 : bool) :
  (0 <= weekStart p <= 6)%Z ->
  exists r r',
    useCalendarDays h p = Some r
    /\ useCalendarDays h
         {| browsingDate := browsingDate p; weekStart := weekStart p; minDate := minDate p;
            includedDates := includedDates p; excludedDates := excludedDates p;
            showOneMonth := Some true |} = Some r'
    /\ (forall i o d, allDaysOf r !! i = Some o -> day o = Some d ->
          boundary (browsingDate p) (weekStart p) <= i ->
          Booker.onChange (Some d) (Some (dayIsInNextMonth (browsingDate p) d)) showOneMonth0
          = (true, [Booker.setSelectedDate (Some (yyyymmdd d))]))
    /\ CalendarDays.shouldRenderNextMonth r' = false
    /\ CalendarDays.daysToRenderForTheMonth r' = CalendarDays.daysToRenderForTheMonth r
    /\ CalendarDays.weeks r' = groupedWeeks (CalendarDays.daysToRenderForTheMonth r)
    /\ (forall layout date s, (Booker.onMonthChange layout date s).1 = false).
Proof.
  intros Hws.
  destruct (useCalendarDays h p) as [r|] eqn:Hr; [|by rewrite useCalendarDays_eq in Hr].
  exists r. eexists. split; [done|]. split; [by apply useCalendarDays_eq|].
  cbn [browsingDate weekStart minDate includedDates excludedDates showOneMonth].
  hook_fields. split; [|split; [|split; [|split]]].
  - intros i o d Hi Hd Hb. unfold Booker.onChange.
    assert (dayIsInNextMonth (browsingDate p) d = true) as ->; [|done].
    unfold dayIsInNextMonth. apply Z.eqb_eq.
    destruct (allDaysOf_cell h p r i o d Hws Hr Hi Hd)
      as [(Hrange & -> & _)|(Hs & Hrange & -> & _)]; [lia | done].
  - done.
  - rewrite useCalendarDays_eq in Hr by done. cbv zeta in Hr. by injection Hr as <-.
  - cbn [shouldRenderNextMonth from_option id]. unfold weeks, allDays.
    rewrite orb_true_r.
    rewrite useCalendarDays_eq in Hr by done. cbv zeta in Hr. by injection Hr as <-.
  - done.
Qed.

Lemma picking_next_month_day_shows_one_month_witness :
  exists r r',
    useCalendarDays (getAvailableDatesInMonth today) june2024_cutover = Some r
    /\ useCalendarDays (getAvailableDatesInMonth today)
         {| browsingDate := browsingDate june2024_cutover;
            weekStart := weekStart june2024_cutover; minDate := minDate june2024_cutover;
            includedDates := includedDates june2024_cutover;
            excludedDates := excludedDates june2024_cutover;
            showOneMonth := Some true |} = Some r'
    /\ (forall i o d, allDaysOf r !! i = Some o -> day o = Some d ->
          boundary (browsingDate june2024_cutover) (weekStart june2024_cutover) <= i ->
          Booker.onChange (Some d) (Some (dayIsInNextMonth (browsingDate june2024_cutover) d))
            false
          = (true, [Booker.setSelectedDate (Some (yyyymmdd d))]))
    /\ CalendarDays.shouldRenderNextMonth r' = false
    /\ CalendarDays.daysToRenderForTheMonth r' = CalendarDays.daysToRenderForTheMonth r
    /\ CalendarDays.weeks r' = groupedWeeks (CalendarDays.daysToRenderForTheMonth r)
    /\ (forall layout date s, (Booker.onMonthChange layout date s).1 = false).
Proof.
  apply (picking_next_month_day_shows_one_month (getAvailableDatesInMonth today) june2024_cutover
           false).
  unfold june2024_cutover, propsOf; cbn [weekStart]; lia.
Defined.

(** ** A month without availability *)

Lemma isUnavailableWeek_hasAvailableDays w :
  isUnavailableWeek w = negb (hasAvailableDays w).
Proof.
  unfold isUnavailableWeek, hasAvailableDays.
  induction (items w) as [|o l IH]; [done|]. cbn [forallb existsb].
  rewrite IH. by destruct (disabled o), (existsb _ l).
Qed.

Lemma Array_find_None {A : Type} (p : A -> bool) (l : list A) :
  (forall x, x ∈ l -> p x = false) -> Array_find p l = None.
Proof.
  induction l as [|a l IH]; intros H; [done|]. cbn [Array_find].
  rewrite (H a) by left. apply IH. intros x Hx. apply H. by right.
Qed.

Lemma renderRows_without_continuation b was ws :
  renderRows b false was ws = map WeekRow ws.
Proof.
  revert was. induction ws as [|w ws IH]; intros was; [done|].
  cbn [renderRows map andb]. by rewrite IH.
Qed.

(** X6. When the month has no available date (includedDatesInMonth is
    empty), every cell of the month is disabled, there is no continuation,
    every week of the plain grouping is rendered as a row, nothing is selected
    automatically, and the overlay is shown once the availability is no longer
    pending. Conversely the overlay is never shown together with a
    continuation. *)
Theorem month_without_availability
    (h : Dayjs -> option Dayjs -> list string -> list string) (p : UseCalendarDaysProps) :
  (0 <= weekStart p <= 6)%Z ->
  exists r,
    useCalendarDays h p = Some r
    /\ (CalendarDays.includedDatesInMonth r = [] ->
        (forall o, o ∈ CalendarDays.daysToRenderForTheMonth r -> disabled o = true)
        /\ CalendarDays.shouldRenderNextMonth r = false
        /\ CalendarDays.weeks r = groupedWeeks (CalendarDays.daysToRenderForTheMonth r)
        /\ rows (browsingDate p) (CalendarDays.shouldRenderNextMonth r) (CalendarDays.weeks r)
           = map WeekRow (CalendarDays.weeks r)
        /\ (forall layout selected,
              initialSelectionEffect layout selected (CalendarDays.daysToRenderForTheMonth r)
              = None)
        /\ (forall isPending,
              showsNoAvailabilityOverlay isPending (CalendarDays.includedDatesInMonth r)
              = negb isPending))
    /\ (forall isPending,
          showsNoAvailabilityOverlay isPending (CalendarDays.includedDatesInMonth r) = true ->
          CalendarDays.shouldRenderNextMonth r = false).
Proof.
  intros Hws. eexists. split; [by apply useCalendarDays_eq|]. hook_fields.
  set (inM := h (browsingDate p) (minDate p) (default [] (includedDates p))).
  split.
  - intros HinM. rewrite HinM.
    assert (forall o, o ∈ replicate (paddingBeforeFirst (browsingDate p) (weekStart p)) nullCell
                          ++ map (monthCell [] (default [] (excludedDates p)))
                               (monthDates (browsingDate p)) -> disabled o = true) as Hdis.
    { intros o [Ho|Ho]%elem_of_app.
      - by apply elem_of_replicate in Ho as [-> _].
      - by apply list_elem_of_In, in_map_iff in Ho as (d & <- & _). }
    assert (shouldRenderNextMonth (showOneMonth p) []
              (availableDaysForTheMonth
                 (replicate (paddingBeforeFirst (browsingDate p) (weekStart p)) nullCell
                  ++ map (monthCell [] (default [] (excludedDates p)))
                       (monthDates (browsingDate p))))
              (h (Dayjs.add_month 1 (browsingDate p)) (minDate p)
                 (default [] (includedDates p))) = false) as ->.
    { unfold shouldRenderNextMonth. by destruct (default false (showOneMonth p)). }
    split; [exact Hdis|]. split; [done|]. split; [done|].
    split; [apply renderRows_without_continuation|]. split; [|by intros [|]].
    intros layout selected. unfold initialSelectionEffect, handleInitialDateSelection.
    destruct (String.eqb layout "mobile"); [done|].
    assert (firstAvailableDate
              (replicate (paddingBeforeFirst (browsingDate p) (weekStart p)) nullCell
               ++ map (monthCell [] (default [] (excludedDates p)))
                    (monthDates (browsingDate p))) = None) as ->.
    { unfold firstAvailableDate. rewrite Array_find_None; [done|].
      intros o Ho. by rewrite (Hdis o Ho). }
    destruct selected; [done| |done]. by destruct (isSelectedDateAvailable _ _).
  - intros isPending. unfold showsNoAvailabilityOverlay, shouldRenderNextMonth.
    intros [_ Hlen%Nat.eqb_eq]%andb_true_iff. rewrite Hlen.
    by destruct (default false (showOneMonth p)).
Qed.

Lemma month_without_availability_witness :
  exists r,
    useCalendarDays (getAvailableDatesInMonth today) june2024_nothing = Some r
    /\ (CalendarDays.includedDatesInMonth r = [] ->
        (forall o, o ∈ CalendarDays.daysToRenderForTheMonth r -> disabled o = true)
        /\ CalendarDays.shouldRenderNextMonth r = false
        /\ CalendarDays.weeks r = groupedWeeks (CalendarDays.daysToRenderForTheMonth r)
        /\ rows (browsingDate june2024_nothing) (CalendarDays.shouldRenderNextMonth r)
             (CalendarDays.weeks r)
           = map WeekRow (CalendarDays.weeks r)
        /\ (forall layout selected,
              initialSelectionEffect layout selected (CalendarDays.daysToRenderForTheMonth r)
              = None)
        /\ (forall isPending,
              showsNoAvailabilityOverlay isPending (CalendarDays.includedDatesInMonth r)
              = negb isPending))
    /\ (forall isPending,
          showsNoAvailabilityOverlay isPending (CalendarDays.includedDatesInMonth r) = true ->
          CalendarDays.shouldRenderNextMonth r = false).
Proof.
  apply (month_without_availability (getAvailableDatesInMonth today) june2024_nothing).
  unfold june2024_nothing, propsOf; cbn [weekStart]; lia.
Defined.

(** ** The initial selection *)

Lemma Array_find_Some {A : Type} (p : A -> bool) (l : list A) x :
  Array_find p l = Some x ->
  exists i, l !! i = Some x /\ p x = true
            /\ forall j y, j < i -> l !! j = Some y -> p y = false.
Proof.
  induction l as [|a l IH]; [done|]. cbn [Array_find].
  destruct (p a) eqn:Hpa.
  - intros [= <-]. exists 0. split; [done|]. split; [done|]. intros j y Hj. lia.
  - intros Hx. destruct (IH Hx) as (i & Hi & Hpx & Hmin).
    exists (S i). split; [done|]. split; [done|].
    intros [|j] y Hj Hy; cbn in Hy; [congruence|]. apply (Hmin j); [lia | done].
Qed.

Lemma firstAvailableDate_Some dtr d :
  firstAvailableDate dtr = Some d ->
  exists i, dtr !! i = Some {| day := Some d; disabled := false |}
            /\ forall j o, j < i -> dtr !! j = Some o -> disabled o = true.
Proof.
  unfold firstAvailableDate.
  destruct (Array_find (fun day => negb (disabled day)) dtr) as [o|] eqn:Ho; [|done].
  cbn. intros Hd.
  destruct (Array_find_Some _ _ _ Ho) as (i & Hi & Hp & Hmin).
  exists i. split.
  - rewrite Hi. destruct o as [od ob]. cbn in *. apply negb_true_iff in Hp. by subst.
  - intros j o' Hj Ho'. specialize (Hmin j o' Hj Ho'). by apply negb_false_iff in Hmin.
Qed.

Lemma isSelectedDateAvailable_true s dtr :
  isSelectedDateAvailable (SelectedDayjs s) dtr = true <->
  exists o d, o ∈ dtr /\ day o = Some d /\ disabled o = false /\ yyyymmdd d = yyyymmdd s.
Proof.
  cbn [isSelectedDateAvailable]. rewrite existsb_exists. split.
  - intros (o & Ho & Hp). destruct (day o) as [d|] eqn:Hd; [|done].
    apply andb_true_iff in Hp as [He%String.eqb_eq Hn%negb_true_iff].
    exists o, d. by rewrite list_elem_of_In.
  - intros (o & d & Ho & Hd & Hn & He). exists o. split; [by apply list_elem_of_In|].
    by rewrite Hd, He, String.eqb_refl, Hn.
Qed.

(** X7. The handler never changes an array selection and does nothing on the
    mobile layout. When it calls onChange, it passes the date of the first
    enabled cell of the month, and only because the selected date (if any) is
    not the date-string of an enabled cell of the month; with that date
    selected it makes no further call. A selected date that is an enabled cell
    of the month is left alone. *)
Theorem handleInitialDateSelection_first_available (dtr : list DayObject) :
  (forall l, handleInitialDateSelection (SelectedArray l) dtr = None)
  /\ (forall selected, initialSelectionEffect "mobile" selected dtr = None)
  /\ (forall selected d,
        handleInitialDateSelection selected dtr = Some d ->
        (exists i, dtr !! i = Some {| day := Some d; disabled := false |}
                   /\ forall j o, j < i -> dtr !! j = Some o -> disabled o = true)
        /\ (forall s o d', selected = SelectedDayjs s -> o ∈ dtr -> day o = Some d' ->
              disabled o = false -> yyyymmdd d' <> yyyymmdd s)
        /\ handleInitialDateSelection (SelectedDayjs d) dtr = None)
  /\ (forall s o d',
        o ∈ dtr -> day o = Some d' -> disabled o = false -> yyyymmdd d' = yyyymmdd s ->
        handleInitialDateSelection (SelectedDayjs s) dtr = None)
  /\ (forall selected,
        (forall l, selected <> SelectedArray l) ->
        isSelectedDateAvailable selected dtr = false ->
        handleInitialDateSelection selected dtr = firstAvailableDate dtr).
Proof.
  split; [done|]. split; [done|]. split; [|split].
  - intros selected d Hcall.
    assert (firstAvailableDate dtr = Some d
            /\ isSelectedDateAvailable selected dtr = false) as [Hfirst Hsel].
    { unfold handleInitialDateSelection in Hcall.
      destruct selected; [| |done]; by destruct (isSelectedDateAvailable _ dtr). }
    destruct (firstAvailableDate_Some dtr d Hfirst) as (i & Hi & Hmin).
    split; [by exists i|]. split.
    + intros s o d' -> Ho Hd Hn He.
      assert (isSelectedDateAvailable (SelectedDayjs s) dtr = true) as Ht; [|congruence].
      apply isSelectedDateAvailable_true. by exists o, d'.
    + unfold handleInitialDateSelection.
      assert (isSelectedDateAvailable (SelectedDayjs d) dtr = true) as ->; [|done].
      apply isSelectedDateAvailable_true.
      exists {| day := Some d; disabled := false |}, d.
      split; [|done]. apply list_elem_of_lookup. by exists i.
  - intros s o d' Ho Hd Hn He. unfold handleInitialDateSelection.
    assert (isSelectedDateAvailable (SelectedDayjs s) dtr = true) as ->; [|done].
    apply isSelectedDateAvailable_true. by exists o, d'.
  - intros selected Hna Hsel. unfold handleInitialDateSelection.
    destruct selected as [|s|l]; [by rewrite Hsel | by rewrite Hsel |]. by destruct (Hna l).
Qed.

(** X8. On the days of the hook: the date the handler selects is a date of
    the browsing month whose date-string is in includedDatesInMonth and not in
    excludedDates, every earlier date of the month is disabled, and with it
    selected isActive marks its cell. *)
Theorem initial_selection_is_available
    (h : Dayjs -> option Dayjs -> list string -> list string) (p : UseCalendarDaysProps) :
  (0 <= weekStart p <= 6)%Z ->
  exists r,
    useCalendarDays h p = Some r
    /\ forall selected d,
         handleInitialDateSelection selected (CalendarDays.daysToRenderForTheMonth r) = Some d ->
         d ∈ monthDates (browsingDate p)
         /\ yyyymmdd d ∈ CalendarDays.includedDatesInMonth r
         /\ (yyyymmdd d ∉ default [] (excludedDates p))
         /\ (forall d', d' ∈ monthDates (browsingDate p) ->
               (Dayjs.date d' < Dayjs.date d)%Z ->
               yyyymmdd d' ∉ CalendarDays.includedDatesInMonth r
               \/ yyyymmdd d' ∈ default [] (excludedDates p))
         /\ (forall dayjs eventSlug selectedDatesAndTimes,
               isActive dayjs (SelectedDayjs d) eventSlug selectedDatesAndTimes d
               = Returns true).
Proof.
  intros Hws. eexists. split; [by apply useCalendarDays_eq|]. hook_fields.
  set (inM := h (browsingDate p) (minDate p) (default [] (includedDates p))).
  set (exc := default [] (excludedDates p)).
  set (pad := paddingBeforeFirst (browsingDate p) (weekStart p)).
  intros selected d Hcall.
  assert (firstAvailableDate (replicate pad nullCell
                              ++ map (monthCell inM exc) (monthDates (browsingDate p)))
          = Some d) as Hfirst.
  { unfold handleInitialDateSelection in Hcall.
    destruct selected; [| |done]; by destruct (isSelectedDateAvailable _ _). }
  destruct (firstAvailableDate_Some _ d Hfirst) as (i & Hi & Hmin).
  assert (exists j, i = pad + j /\ monthDates (browsingDate p) !! j = Some d
                    /\ disabled (monthCell inM exc d) = false) as (j & -> & Hj & Hdis).
  { apply lookup_app_Some in Hi as [Hi|[Hlen Hi]].
    - by apply lookup_replicate in Hi as [? _].
    - rewrite length_replicate in Hlen, Hi. exists (i - pad). split; [lia|].
      rewrite map_fmap, list_lookup_fmap in Hi.
      destruct (monthDates (browsingDate p) !! (i - pad)) as [d0|] eqn:Hd0; [|done].
      cbn in Hi. injection Hi as Heq Hdis. subst d0. split; [done|].
      by cbn [disabled monthCell]. }
  cbn [disabled monthCell] in Hdis. apply orb_false_iff in Hdis as [Hin Hex].
  apply negb_false_iff, includes_true in Hin. apply includes_false in Hex.
  split; [apply list_elem_of_lookup; by exists j|]. split; [done|]. split; [done|]. split.
  - intros d' Hd' Hlt. apply list_elem_of_lookup in Hd' as [j' Hj'].
    destruct (monthDates_lookup _ _ _ Hj') as [Hd'eq Hj'lt].
    destruct (monthDates_lookup _ _ _ Hj) as [Hdeq Hjlt].
    assert (j' < j) as Hjj.
    { rewrite Hd'eq, Hdeq in Hlt. cbn [Dayjs.set_date Dayjs.date] in Hlt. lia. }
    specialize (Hmin (pad + j') (monthCell inM exc d') ltac:(lia)).
    rewrite lookup_app_r, length_replicate in Hmin by (rewrite length_replicate; lia).
    replace (pad + j' - pad) with j' in Hmin by lia.
    rewrite map_fmap, list_lookup_fmap, Hj' in Hmin. specialize (Hmin eq_refl).
    cbn [disabled monthCell] in Hmin.
    apply orb_true_iff in Hmin as [Hn|Hx].
    + left. by apply includes_false, negb_true_iff.
    + right. by apply includes_true.
  - intros dayjs eventSlug sdt. cbn [isActive]. by rewrite String.eqb_refl.
Qed.

Lemma initial_selection_is_available_witness :
  exists r,
    useCalendarDays (getAvailableDatesInMonth today) june2024 = Some r
    /\ forall selected d,
         handleInitialDateSelection selected (CalendarDays.daysToRenderForTheMonth r) = Some d ->
         d ∈ monthDates (browsingDate june2024)
         /\ yyyymmdd d ∈ CalendarDays.includedDatesInMonth r
         /\ (yyyymmdd d ∉ default [] (excludedDates june2024))
         /\ (forall d', d' ∈ monthDates (browsingDate june2024) ->
               (Dayjs.date d' < Dayjs.date d)%Z ->
               yyyymmdd d' ∉ CalendarDays.includedDatesInMonth r
               \/ yyyymmdd d' ∈ default [] (excludedDates june2024))
         /\ (forall dayjs eventSlug selectedDatesAndTimes,
               isActive dayjs (SelectedDayjs d) eventSlug selectedDatesAndTimes d
               = Returns true).
Proof.
  apply (initial_selection_is_available (getAvailableDatesInMonth today) june2024).
  unfold june2024, propsOf; cbn [weekStart]; lia.
Defined.

(** In June 2024 with the 5th and 6th available: a selection of 20 June is
    replaced by 5 June, a selection of 6 June is kept. *)
Example june2024_initial_selection :
  (fun r => (handleInitialDateSelection (SelectedDayjs (Dayjs.mk 2024 5 20 0))
               (CalendarDays.daysToRenderForTheMonth r),
             handleInitialDateSelection (SelectedDayjs (Dayjs.mk 2024 5 6 7200000))
               (CalendarDays.daysToRenderForTheMonth r),
             handleInitialDateSelection SelectedNone
               (CalendarDays.daysToRenderForTheMonth r)))
    <$> useCalendarDays (getAvailableDatesInMonth today) june2024
  = Some (Some (Dayjs.mk 2024 5 5 0), None, Some (Dayjs.mk 2024 5 5 0)).
Proof. vm_compute. reflexivity. Qed.

(** ** The rows of the grid *)

(** Row by row: what is rendered for a week depends on the week and on the
    week before it only. *)
Lemma renderRows_lookup b s : forall ws was i,
  renderRows b s was ws !! i
  = (fun w =>
       if isCollapsedWeek b s w then
         if match i with
            | 0 => was
            | S j => from_option (isCollapsedWeek b s) false (ws !! j)
            end
         then NoRow else NoAvailabilityRow
       else WeekRow w) <$> ws !! i.
Proof.
  induction ws as [|w ws IH]; intros was i; [done|].
  cbn [renderRows]. fold (isCollapsedWeek b s w).
  destruct i as [|i].
  - cbn. destruct (isCollapsedWeek b s w); [|done]. by destruct was.
  - assert (forall flag row,
              isCollapsedWeek b s w = flag ->
              (row :: renderRows b s flag ws) !! S i
              = (fun w0 =>
                   if isCollapsedWeek b s w0 then
                     if from_option (isCollapsedWeek b s) false ((w :: ws) !! i)
                     then NoRow else NoAvailabilityRow
                   else WeekRow w0) <$> (w :: ws) !! S i) as Hstep.
    { intros flag row Hflag. cbn [lookup list_lookup]. rewrite IH.
      destruct i as [|i]; cbn; by rewrite ?Hflag. }
    destruct (isCollapsedWeek b s w) eqn:Hc; [destruct was|]; by apply Hstep.
Qed.

(** X9. The rows of the grid, week by week: a week with an enabled cell, the
    week of the month transition, and every week when there is no
    continuation, are rendered as rows; a run of other weeks is rendered as one
    "No availability" notice followed by nothing. So the notice is never
    repeated in a row, and an omitted week always follows a notice or another
    omitted week. *)
Theorem rows_collapse_unavailable_weeks (b : Dayjs) (s : bool) (ws : list WeekArray) :
  length (rows b s ws) = length ws
  /\ (forall i w, ws !! i = Some w ->
        (hasAvailableDays w = true \/ is_Some (transitionIndex b w) \/ s = false) ->
        rows b s ws !! i = Some (WeekRow w))
  /\ (forall i w, ws !! i = Some w ->
        s = true -> hasAvailableDays w = false -> transitionIndex b w = None ->
        rows b s ws !! i = Some NoAvailabilityRow \/ rows b s ws !! i = Some NoRow)
  /\ (forall i, rows b s ws !! i = Some NoAvailabilityRow ->
        rows b s ws !! S i <> Some NoAvailabilityRow)
  /\ (forall i, rows b s ws !! i = Some NoRow ->
        exists j, i = S j
                  /\ (rows b s ws !! j = Some NoAvailabilityRow
                      \/ rows b s ws !! j = Some NoRow))
  /\ (forall i w, rows b s ws !! i = Some (WeekRow w) -> ws !! i = Some w).
Proof.
  unfold rows.
  assert (forall w, isCollapsedWeek b s w = true <->
                    s = true /\ hasAvailableDays w = false /\ transitionIndex b w = None)
    as Hcol.
  { intros w. unfold isCollapsedWeek.
    rewrite !andb_true_iff, isUnavailableWeek_hasAvailableDays, !negb_true_iff.
    destruct (transitionIndex b w); cbn; intuition congruence. }
  split; [|split; [|split; [|split; [|split]]]].
  - generalize false. induction ws as [|w ws IH]; intros was; [done|].
    cbn [renderRows]. repeat case_match; cbn; by rewrite IH.
  - intros i w Hi Hw. rewrite renderRows_lookup, Hi. cbn.
    destruct (isCollapsedWeek b s w) eqn:Hc; [|done].
    apply Hcol in Hc as (-> & Hav & Ht). rewrite Hav, Ht in Hw.
    destruct Hw as [?|[[? ?]|?]]; done.
  - intros i w Hi Hs Hav Ht. rewrite renderRows_lookup, Hi. cbn.
    assert (isCollapsedWeek b s w = true) as -> by (by apply Hcol).
    case_match; auto.
  - intros i. rewrite !renderRows_lookup.
    destruct (ws !! i) as [w|] eqn:Hi; [|done]. cbn.
    destruct (isCollapsedWeek b s w) eqn:Hc; [|done].
    intros _. destruct (ws !! S i) as [w'|]; [|done]. cbn.
    by destruct (isCollapsedWeek b s w').
  - intros i. rewrite renderRows_lookup.
    destruct (ws !! i) as [w|] eqn:Hi; [|done]. cbn.
    destruct (isCollapsedWeek b s w) eqn:Hc; [|done].
    destruct i as [|j]; [done|].
    destruct (ws !! j) as [w'|] eqn:Hj; [|done]. cbn.
    destruct (isCollapsedWeek b s w') eqn:Hc'; [|done].
    intros _. exists j. split; [done|]. rewrite renderRows_lookup, Hj. cbn. rewrite Hc'.
    case_match; auto.
  - intros i w. rewrite renderRows_lookup.
    destruct (ws !! i) as [w'|]; [|done]. cbn.
    destruct (isCollapsedWeek b s w'); [by case_match|]. by intros [= ->].
Qed.

(** The rows of [june2024_cutover]: the week of the transition, then one
    notice for the four unavailable weeks of July. *)
Example june2024_cutover_rows :
  (fun r => map (fun row => match row with
                            | WeekRow w => Some (ref w)
                            | _ => None
                            end)
              (rows (browsingDate june2024_cutover) (CalendarDays.shouldRenderNextMonth r)
                 (CalendarDays.weeks r)))
    <$> useCalendarDays (getAvailableDatesInMonth today) june2024_cutover
  = Some [Some 5; None; None; None; None]
  /\ (fun r => rows (browsingDate june2024_cutover) (CalendarDays.shouldRenderNextMonth r)
                 (CalendarDays.weeks r) !! 1)
       <$> useCalendarDays (getAvailableDatesInMonth today) june2024_cutover
     = Some (Some NoAvailabilityRow)
  /\ (fun r => rows (browsingDate june2024_cutover) (CalendarDays.shouldRenderNextMonth r)
                 (CalendarDays.weeks r) !! 2)
       <$> useCalendarDays (getAvailableDatesInMonth today) june2024_cutover
     = Some (Some NoRow).
Proof. repeat split; vm_compute; reflexivity. Qed.

(** X10. With continuation the grid never starts with a notice: the first
    week the hook returns has an enabled cell and is rendered as a row (the
    weeks are empty only if no week has an enabled cell). *)
Theorem continuation_starts_with_available_week
    (h : Dayjs -> option Dayjs -> list string -> list string) (p : UseCalendarDaysProps) :
  (0 <= weekStart p <= 6)%Z ->
  exists r,
    useCalendarDays h p = Some r
    /\ (CalendarDays.shouldRenderNextMonth r = true ->
        match CalendarDays.weeks r with
        | [] => firstAvailableIndex (groupedWeeks (allDaysOf r)) = None
        | w :: _ =>
            hasAvailableDays w = true
            /\ firstAvailableIndex (groupedWeeks (allDaysOf r)) = Some (ref w)
            /\ head (rows (browsingDate p) true (CalendarDays.weeks r)) = Some (WeekRow w)
        end).
Proof.
  intros Hws.
  destruct (useCalendarDays h p) as [r|] eqn:Hr; [|by rewrite useCalendarDays_eq in Hr].
  exists r. split; [done|]. intros Hs.
  destruct (continuation_inputs h p r Hr Hs) as (Hinc & _ & ->).
  destruct (firstAvailableIndex (groupedWeeks (allDaysOf r))) as [f|] eqn:Hf.
  - rewrite (weeks_continuing _ _ f Hinc Hf).
    destruct (bounded_spec _ _ Hf) as (la & m & _ & Hfl & Hm & -> & _).
    destruct (firstAvailableIndex_Some _ _ Hf) as (w & Hw & Hav & _).
    assert (forall n, 0 < n ->
              exists rest, slice (groupedWeeks (allDaysOf r)) f (f + n) = w :: rest)
      as Hslice.
    { intros n Hn. rewrite slice_window.
      destruct (take n (drop f (groupedWeeks (allDaysOf r)))) as [|w' rest] eqn:Ht.
      - apply (f_equal length) in Ht.
        rewrite length_take, length_drop, groupedWeeks_length in Ht. cbn in Ht. lia.
      - exists rest. f_equal.
        assert (take n (drop f (groupedWeeks (allDaysOf r))) !! 0 = Some w) as H0
          by (by rewrite lookup_take_lt, lookup_drop, Nat.add_0_r).
        rewrite Ht in H0. cbn in H0. congruence. }
    assert (ref w = f) as Href.
    { apply groupedWeeks_lookup in Hw as [_ ->]. done. }
    cbn [fst].
    destruct (_ <? 5);
      [destruct (Hslice 5 ltac:(lia)) as [rest ->]
      | destruct (Hslice m ltac:(lia)) as [rest ->]];
      (split; [done|]; split; [by rewrite Href|]);
      unfold rows; cbn [renderRows];
      rewrite isUnavailableWeek_hasAvailableDays, Hav; done.
  - by rewrite weeks_continuing_none.
Qed.

Lemma continuation_starts_with_available_week_witness :
  exists r,
    useCalendarDays (getAvailableDatesInMonth today) june2024_sparse = Some r
    /\ (CalendarDays.shouldRenderNextMonth r = true ->
        match CalendarDays.weeks r with
        | [] => firstAvailableIndex (groupedWeeks (allDaysOf r)) = None
        | w :: _ =>
            hasAvailableDays w = true
            /\ firstAvailableIndex (groupedWeeks (allDaysOf r)) = Some (ref w)
            /\ head (rows (browsingDate june2024_sparse) true (CalendarDays.weeks r))
               = Some (WeekRow w)
        end).
Proof.
  apply (continuation_starts_with_available_week (getAvailableDatesInMonth today) june2024_sparse).
  unfold june2024_sparse, propsOf; cbn [weekStart]; lia.
Defined.

(** ** The separator of the transition row *)

(** The decorations of a cell of the transition row, by its position. *)
Lemma separator_cases (t idx : nat) :
  separator true (Some t) idx
  = if idx <? t then BottomLine :: (if idx =? 0 then [MonthLabel] else [])
    else if idx =? t then TopLine :: (if idx =? 0 then [MonthLabel] else [LeftLine])
    else [TopLine].
Proof.
  unfold separator.
  destruct (Nat.ltb_spec idx t), (Nat.eqb_spec idx t), (Nat.ltb_spec t idx),
    (Nat.eqb_spec idx 0); cbn; try lia; reflexivity.
Qed.

(** A null cell of the day sequence is one of the padding cells. *)
Lemma allDaysOf_null h p r i o :
  (0 <= weekStart p <= 6)%Z ->
  useCalendarDays h p = Some r ->
  allDaysOf r !! i = Some o -> day o = None ->
  i < paddingBeforeFirst (browsingDate p) (weekStart p).
Proof.
  intros Hws Hr Hi Hd. rewrite (allDaysOf_eq h p r Hws Hr) in Hi.
  apply lookup_app_Some in Hi as [Hi|[_ Hi]].
  - apply lookup_app_Some in Hi as [Hi|[_ Hi]].
    + by apply lookup_replicate in Hi as [_ Hi].
    + rewrite map_fmap, list_lookup_fmap in Hi.
      destruct (monthDates (browsingDate p) !! _); [|done].
      cbn in Hi. injection Hi as <-. done.
  - destruct (CalendarDays.shouldRenderNextMonth r); [|done].
    rewrite map_fmap, list_lookup_fmap in Hi.
    destruct (monthDates (Dayjs.add_month 1 (browsingDate p)) !! _); [|done].
    cbn in Hi. injection Hi as <-. done.
Qed.

(** X11. The separator of the transition row runs between the two months.
    In a week the hook returns that holds day 1 of the next month, at index
    t, continuation is active, t is the boundary modulo 7 and the week at
    position j of the returned weeks starts at position 7 * (firstWeek + j) of
    the day sequence, 7 * (firstWeek + j) + t being the boundary; every cell
    of the week holds a date; the cells of the browsing month get the line at
    their bottom and the cells of the next month the line at their top, so
    every cell gets exactly one horizontal line; the label of the next month
    is drawn over the first cell of the row only, and the vertical line at the
    first cell of the next month unless it starts the row. *)
Theorem separator_between_months
    (h : Dayjs -> option Dayjs -> list string -> list string) (p : UseCalendarDaysProps) :
  (0 <= weekStart p <= 6)%Z ->
  exists r,
    useCalendarDays h p = Some r
    /\ forall j w t,
         CalendarDays.weeks r !! j = Some w ->
         transitionIndex (browsingDate p) w = Some t ->
         CalendarDays.shouldRenderNextMonth r = true
         /\ 7 * (firstWeek r + j) + t = boundary (browsingDate p) (weekStart p)
         /\ t = boundary (browsingDate p) (weekStart p) mod 7
         /\ forall c o, items w !! c = Some o ->
              exists d,
                day o = Some d
                /\ (BottomLine ∈ separator (CalendarDays.shouldRenderNextMonth r) (Some t) c
                    <-> dayIsInNextMonth (browsingDate p) d = false)
                /\ (TopLine ∈ separator (CalendarDays.shouldRenderNextMonth r) (Some t) c
                    <-> dayIsInNextMonth (browsingDate p) d = true)
                /\ (MonthLabel ∈ separator (CalendarDays.shouldRenderNextMonth r) (Some t) c
                    <-> c = 0)
                /\ (LeftLine ∈ separator (CalendarDays.shouldRenderNextMonth r) (Some t) c
                    <-> c = t /\ c <> 0)
                /\ NoDup (separator (CalendarDays.shouldRenderNextMonth r) (Some t) c).
Proof.
  intros Hws.
  destruct (useCalendarDays h p) as [r|] eqn:Hr; [|by rewrite useCalendarDays_eq in Hr].
  exists r. split; [done|]. intros j w t Hj Ht.
  pose proof (weeks_lookup_ref h p r j w Hr Hj) as Href.
  assert (w ∈ CalendarDays.weeks r) as Hw by (by apply list_elem_of_lookup_2 in Hj).
  pose proof (add_month_other_month (browsingDate p)) as Hne.
  pose proof (daysInMonth_bounds (browsingDate p)) as Hlen.
  pose proof (paddingBeforeFirst_lt (browsingDate p) (weekStart p)) as Hpad.
  apply findIndex_Some in Ht as (ot & Hot & Hpt & _).
  destruct (day ot) as [dt|] eqn:Hdt; [|done].
  apply andb_true_iff in Hpt as [Hdate Hmonth]. apply Z.eqb_eq in Hdate, Hmonth.
  destruct (weeks_cell h p r w t ot Hr Hw Hot) as [Htlt Hit].
  destruct (allDaysOf_cell h p r _ ot dt Hws Hr Hit Hdt)
    as [(_ & -> & _)|(Hs & Hrange & -> & _)];
    cbn [Dayjs.set_date Dayjs.month Dayjs.date] in Hdate, Hmonth; [done|].
  assert (7 * ref w + t = boundary (browsingDate p) (weekStart p)) as Hb by lia.
  split; [done|]. split; [lia|]. split; [lia|].
  intros c o Hc. rewrite Hs, separator_cases.
  destruct (weeks_cell h p r w c o Hr Hw Hc) as [Hclt Hi].
  destruct (day o) as [d|] eqn:Hd.
  2: { pose proof (allDaysOf_null h p r _ o Hws Hr Hi Hd). unfold boundary in Hb. lia. }
  exists d. split; [done|]. unfold dayIsInNextMonth.
  assert ((c <? t) = negb (Dayjs.month d =? Dayjs.month (Dayjs.add_month 1 (browsingDate p)))%Z)
    as Hside.
  { destruct (allDaysOf_cell h p r _ o d Hws Hr Hi Hd)
      as [(Hr1 & -> & _)|(_ & Hr2 & -> & _)]; cbn [Dayjs.set_date Dayjs.month].
    - rewrite (proj2 (Z.eqb_neq _ _) Hne). apply Nat.ltb_lt. lia.
    - rewrite Z.eqb_refl. apply Nat.ltb_ge. lia. }
  rewrite <- (negb_involutive (_ =? _)%Z), <- Hside.
  destruct (Nat.ltb_spec c t), (Nat.eqb_spec c t), (Nat.eqb_spec c 0); try lia;
    cbn [negb];
    (split; [|split; [|split; [|split]]]);
    lazymatch goal with
    | |- NoDup _ => apply (bool_decide_unpack _); vm_compute; exact I
    | |- _ => rewrite ?elem_of_cons, ?elem_of_nil; intuition (try discriminate; try lia)
    end.
Qed.

Lemma separator_between_months_witness :
  exists r,
    useCalendarDays (getAvailableDatesInMonth today) june2024_cutover = Some r
    /\ forall j w t,
         CalendarDays.weeks r !! j = Some w ->
         transitionIndex (browsingDate june2024_cutover) w = Some t ->
         CalendarDays.shouldRenderNextMonth r = true
         /\ 7 * (firstWeek r + j) + t
            = boundary (browsingDate june2024_cutover) (weekStart june2024_cutover)
         /\ t = boundary (browsingDate june2024_cutover) (weekStart june2024_cutover) mod 7
         /\ forall c o, items w !! c = Some o ->
              exists d,
                day o = Some d
                /\ (BottomLine ∈ separator (CalendarDays.shouldRenderNextMonth r) (Some t) c
                    <-> dayIsInNextMonth (browsingDate june2024_cutover) d = false)
                /\ (TopLine ∈ separator (CalendarDays.shouldRenderNextMonth r) (Some t) c
                    <-> dayIsInNextMonth (browsingDate june2024_cutover) d = true)
                /\ (MonthLabel ∈ separator (CalendarDays.shouldRenderNextMonth r) (Some t) c
                    <-> c = 0)
                /\ (LeftLine ∈ separator (CalendarDays.shouldRenderNextMonth r) (Some t) c
                    <-> c = t /\ c <> 0)
                /\ NoDup (separator (CalendarDays.shouldRenderNextMonth r) (Some t) c).
Proof.
  apply (separator_between_months (getAvailableDatesInMonth today) june2024_cutover).
  unfold june2024_cutover, propsOf; cbn [weekStart]; lia.
Defined.

(** The transition row of [june2024_cutover]: with 6 padding cells and 30
    days, 30 June is the first cell of the row, under the label and over the
    line; 1 July is the second cell, with the vertical line at its left. *)
Example june2024_cutover_separator :
  (fun r => (fun w => (firstWeek r, transitionIndex (browsingDate june2024_cutover) w,
                       map (separator (CalendarDays.shouldRenderNextMonth r)
                              (transitionIndex (browsingDate june2024_cutover) w))
                         (seq 0 3)))
            <$> head (CalendarDays.weeks r))
    <$> useCalendarDays (getAvailableDatesInMonth today) june2024_cutover
  = Some (Some (5, Some 1, [[BottomLine; MonthLabel]; [TopLine; LeftLine]; [TopLine]])).
Proof. vm_compute. reflexivity. Qed.

(** ** The month label *)



(** * Further properties: the token check of the cron routes *)

Module CronRoutesFacts.
Import CronRoutes.

Lemma space_cons s : String space s = " " +:+ s.
Proof. reflexivity. Qed.

Lemma split_space_nospace t : has_space t = false -> split_space t = [t].
Proof.
  induction t as [|c t IH]; [done|]. cbn [has_space split_space].
  intros [Hc Ht]%orb_false_iff. rewrite Hc, IH by done. done.
Qed.

Lemma split_space_app t s :
  has_space t = false -> split_space (t +:+ " " +:+ s) = t :: split_space s.
Proof.
  induction t as [|c t IH]; [done|]. cbn [has_space].
  intros [Hc Ht]%orb_false_iff.
  change (String c t +:+ " " +:+ s) with (String c (t +:+ " " +:+ s)).
  cbn [split_space]. rewrite Hc, IH by done. done.
Qed.

(** The first part of a split, and what follows it. *)
Lemma split_space_spec s :
  exists t parts,
    split_space s = t :: parts
    /\ has_space t = false
    /\ ((parts = [] /\ s = t)
        \/ exists s', s = t +:+ " " +:+ s' /\ parts = split_space s').
Proof.
  induction s as [|c s IH].
  - exists EmptyString, []. repeat split; auto.
  - cbn [split_space]. destruct (Ascii.eqb_spec c space) as [->|Hc].
    + exists EmptyString, (split_space s). repeat split. right. by exists s.
    + destruct IH as (t & parts & -> & Ht & Hs).
      exists (String c t), parts. split; [done|]. split.
      { cbn [has_space]. rewrite Ht. by rewrite (proj2 (Ascii.eqb_neq _ _) Hc). }
      destruct Hs as [[-> ->]|(s' & -> & ->)]; [by left|].
      right. by exists s'.
Qed.

Lemma split_space_parts s : forall part, part ∈ split_space s -> has_space part = false.
Proof.
  induction s as [|c s IH]; intros part.
  - cbn. by intros ->%list_elem_of_singleton.
  - cbn [split_space]. destruct (Ascii.eqb_spec c space) as [->|Hc].
    + intros [->|Hin]%elem_of_cons; [done | by apply IH].
    + destruct (split_space s) as [|p parts].
      * intros ->%list_elem_of_singleton. cbn.
        by rewrite (proj2 (Ascii.eqb_neq _ _) Hc).
      * intros [->|Hin]%elem_of_cons.
        -- cbn [has_space]. rewrite (proj2 (Ascii.eqb_neq _ _) Hc). cbn.
           apply IH. by left.
        -- apply IH. by right.
Qed.

Lemma join_space_cons part parts :
  parts <> [] -> join_space (part :: parts) = part +:+ " " +:+ join_space parts.
Proof. by destruct parts. Qed.

Lemma join_space_String c part parts :
  join_space (String c part :: parts) = String c (join_space (part :: parts)).
Proof. by destruct parts. Qed.

Lemma split_space_not_nil s : split_space s <> [].
Proof. by destruct (split_space_spec s) as (t & parts & -> & _). Qed.

(** The check as a whole: what is accepted. *)
Lemma verifyToken_Returns secret authorization b :
  verifyToken secret authorization = Returns b <->
  b = true
  /\ exists token,
       secret = Some token /\ token <> EmptyString /\ has_space token = false
       /\ (authorization = Some ("Bearer " +:+ token)
           \/ exists rest, authorization = Some ("Bearer " +:+ token +:+ " " +:+ rest)).
Proof.
  unfold verifyToken. cbv zeta. split.
  - destruct authorization as [a|]; [|done].
    change (default EmptyString (Some a)) with a. cbn [truthy_string negb].
    destruct (String.eqb_spec a EmptyString) as [->|Ha]; [done|]. cbn [negb].
    destruct (split_space_spec a) as (t & parts & Hsplit & Ht & Hrest).
    rewrite Hsplit. cbn [lookup list_lookup].
    case_bool_decide as Hb; [|done]. cbn [negb]. injection Hb as ->.
    destruct parts as [|token parts2] eqn:Hparts; [done|]. cbn [lookup list_lookup].
    cbn [truthy_string].
    destruct (String.eqb_spec token EmptyString) as [->|Htok]; [done|]. cbn [negb].
    case_bool_decide as Hs; [|done]. cbn [negb]. intros [= <-]. split; [done|].
    exists token. split; [done|]. split; [done|].
    destruct Hrest as [[? _]|(s' & -> & Hs')]; [done|].
    destruct (split_space_spec s') as (t' & parts' & Hsplit' & Ht' & Hrest').
    rewrite Hsplit' in Hs'. injection Hs' as -> ->. split; [done|].
    destruct Hrest' as [[_ ->]|(s'' & -> & _)]; [by left|].
    right. by exists s''.
  - intros (-> & token & -> & Htok & Hsp & Hauth).
    assert (exists a parts, authorization = Some a /\ a <> EmptyString
                            /\ split_space a = "Bearer" :: token :: parts)
      as (a & parts & -> & Ha & Hsplit).
    { destruct Hauth as [->|(rest & ->)].
      - eexists _, []. split; [done|]. split; [done|].
        change ("Bearer " +:+ token) with ("Bearer" +:+ " " +:+ token).
        rewrite (split_space_app "Bearer") by done. by rewrite split_space_nospace.
      - eexists _, (split_space rest). split; [done|]. split; [done|].
        change ("Bearer " +:+ token +:+ " " +:+ rest)
          with ("Bearer" +:+ " " +:+ token +:+ " " +:+ rest).
        rewrite (split_space_app "Bearer") by done. by rewrite split_space_app. }
    change (default EmptyString (Some a)) with a. cbn [truthy_string].
    rewrite (proj2 (String.eqb_neq _ _) Ha), Hsplit. cbn [negb lookup list_lookup].
    rewrite bool_decide_true by done. cbn [negb truthy_string].
    rewrite (proj2 (String.eqb_neq _ _) Htok). cbn [negb].
    by rewrite bool_decide_true.
Qed.

Lemma verifyToken_Throws secret authorization m :
  verifyToken secret authorization = Throws m ->
  m = TOKEN_NOT_SUPPLIED \/ m = TOKEN_INVALID.
Proof.
  unfold verifyToken.
  repeat match goal with
         | |- context [if negb ?b then _ else _] => destruct b; cbn [negb]
         end; intros [= <-]; auto.
Qed.

End CronRoutesFacts.

(** Splitting a text at its spaces and joining the parts with spaces gives
    the text back; there is always at least one part, no part has a space in
    it, and a text without a space is its own single part. *)
Lemma split_space_join (s : string) :
  CronRoutes.join_space (CronRoutes.split_space s) = s
  /\ CronRoutes.split_space s <> []
  /\ (forall part, part ∈ CronRoutes.split_space s -> CronRoutes.has_space part = false)
  /\ (CronRoutes.has_space s = false -> CronRoutes.split_space s = [s]).
Proof.
  split; [|split; [|split]].
  - induction s as [|c s IH]; [done|]. cbn [CronRoutes.split_space].
    pose proof (CronRoutesFacts.split_space_not_nil s) as Hne.
    destruct (Ascii.eqb_spec c CronRoutes.space) as [->|Hc].
    + rewrite CronRoutesFacts.join_space_cons, IH by done. reflexivity.
    + destruct (CronRoutes.split_space s) as [|part parts]; [done|].
      by rewrite CronRoutesFacts.join_space_String, IH.
  - apply CronRoutesFacts.split_space_not_nil.
  - apply CronRoutesFacts.split_space_parts.
  - apply CronRoutesFacts.split_space_nospace.
Qed.

(** X13. The token check accepts exactly the headers made of the word
    Bearer, one space and the secret, optionally followed by a space and
    anything else, and only when the secret is set, not empty and has no space
    in it: with any other secret every header is refused. It never returns
    false and it throws TOKEN_NOT_SUPPLIED or TOKEN_INVALID only; a missing or
    empty header, and a header with nothing or a second space right after
    Bearer, are TOKEN_NOT_SUPPLIED. *)
Theorem verifyToken_accepts_iff (secret authorization : option string) :
  (CronRoutes.verifyToken secret authorization = Returns true <->
   exists token,
     secret = Some token /\ token <> EmptyString /\ CronRoutes.has_space token = false
     /\ (authorization = Some ("Bearer " +:+ token)
         \/ exists rest, authorization = Some ("Bearer " +:+ token +:+ " " +:+ rest)))
  /\ CronRoutes.verifyToken secret authorization <> Returns false
  /\ (forall m, CronRoutes.verifyToken secret authorization = Throws m ->
        m = CronRoutes.TOKEN_NOT_SUPPLIED \/ m = CronRoutes.TOKEN_INVALID)
  /\ ((secret = None \/ secret = Some EmptyString
       \/ exists token, secret = Some token /\ CronRoutes.has_space token = true) ->
      exists m, CronRoutes.verifyToken secret authorization = Throws m)
  /\ ((authorization = None \/ authorization = Some EmptyString
       \/ authorization = Some "Bearer"
       \/ exists rest, authorization = Some ("Bearer " +:+ " " +:+ rest)) ->
      CronRoutes.verifyToken secret authorization = Throws CronRoutes.TOKEN_NOT_SUPPLIED).
Proof.
  split; [|split; [|split; [|split]]].
  - rewrite CronRoutesFacts.verifyToken_Returns.
    split; [by intros [_ H] | by intros H].
  - intros H. by apply CronRoutesFacts.verifyToken_Returns in H as [? _].
  - apply CronRoutesFacts.verifyToken_Throws.
  - intros Hsecret.
    destruct (CronRoutes.verifyToken secret authorization) as [b|m] eqn:Hv; [|by exists m].
    apply CronRoutesFacts.verifyToken_Returns in Hv as (_ & token & -> & Hne & Hsp & _).
    destruct Hsecret as [?|[[= ->]|(t & [= <-] & Hsp')]]; [done|done|congruence].
  - intros [->|[->|[->|(rest & ->)]]]; reflexivity.
Qed.

(** Headers that carry the secret: a lower-case scheme, a doubled space and
    a leading space are refused, text after the secret is ignored, and a
    secret of two words can never be presented. *)
Example verifyToken_refused :
  CronRoutes.verifyToken (Some "s3cret") (Some "bearer s3cret")
  = Throws CronRoutes.TOKEN_INVALID
  /\ CronRoutes.verifyToken (Some "s3cret") (Some "Bearer  s3cret")
     = Throws CronRoutes.TOKEN_NOT_SUPPLIED
  /\ CronRoutes.verifyToken (Some "s3cret") (Some " Bearer s3cret")
     = Throws CronRoutes.TOKEN_INVALID
  /\ CronRoutes.verifyToken (Some "s3cret") (Some "Bearer s3cret and more")
     = Returns true
  /\ CronRoutes.verifyToken (Some "two words") (Some "Bearer two words")
     = Throws CronRoutes.TOKEN_INVALID.
Proof. repeat split; vm_compute; reflexivity. Qed.

(** X14. The middleware calls the next handler exactly when the token check
    accepts the header, and then answers nothing itself unless that handler
    throws. Every answer it sends has status 401: for a refused header the
    message is TOKEN_NOT_SUPPLIED or TOKEN_INVALID and the next handler is not
    called; an Error thrown by the next handler is answered with its own
    message, also under 401, and any other thrown value with the fixed text.
    Whatever is caught is logged. *)
Theorem verifyCronRoutesToken_outcome
    (secret authorization : option string) (next : CronRoutes.NextResult) :
  let outcome := CronRoutes.verifyCronRoutesToken secret authorization next in
  (CronRoutes.nextCalled outcome = true
   <-> CronRoutes.verifyToken secret authorization = Returns true)
  /\ (CronRoutes.response outcome = None
      <-> CronRoutes.verifyToken secret authorization = Returns true
          /\ next = CronRoutes.NextReturns)
  /\ (forall r, CronRoutes.response outcome = Some r -> CronRoutes.status r = 401)
  /\ (CronRoutes.nextCalled outcome = false ->
      exists m,
        CronRoutes.response outcome
        = Some {| CronRoutes.status := 401; CronRoutes.message := m |}
        /\ CronRoutes.logged outcome = Some (CronRoutes.ErrorObject m)
        /\ (m = CronRoutes.TOKEN_NOT_SUPPLIED \/ m = CronRoutes.TOKEN_INVALID))
  /\ (forall error,
        CronRoutes.nextCalled outcome = true -> next = CronRoutes.NextThrows error ->
        CronRoutes.logged outcome = Some error
        /\ CronRoutes.response outcome
           = Some {| CronRoutes.status := 401;
                     CronRoutes.message :=
                       match error with
                       | CronRoutes.ErrorObject m => m
                       | CronRoutes.OtherValue => "Unable to verify cron token"
                       end |}).
Proof.
  assert (forall m, CronRoutes.catch (CronRoutes.ErrorObject m)
                    = {| CronRoutes.status := 401; CronRoutes.message := m |}) as Hcatch.
  { intros m. cbn. by destruct (includes _ _). }
  cbv zeta. unfold CronRoutes.verifyCronRoutesToken.
  destruct (CronRoutes.verifyToken secret authorization) as [b|m] eqn:Hv.
  - assert (b = true) as -> by (by apply CronRoutesFacts.verifyToken_Returns in Hv as [? _]).
    destruct next as [|error];
      cbn [CronRoutes.nextCalled CronRoutes.response CronRoutes.logged];
      (split; [done|]); (split; [intuition congruence|]); (split; [|split; [done|]]).
    + by intros r [=].
    + by intros error _ [=].
    + intros r [= <-]. by destruct error.
    + intros error' _ [= <-]. split; [done|]. destruct error; [by rewrite Hcatch | done].
  - cbn [CronRoutes.nextCalled CronRoutes.response CronRoutes.logged]. rewrite Hcatch.
    split; [done|]. split; [intuition congruence|]. split; [|split; [|done]].
    + by intros r [= <-].
    + intros _. exists m. split; [done|]. split; [done|].
      by apply (CronRoutesFacts.verifyToken_Throws secret authorization).
Qed.

(** * Further properties: the reminder about incomplete setups *)

Module NotifyAdminFacts.
Import NotifyAdmin.

Section Handler.

Context {Credential : Type} (services : Services Credential).

(** The inner loop appends at most one task per calendar. *)
Lemma checkCalendars_appends : forall selectedCalendars pendingTasks tasks,
  checkCalendars services selectedCalendars pendingTasks = Returns tasks ->
  exists new,
    tasks = pendingTasks ++ new
    /\ length new <= length selectedCalendars
    /\ Forall (fun task => task = reconnect \/ exists name, task = enableFreeBusy name) new.
Proof.
  induction selectedCalendars as [|calendar rest IH]; intros pendingTasks tasks.
  - intros [= <-]. exists []. by rewrite app_nil_r.
  - assert (forall task,
              (task = reconnect \/ exists name, task = enableFreeBusy name) ->
              checkCalendars services rest (pendingTasks ++ [task]) = Returns tasks ->
              exists new,
                tasks = pendingTasks ++ new
                /\ length new <= length (calendar :: rest)
                /\ Forall (fun task => task = reconnect \/ exists name, task = enableFreeBusy name)
                     new) as Hpush.
    { intros task Htask Hrest. apply IH in Hrest as (new & -> & Hlen & Hall).
      exists (task :: new). rewrite <- app_assoc. split; [done|].
      split; [cbn; lia|]. by constructor. }
    cbn [checkCalendars].
    destruct (negb (truthy_number (credentialId calendar))); [apply Hpush; by left|].
    destruct (credential_findFirst services _) as [[credential|]|e]; cbn [bind];
      [|apply Hpush; by left|done].
    destruct (listCalendarsRaw services credential) as [calendars|e]; cbn [bind]; [|done].
    destruct (Array_find _ calendars) as [externalCalendar|]; [|apply Hpush; by left].
    cbv zeta. destruct (negb (include_infreebusy externalCalendar)).
    + apply Hpush. right. by eexists.
    + intros Hrest. apply IH in Hrest as (new & -> & Hlen & Hall).
      exists new. split; [done|]. split; [cbn; lia | done].
Qed.

(** The outer loop appends at most one issue per managed user, in the order
    of the users, each with at least one pending task. *)
Lemma checkUsers_appends : forall crmUsers incompleteSetups issues,
  checkUsers services crmUsers incompleteSetups = Returns issues ->
  exists new,
    issues = incompleteSetups ++ new
    /\ sublist (map Issue.email new) (map email crmUsers)
    /\ Forall (fun issue => Issue.pendingTasks issue <> []
                            /\ Forall isPendingTask (Issue.pendingTasks issue)) new
    /\ (forall crmUser, crmUser ∈ crmUsers -> status crmUser = "Not Started" ->
          Issue.mk (email crmUser) [notSetUp] ∈ new).
Proof.
  induction crmUsers as [|crmUser rest IH]; intros incompleteSetups issues.
  - intros [= <-]. exists []. rewrite app_nil_r. repeat split; try done.
    by intros crmUser Hin%elem_of_nil.
  - assert (forall tasks,
              tasks <> [] -> Forall isPendingTask tasks ->
              (status crmUser = "Not Started" -> tasks = [notSetUp]) ->
              checkUsers services rest (incompleteSetups ++ [Issue.mk (email crmUser) tasks])
              = Returns issues ->
              exists new,
                issues = incompleteSetups ++ new
                /\ sublist (map Issue.email new) (map email (crmUser :: rest))
                /\ Forall (fun issue => Issue.pendingTasks issue <> []
                                        /\ Forall isPendingTask (Issue.pendingTasks issue)) new
                /\ (forall crmUser0, crmUser0 ∈ crmUser :: rest ->
                      status crmUser0 = "Not Started" ->
                      Issue.mk (email crmUser0) [notSetUp] ∈ new)) as Hpush.
    { intros tasks Hne Htasks Hns Hrest.
      apply IH in Hrest as (new & -> & Hsub & Hall & Hstarted).
      exists (Issue.mk (email crmUser) tasks :: new). rewrite <- app_assoc.
      split; [done|]. split; [by apply sublist_skip|]. split; [by constructor|].
      intros crmUser0 [->|Hin]%elem_of_cons Hs.
      - rewrite (Hns Hs). by left.
      - right. by apply Hstarted. }
    assert (forall task, isPendingTask task -> Forall isPendingTask [task]) as Hone.
    { intros task Htask. apply Forall_cons. split; [done | apply Forall_nil_2]. }
    cbn [checkUsers]. cbv zeta.
    destruct (String.eqb_spec (status crmUser) "Not Started") as [Hs|Hs].
    { apply Hpush; [done | apply Hone; by left | done]. }
    destruct (user_findFirst services (email crmUser)) as [[user|]|e]; cbn [bind];
      [|apply Hpush; [done | apply Hone; by left | done]|done].
    destruct (selectedCalendar_findMany services (id user)) as [selectedCalendars|e];
      cbn [bind]; [|done].
    destruct (length selectedCalendars =? 0).
    { apply Hpush; [done | apply Hone; right; by left | done]. }
    destruct (checkCalendars services selectedCalendars []) as [pendingTasks|e] eqn:Hcheck;
      cbn [bind]; [|done].
    destruct (Nat.eqb_spec (length pendingTasks) 0) as [Hlen|Hlen]; cbn [negb].
    + intros Hrest. apply IH in Hrest as (new & -> & Hsub & Hall & Hstarted).
      exists new. split; [done|]. split; [by apply sublist_cons|]. split; [done|].
      intros crmUser0 [->|Hin]%elem_of_cons Hs0; [done | by apply Hstarted].
    + apply Hpush; [by destruct pendingTasks | | done].
      apply checkCalendars_appends in Hcheck as (new & -> & _ & Hall).
      cbn [app]. eapply Forall_impl; [exact Hall|].
      intros task [->|[name ->]]; unfold isPendingTask; eauto 6.
Qed.

End Handler.

End NotifyAdminFacts.

(** X15. The issues the handler collects, whenever the collection returns:
    at most one issue per managed user, in the order of the users (their
    e-mail addresses are a sublist of the users' addresses); every issue has
    at least one pending task, and every task is one of the three fixed texts
    or the request to enable free busy on a named calendar; every user whose
    status is Not Started is reported with the single task that the managed
    setup has not been done. *)
Theorem incompleteSetups_report {Credential : Type}
    (services : NotifyAdmin.Services Credential)
    (crmUsers : list NotifyAdmin.CrmUser) (issues : list Issue.t) :
  NotifyAdmin.getManagedCrmUsers services = Returns crmUsers ->
  NotifyAdmin.incompleteSetups services = Returns issues ->
  sublist (map Issue.email issues) (map NotifyAdmin.email crmUsers)
  /\ length issues <= length crmUsers
  /\ (forall issue, issue ∈ issues ->
        Issue.pendingTasks issue <> []
        /\ forall task, task ∈ Issue.pendingTasks issue ->
             task = NotifyAdmin.notSetUp \/ task = NotifyAdmin.notConnected
             \/ task = NotifyAdmin.reconnect
             \/ exists name, task = NotifyAdmin.enableFreeBusy name)
  /\ (forall crmUser, crmUser ∈ crmUsers ->
        NotifyAdmin.status crmUser = "Not Started" ->
        Issue.mk (NotifyAdmin.email crmUser) [NotifyAdmin.notSetUp] ∈ issues).
Proof.
  unfold NotifyAdmin.incompleteSetups. intros -> Hcheck. cbn [bind] in Hcheck.
  apply NotifyAdminFacts.checkUsers_appends in Hcheck as (new & -> & Hsub & Hall & Hstarted).
  cbn [app]. split; [done|]. split.
  { apply sublist_length in Hsub. by rewrite !length_map in Hsub. }
  split; [|done].
  intros issue Hin. rewrite Forall_forall in Hall. destruct (Hall issue Hin) as [Hne Htasks].
  split; [done|]. intros task Htask. rewrite Forall_forall in Htasks. by apply Htasks.
Qed.

Lemma incompleteSetups_report_witness :
  sublist (map Issue.email NotifyAdmin.sampleIssues)
    (map NotifyAdmin.email NotifyAdmin.sampleUsers)
  /\ length NotifyAdmin.sampleIssues <= length NotifyAdmin.sampleUsers
  /\ (forall issue, issue ∈ NotifyAdmin.sampleIssues ->
        Issue.pendingTasks issue <> []
        /\ forall task, task ∈ Issue.pendingTasks issue ->
             task = NotifyAdmin.notSetUp \/ task = NotifyAdmin.notConnected
             \/ task = NotifyAdmin.reconnect
             \/ exists name, task = NotifyAdmin.enableFreeBusy name)
  /\ (forall crmUser, crmUser ∈ NotifyAdmin.sampleUsers ->
        NotifyAdmin.status crmUser = "Not Started" ->
        Issue.mk (NotifyAdmin.email crmUser) [NotifyAdmin.notSetUp]
          ∈ NotifyAdmin.sampleIssues).
Proof.
  apply (incompleteSetups_report NotifyAdmin.sampleServices
           NotifyAdmin.sampleUsers NotifyAdmin.sampleIssues);
    vm_compute; reflexivity.
Defined.

(** X16. What the handler does with the mailer. It sends at most one mail,
    and only after every query has returned: when a query throws, the handler
    throws the same error and nothing is sent. When the queries return, the
    mail is sent exactly when some user has an issue and ADMIN_EMAIL is set
    and not empty; it goes to that address and its body is the template
    applied to the issues; the handler then returns the message In progress
    unless the mailer throws. In particular a user with status Not Started
    leads to a mail whenever ADMIN_EMAIL is set and the queries return. *)
Theorem postHandler_mail {Credential : Type} (services : NotifyAdmin.Services Credential) :
  let '(mails, completion) := NotifyAdmin.postHandler services in
  length mails <= 1
  /\ (forall e, NotifyAdmin.incompleteSetups services = Throws e ->
        mails = [] /\ completion = Throws e)
  /\ (forall issues, NotifyAdmin.incompleteSetups services = Returns issues ->
        (mails <> [] <-> issues <> [] /\ truthy_string (NotifyAdmin.ADMIN_EMAIL services) = true)
        /\ (forall mail, mail ∈ mails ->
              Some (NotifyAdmin.to mail) = NotifyAdmin.ADMIN_EMAIL services
              /\ NotifyAdmin.html mail = incompleteSetupReminderEmail issues
              /\ completion
                 = bind (NotifyAdmin.sendMail services mail) (fun _ => Returns "In progress"))
        /\ (mails = [] -> completion = Returns "In progress"))
  /\ (forall message, completion = Returns message -> message = "In progress")
  /\ (forall crmUsers crmUser issues,
        NotifyAdmin.getManagedCrmUsers services = Returns crmUsers ->
        crmUser ∈ crmUsers -> NotifyAdmin.status crmUser = "Not Started" ->
        NotifyAdmin.incompleteSetups services = Returns issues ->
        truthy_string (NotifyAdmin.ADMIN_EMAIL services) = true ->
        mails = [NotifyAdmin.reminder
                   (default EmptyString (NotifyAdmin.ADMIN_EMAIL services)) issues]).
Proof.
  assert (forall crmUsers crmUser issues,
            NotifyAdmin.getManagedCrmUsers services = Returns crmUsers ->
            crmUser ∈ crmUsers -> NotifyAdmin.status crmUser = "Not Started" ->
            NotifyAdmin.incompleteSetups services = Returns issues ->
            issues <> []) as Hstarted.
  { intros crmUsers crmUser issues Hget Hin Hs Hissues ->.
    unfold NotifyAdmin.incompleteSetups in Hissues. rewrite Hget in Hissues.
    cbn [bind] in Hissues.
    apply NotifyAdminFacts.checkUsers_appends in Hissues as (new & Hnew & _ & _ & Hnew').
    cbn [app] in Hnew. subst new. by apply Hnew', elem_of_nil in Hin. }
  unfold NotifyAdmin.postHandler.
  destruct (NotifyAdmin.incompleteSetups services) as [issues|e].
  2: { split_and!; [cbn; lia | by intros e' [= <-] | done | done | done]. }
  destruct (decide (issues = [])) as [->|Hne].
  { cbn [length Nat.eqb negb andb].
    split_and!; [cbn; lia | done | | by intros message [= <-] | ].
    - intros issues' [= <-]. split_and!; [|by intros ? ?%elem_of_nil|done].
      split; [done | by intros [? _]].
    - intros crmUsers crmUser issues' Hget Hin Hs [= <-] _.
      by destruct (Hstarted crmUsers crmUser [] Hget Hin Hs eq_refl). }
  assert (negb (length issues =? 0) = true) as -> by (by destruct issues).
  cbn [andb].
  destruct (truthy_string (NotifyAdmin.ADMIN_EMAIL services)) eqn:Htruthy.
  2: { split_and!; [cbn; lia | done | | by intros message [= <-] | done].
       intros issues' [= <-]. split_and!; [|by intros ? ?%elem_of_nil|done].
       split; [done | by intros [_ ?]]. }
  destruct (NotifyAdmin.ADMIN_EMAIL services) as [address|]; [|done].
  cbv zeta. cbn [default from_option id].
  destruct (NotifyAdmin.sendMail services (NotifyAdmin.reminder address issues))
    as [[]|e] eqn:Hsend.
  - split_and!; [cbn; lia | done | | by intros message [= <-]
                 | by intros crmUsers crmUser issues' _ _ _ [= <-] _].
    intros issues' [= <-]. split_and!; [done | | done].
    intros mail ->%list_elem_of_singleton. by rewrite Hsend.
  - split_and!; [cbn; lia | done | | done
                 | by intros crmUsers crmUser issues' _ _ _ [= <-] _].
    intros issues' [= <-]. split_and!; [done | | done].
    intros mail ->%list_elem_of_singleton. by rewrite Hsend.
Qed.

(** The handler on [sampleServices]: one mail to the administrator about Ann
    and Bob; the list items of a user and the users are joined by commas. *)
Example sampleServices_mail :
  (fun mail => (NotifyAdmin.to mail, NotifyAdmin.subject mail))
    <$> (NotifyAdmin.postHandler NotifyAdmin.sampleServices).1
  = [("admin@example.com", "Reminder: Users with incomplete Cal setup")]
  /\ (NotifyAdmin.postHandler NotifyAdmin.sampleServices).2 = Returns "In progress"
  /\ NotifyAdmin.incompleteSetups NotifyAdmin.sampleServices
     = Returns [ Issue.mk "ann@example.com" ["Managed setup has not been done"];
                 Issue.mk "bob@example.com"
                   ["User needs to enable free busy on zoho calendar: Work"] ]
  /\ Array_join "," (map issuesSnippet
                       [ Issue.mk "a" ["x"; "y"]; Issue.mk "b" ["z"] ])
     = "<p>Email: a<p/><ul><li>x</li>,<li>y</li></ul><br><br>,<p>Email: b<p/><ul><li>z</li></ul><br><br>".
Proof. repeat split; vm_compute; reflexivity. Qed.

(** * Further properties: the recurrence of a Zoom meeting *)

Module ZoomFacts.
Import Zoom.

Lemma plus_one_day_bounds start n :
  plus_one (day start) = Num n -> (1 <= n <= 7)%Z /\ exists d, start = Some d.
Proof.
  destruct start as [d|]; [|done]. cbn. intros [= <-]. split; [|by eexists].
  unfold Dayjs.day.
  match goal with |- context [(?a mod 7)%Z] =>
    pose proof (Z.mod_pos_bound a 7 ltac:(lia)) end. lia.
Qed.

Section GetRecurrence.

Variable tz : string -> string -> completion (option Dayjs).

(** The [switch], case by case. *)
Lemma recurrenceByFrequency_cases event r :
  recurrenceByFrequency tz event r
  = match freq r with
    | DAILY => Returns (Some (recurrenceOfType 1))
    | WEEKLY =>
        match startInZone tz event with
        | Returns start =>
            Returns (Some {| end_date_time := None; type := 2; end_times := None;
                             repeat_interval := None;
                             weekly_days := Some (plus_one (day start));
                             monthly_day := None |})
        | Throws e => Throws e
        end
    | MONTHLY =>
        match startInZone tz event with
        | Returns start =>
            Returns (Some {| end_date_time := None; type := 3; end_times := None;
                             repeat_interval := None;
                             weekly_days := None;
                             monthly_day := Some (date start) |})
        | Throws e => Throws e
        end
    | _ => Returns None
    end.
Proof.
  unfold recurrenceByFrequency. destruct (freq r); try done;
    by destruct (startInZone tz event).
Qed.

End GetRecurrence.

End ZoomFacts.

(** X17. The recurrence sent to Zoom. [getRecurrence] returns nothing exactly
    when the event does not recur or recurs yearly, hourly, minutely or
    secondly, and the meeting then keeps type 2. For a daily, weekly or
    monthly event it throws exactly when the event is weekly or monthly and
    has no attendee (a TypeError) or the time zone conversion of the start
    throws, or else when until is an invalid date (a RangeError); a daily
    event needs no attendee and no time zone. Otherwise the meeting gets type
    8 and the recurrence has type 1, 2 or 3 for daily, weekly and monthly, the
    interval of the event, weekly_days for weekly events only (the day of the
    week of the start in the first attendee's time zone plus 1, a number from
    1 to 7, or NaN when the start is not a date), monthly_day for monthly
    events only, and either the end date, when until is given, or the number
    of occurrences, never both. *)
Theorem getRecurrence_cases
    (tz : string -> string -> completion (option Dayjs)) (toISOString : Z -> string)
    (event : Zoom.CalendarEvent) :
  (Zoom.getRecurrence tz toISOString event = Returns None
   <-> Zoom.recurringEvent event = None
       \/ exists r, Zoom.recurringEvent event = Some r
                    /\ Zoom.freq r <> Zoom.DAILY /\ Zoom.freq r <> Zoom.WEEKLY
                    /\ Zoom.freq r <> Zoom.MONTHLY)
  /\ (Zoom.getRecurrence tz toISOString event = Returns None ->
      Zoom.translateEvent_type tz toISOString event = Returns 2%Z)
  /\ (forall e,
        Zoom.getRecurrence tz toISOString event = Throws e
        <-> exists r,
              Zoom.recurringEvent event = Some r
              /\ (((Zoom.freq r = Zoom.WEEKLY \/ Zoom.freq r = Zoom.MONTHLY)
                   /\ Zoom.startInZone tz event = Throws e)
                  \/ ((Zoom.freq r = Zoom.DAILY
                       \/ ((Zoom.freq r = Zoom.WEEKLY \/ Zoom.freq r = Zoom.MONTHLY)
                           /\ exists start, Zoom.startInZone tz event = Returns start))
                      /\ Zoom.until r = Some Zoom.InvalidDate /\ e = "RangeError")))
  /\ (forall e,
        Zoom.startInZone tz event = Throws e
        <-> (Zoom.attendees event = [] /\ e = "TypeError")
            \/ exists attendee rest,
                 Zoom.attendees event = attendee :: rest
                 /\ tz (Zoom.startTime event) (Zoom.timeZone attendee) = Throws e)
  /\ (forall recurrence type,
        Zoom.getRecurrence tz toISOString event = Returns (Some (recurrence, type)) ->
        type = 8%Z
        /\ Zoom.translateEvent_type tz toISOString event = Returns 8%Z
        /\ exists r,
             Zoom.recurringEvent event = Some r
             /\ Zoom.type recurrence
                = match Zoom.freq r with
                  | Zoom.DAILY => 1%Z
                  | Zoom.WEEKLY => 2%Z
                  | _ => 3%Z
                  end
             /\ Zoom.repeat_interval recurrence = Some (Zoom.interval r)
             /\ (Zoom.freq r = Zoom.WEEKLY <-> is_Some (Zoom.weekly_days recurrence))
             /\ (forall n, Zoom.weekly_days recurrence = Some n ->
                   exists attendee rest start,
                     Zoom.attendees event = attendee :: rest
                     /\ tz (Zoom.startTime event) (Zoom.timeZone attendee) = Returns start
                     /\ n = Zoom.plus_one (Zoom.day start)
                     /\ forall day, n = Zoom.Num day ->
                          (1 <= day <= 7)%Z
                          /\ exists d, start = Some d /\ day = (Dayjs.day d + 1)%Z)
             /\ (Zoom.freq r = Zoom.MONTHLY <-> is_Some (Zoom.monthly_day recurrence))
             /\ (forall n, Zoom.monthly_day recurrence = Some n ->
                   exists start,
                     Zoom.startInZone tz event = Returns start /\ n = Zoom.date start)
             /\ (Zoom.end_date_time recurrence
                 = match Zoom.until r with
                   | Some (Zoom.ValidDate time) => Some (toISOString time)
                   | _ => None
                   end)
             /\ Zoom.until r <> Some Zoom.InvalidDate
             /\ Zoom.end_times recurrence
                = match Zoom.until r with
                  | Some _ => None
                  | None => Some (Zoom.count r)
                  end).
Proof.
  assert (forall e,
            Zoom.startInZone tz event = Throws e
            <-> (Zoom.attendees event = [] /\ e = "TypeError")
                \/ exists attendee rest,
                     Zoom.attendees event = attendee :: rest
                     /\ tz (Zoom.startTime event) (Zoom.timeZone attendee) = Throws e)
    as Hzone.
  { intros e. unfold Zoom.startInZone, Zoom.firstTimeZone.
    destruct (Zoom.attendees event) as [|attendee rest]; cbn [bind].
    - split; [intros [= <-]; by left | intros [[_ ->]|(? & ? & ? & _)]; done].
    - split; [intros He; right; by eexists _, _
             | intros [[? _]|(? & ? & [= <- <-] & He)]; done]. }
  assert (forall start,
            Zoom.startInZone tz event = Returns start ->
            exists attendee rest,
              Zoom.attendees event = attendee :: rest
              /\ tz (Zoom.startTime event) (Zoom.timeZone attendee) = Returns start)
    as Hstart.
  { intros start. unfold Zoom.startInZone, Zoom.firstTimeZone.
    destruct (Zoom.attendees event) as [|attendee rest]; cbn [bind]; [done|].
    intros He. by eexists _, _. }
  unfold Zoom.translateEvent_type, Zoom.getRecurrence, is_Some.
  destruct (Zoom.recurringEvent event) as [r|].
  2: { split_and!; [split; [by left | done] | done | | exact Hzone | done].
       intros e. split; [done | by intros (r & ? & _)]. }
  rewrite ZoomFacts.recurrenceByFrequency_cases. unfold Zoom.withEnd.
  destruct (Zoom.freq r) eqn:Hfreq;
    try (destruct (Zoom.startInZone tz event) as [start|e0] eqn:Hz;
         [pose proof (Hstart start eq_refl) as (attendee & rest & Hatt & Htz)|]);
    destruct (Zoom.until r) as [[time|]|] eqn:Huntil;
    cbn [bind Zoom.Date_toISOString Zoom.recurrenceOfType Zoom.type Zoom.end_date_time
           Zoom.end_times Zoom.repeat_interval Zoom.weekly_days Zoom.monthly_day];
    (split_and!; [| | |exact Hzone|]).
  all: lazymatch goal with
       | |- (_ = Returns None) <-> _ =>
           split;
           [ intros He; first [discriminate He | right; exists r; rewrite Hfreq; by split_and!]
           | intros [He|(r0 & Hr0 & Hd & Hw & Hm)];
             [done | injection Hr0 as <-; first [done | congruence]] ]
       | |- (_ = Returns None) -> _ => intros He; first [discriminate He | done]
       | |- forall e, (_ = Throws e) <-> _ =>
           intros e; split;
           [ intros He;
             first [ discriminate He
                   | injection He as <-; exists r; split; [done|]; rewrite ?Hfreq;
                     first [ left; split; [by auto | done]
                           | right; split_and!; [|done|done];
                             first [ by left | right; split; [by auto | by eexists] ] ] ]
           | intros (r0 & Hr0 & Hcase); injection Hr0 as <-;
             destruct Hcase as [[Hf He]|[Hf [Hu ->]]];
             [ first [ by injection He as <-
                     | exfalso; first [discriminate He | destruct Hf; congruence] ]
             | first [ done
                     | exfalso; destruct Hf as [?|[[?|?] [? ?]]]; congruence ] ] ]
       | |- forall recurrence type, _ =>
           intros recurrence type0 He; first [discriminate He | injection He as <- <-]
       end.
  all: (split; [done|]); (split; [done|]); exists r; rewrite ?Hfreq, ?Huntil;
    cbn [Zoom.type Zoom.end_date_time Zoom.end_times Zoom.repeat_interval
           Zoom.weekly_days Zoom.monthly_day];
    split_and!; try done;
    try (split; [by eexists | done]);
    try (split; [done | by intros [? ?]]).
  all: try (intros n [= <-]; by eexists).
  all: intros n [= <-]; exists attendee, rest, start;
    (split; [exact Hatt|]); (split; [exact Htz|]); (split; [reflexivity|]);
    intros day Hday;
    destruct (ZoomFacts.plus_one_day_bounds _ _ Hday) as [Hrange [d Hd]];
    (split; [exact Hrange|]); exists d; (split; [exact Hd|]);
    rewrite Hd in Hday; cbn in Hday; by injection Hday as <-.
Qed.

(** A weekly meeting that starts on a Sunday in the time zone of the first
    attendee repeats on day 1. The translation throws without attendees, for
    a time zone that is not known and for an invalid end date; a start that is
    not a date gives NaN; a daily meeting needs neither attendee nor zone. *)
Example weekly_on_sunday :
  (fun c => match c with
            | Returns (Some (recurrence, _)) => Some (Zoom.weekly_days recurrence)
            | _ => None
            end)
    <$> [ Zoom.getRecurrence Zoom.sample_tz (fun _ => "2024-12-31T00:00:00.000Z")
            (Zoom.sampleEvent Zoom.WEEKLY None "2024-06-30T09:00:00Z" ["Europe/London"]);
          Zoom.getRecurrence Zoom.sample_tz (fun _ => "2024-12-31T00:00:00.000Z")
            (Zoom.sampleEvent Zoom.WEEKLY None "soon" ["Europe/London"]) ]
  = [Some (Some (Zoom.Num 1)); Some (Some Zoom.NaN)]
  /\ (fun event => Zoom.getRecurrence Zoom.sample_tz (fun _ => "2024-12-31T00:00:00.000Z")
                     event)
       <$> [ Zoom.sampleEvent Zoom.WEEKLY None "2024-06-30T09:00:00Z" [];
             Zoom.sampleEvent Zoom.MONTHLY None "2024-06-30T09:00:00Z" ["Mars/Olympus"];
             Zoom.sampleEvent Zoom.DAILY (Some Zoom.InvalidDate) "2024-06-30T09:00:00Z" [];
             Zoom.sampleEvent Zoom.YEARLY (Some Zoom.InvalidDate) "2024-06-30T09:00:00Z" [] ]
     = [Throws "TypeError"; Throws "RangeError"; Throws "RangeError"; Returns None]
  /\ Zoom.translateEvent_type Zoom.sample_tz (fun _ => "2024-12-31T00:00:00.000Z")
       (Zoom.sampleEvent Zoom.DAILY None "2024-06-30T09:00:00Z" [])
     = Returns 8%Z.
Proof. repeat split; vm_compute; reflexivity. Qed.
